(** * Certificate-verification pipeline of the client

    A shallow embedding of [analyzeFile], [localVerification], [sha256Hex] and
    [extractCertificateNumber] (client verification module) together with the
    response types of [shared/api.ts], and the properties the specification
    states about them; then the [APIClient] of [shared/api.ts] underneath the
    pipeline's services and the [MLStatus] badge.

    Conventions.
    - A JavaScript string is a [string]; the only characters the code inspects
      are ASCII (letters, digits, hyphen), every other byte never matches.
    - A JavaScript [number] that is compared with a literal is a binary64
      [float]; integers that are only stored or compared with [0] are [Z]/[N].
    - An optional field ([x?: T], [T | null], [T | undefined]) is an [option].
    - A promise that may reject is an [Outcome]; [try]/[catch] is [try_catch]. *)

From Stdlib Require Import ZArith NArith List String Ascii Bool Lia.
From Stdlib Require Import Sorting.Sorted DecimalString.
From Stdlib Require Import Strings.Byte.
From Stdlib Require Import Floats.PrimFloat.
Import ListNotations.

Set Warnings "-inexact-float".

(* ================================================================== *)
(** ** JavaScript built-ins the module relies on *)

Module Js.

(** Truthiness of a string value: the empty string is falsy. *)
Definition truthy (s : string) : bool :=
  match s with EmptyString => false | String _ _ => true end.

(** Truthiness of [string | null | undefined]. *)
Definition truthy_opt (o : option string) : bool :=
  match o with Some s => truthy s | None => false end.

(** [a || b] on [string | null]. *)
Definition or_else (a b : option string) : option string :=
  if truthy_opt a then a else b.

(** [s.startsWith(p)]. *)
Definition startsWith (s p : string) : bool := String.prefix p s.

Definition isDigit (c : ascii) : bool :=
  let n := nat_of_ascii c in (48 <=? n)%nat && (n <=? 57)%nat.

Definition isUpper (c : ascii) : bool :=
  let n := nat_of_ascii c in (65 <=? n)%nat && (n <=? 90)%nat.

Definition isLower (c : ascii) : bool :=
  let n := nat_of_ascii c in (97 <=? n)%nat && (n <=? 122)%nat.

(** [[A-Z]] under the [i] flag. *)
Definition isLetter (c : ascii) : bool := isUpper c || isLower c.

(** [toUpperCase] on one ASCII character. *)
Definition upperChar (c : ascii) : ascii :=
  if isLower c then ascii_of_nat (nat_of_ascii c - 32) else c.

Fixpoint toUpperCase (s : string) : string :=
  match s with
  | EmptyString => EmptyString
  | String c r => String (upperChar c) (toUpperCase r)
  end.

(** One hexadecimal digit, lowercase, as [Number.prototype.toString(16)]
    prints it. *)
Definition hexDigit (d : N) : ascii :=
  match d with
  | 0 => "0" | 1 => "1" | 2 => "2" | 3 => "3" | 4 => "4" | 5 => "5"
  | 6 => "6" | 7 => "7" | 8 => "8" | 9 => "9" | 10 => "a" | 11 => "b"
  | 12 => "c" | 13 => "d" | 14 => "e" | _ => "f"
  end%N%char.

Fixpoint hexDigits (fuel : nat) (n : N) (acc : string) : string :=
  match fuel with
  | O => acc
  | S f =>
      let acc' := String (hexDigit (n mod 16)) acc in
      if (n / 16 =? 0)%N then acc' else hexDigits f (n / 16) acc'
  end.

(** [n.toString(16)] for a non-negative integer [n]. *)
Definition toString16 (n : N) : string :=
  hexDigits (S (N.size_nat n)) n EmptyString.

Fixpoint repeatChar (c : ascii) (k : nat) : string :=
  match k with O => EmptyString | S k' => String c (repeatChar c k') end.

(** [s.padStart(len, c)] with a one-character filler. *)
Definition padStart (len : nat) (c : ascii) (s : string) : string :=
  (repeatChar c (len - String.length s) ++ s)%string.

(** [parts.join("")]. *)
Definition join (parts : list string) : string :=
  fold_right String.append EmptyString parts.

Definition isLowerHex (c : ascii) : bool :=
  let n := nat_of_ascii c in
  isDigit c || ((97 <=? n)%nat && (n <=? 102)%nat).

Fixpoint allChars (p : ascii -> bool) (s : string) : bool :=
  match s with
  | EmptyString => true
  | String c r => p c && allChars p r
  end.

End Js.

(* ================================================================== *)
(** ** SHA-256 (FIPS 180-4), the digest [crypto.subtle.digest] computes *)

Module SHA256.
Local Open Scope Z_scope.

Definition w32 : Z := 4294967296.

Definition add32 (a b : Z) : Z := (a + b) mod w32.
Definition rotr (n x : Z) : Z :=
  Z.lor (Z.shiftr x n) (Z.shiftl x (32 - n) mod w32).
Definition shr (n x : Z) : Z := Z.shiftr x n.
Definition not32 (x : Z) : Z := Z.lxor x (w32 - 1).

Definition Ch (x y z : Z) : Z := Z.lxor (Z.land x y) (Z.land (not32 x) z).
Definition Maj (x y z : Z) : Z :=
  Z.lxor (Z.lxor (Z.land x y) (Z.land x z)) (Z.land y z).
Definition bigSigma0 (x : Z) : Z :=
  Z.lxor (Z.lxor (rotr 2 x) (rotr 13 x)) (rotr 22 x).
Definition bigSigma1 (x : Z) : Z :=
  Z.lxor (Z.lxor (rotr 6 x) (rotr 11 x)) (rotr 25 x).
Definition smallSigma0 (x : Z) : Z :=
  Z.lxor (Z.lxor (rotr 7 x) (rotr 18 x)) (shr 3 x).
Definition smallSigma1 (x : Z) : Z :=
  Z.lxor (Z.lxor (rotr 17 x) (rotr 19 x)) (shr 10 x).

(** The first [n] primes, by trial division. *)
Definition isPrime (n : Z) : bool :=
  (2 <=? n) &&
  forallb (fun d => negb (n mod d =? 0))
          (map Z.of_nat (seq 2 (Z.to_nat n - 2))).

Definition primes (n : nat) : list Z :=
  firstn n (filter isPrime (map Z.of_nat (seq 2 310))).

(** Integer cube root, one bit at a time from bit [bits - 1] down. *)
Fixpoint cubeRootBits (bits : nat) (acc n : Z) : Z :=
  match bits with
  | O => acc
  | S b =>
      let cand := acc + 2 ^ Z.of_nat b in
      cubeRootBits b (if cand * cand * cand <=? n then cand else acc) n
  end.

Definition cubeRoot (n : Z) : Z := cubeRootBits 36 0 n.

(** Round constants: the first 32 bits of the fractional parts of the cube
    roots of the first 64 primes. *)
Definition K : list Z :=
  Eval vm_compute in map (fun p => cubeRoot (p * 2 ^ 96) mod w32) (primes 64).

(** The eight working words. *)
Record Hash := mkHash {
  ha : Z; hb : Z; hc : Z; hd : Z; he : Z; hf : Z; hg : Z; hh : Z }.

(** Initial hash value: the first 32 bits of the fractional parts of the
    square roots of the first 8 primes. *)
Definition H0 : Hash :=
  Eval vm_compute in
    match map (fun p => Z.sqrt (p * 2 ^ 64) mod w32) (primes 8) with
    | [a; b; c; d; e; f; g; h] => mkHash a b c d e f g h
    | _ => mkHash 0 0 0 0 0 0 0 0
    end.

Definition byteZ (b : byte) : Z := Z.of_N (Byte.to_N b).

Definition byteOfZ (z : Z) : byte :=
  match Byte.of_N (Z.to_N (z mod 256)) with
  | Some b => b
  | None => x00
  end.

(** Big-endian bytes of a 64-bit length. *)
Definition be64 (n : Z) : list Z :=
  map (fun i => Z.shiftr n (8 * i) mod 256) [7; 6; 5; 4; 3; 2; 1; 0].

(** Message padding: a [1] bit, zeros, and the bit length, up to a multiple
    of 64 bytes. *)
Definition pad (msg : list Z) : list Z :=
  let len := Z.of_nat (List.length msg) in
  msg ++ [0x80] ++ repeat 0 (Z.to_nat ((55 - len) mod 64)) ++ be64 (8 * len).

Fixpoint words (bs : list Z) : list Z :=
  match bs with
  | b0 :: b1 :: b2 :: b3 :: r =>
      (b0 * 16777216 + b1 * 65536 + b2 * 256 + b3) :: words r
  | _ => []
  end.

Fixpoint chunks (fuel : nat) (ws : list Z) : list (list Z) :=
  match fuel with
  | O => []
  | S f =>
      match ws with
      | [] => []
      | _ => firstn 16 ws :: chunks f (skipn 16 ws)
      end
  end.

(** Message schedule, most recent word first. *)
Fixpoint schedule (n : nat) (recent : list Z) : list Z :=
  match n with
  | O => recent
  | S n' =>
      let w := add32 (add32 (smallSigma1 (nth 1 recent 0)) (nth 6 recent 0))
                     (add32 (smallSigma0 (nth 14 recent 0)) (nth 15 recent 0)) in
      schedule n' (w :: recent)
  end.

Definition round (s : Hash) (kw : Z * Z) : Hash :=
  let (k, w) := kw in
  let t1 := add32 (add32 (add32 (hh s) (bigSigma1 (he s)))
                         (add32 (Ch (he s) (hf s) (hg s)) k)) w in
  let t2 := add32 (bigSigma0 (ha s)) (Maj (ha s) (hb s) (hc s)) in
  mkHash (add32 t1 t2) (ha s) (hb s) (hc s)
         (add32 (hd s) t1) (he s) (hf s) (hg s).

Definition compress (h : Hash) (block : list Z) : Hash :=
  let w := rev (schedule 48 (rev block)) in
  let s := fold_left round (combine K w) h in
  mkHash (add32 (ha h) (ha s)) (add32 (hb h) (hb s))
         (add32 (hc h) (hc s)) (add32 (hd h) (hd s))
         (add32 (he h) (he s)) (add32 (hf h) (hf s))
         (add32 (hg h) (hg s)) (add32 (hh h) (hh s)).

Definition wordBytes (w : Z) : list byte :=
  [ byteOfZ (Z.shiftr w 24); byteOfZ (Z.shiftr w 16);
    byteOfZ (Z.shiftr w 8); byteOfZ w ].

Definition hashBytes (h : Hash) : list byte :=
  wordBytes (ha h) ++ wordBytes (hb h) ++ wordBytes (hc h) ++
  wordBytes (hd h) ++ wordBytes (he h) ++ wordBytes (hf h) ++
  wordBytes (hg h) ++ wordBytes (hh h).

(** The 32-byte digest of a byte sequence. *)
Definition digest (buf : list byte) : list byte :=
  let ws := words (pad (map byteZ buf)) in
  hashBytes (fold_left compress (chunks (List.length ws) ws) H0).

End SHA256.

(* ================================================================== *)
(** ** Fingerprint: [sha256Hex] *)

(** What the hosting environment exposes to [sha256Hex]: whether
    [crypto.subtle] exists, and the clock read by [Date.now()]. *)
Record Platform := mkPlatform {
  hasSubtleCrypto : bool;
  dateNow : N
}.

Definition byteHex (b : byte) : string :=
  Js.padStart 2 "0"%char (Js.toString16 (Byte.to_N b)).

Definition sha256Hex (p : Platform) (buf : list byte) : string :=
  if negb (hasSubtleCrypto p) then
    ("fallback-hash-" ++ Js.toString16 (dateNow p))%string
  else
    Js.join (map byteHex (SHA256.digest buf)).

Definition bytesOfString (s : string) : list byte :=
  map byte_of_ascii (list_ascii_of_string s).

(* ================================================================== *)
(** ** Wire types of the backend ([shared/api.ts]) and local data model

    Each record keeps the source's field names inside a module of the
    type's name.  Fields of a response that the pipeline never reads
    (timings, per-model predictions, ...) are left out: a response is only
    stored whole in the metadata and read through the fields below. *)

(** A JavaScript exception value. *)
Definition Error := string.

(** Result of awaiting a promise: it resolved, or it rejected. *)
Inductive Outcome (A : Type) : Type :=
| Returned (a : A)
| Threw (e : Error).
Arguments Returned {A} a.
Arguments Threw {A} e.

Inductive Status := valid | suspect | invalid.

Definition Status_eqb (a b : Status) : bool :=
  match a, b with
  | valid, valid | suspect, suspect | invalid, invalid => true
  | _, _ => false
  end.

Module UploadResponse.
Record t := mk { id : string; filename : string; size : Z; mime_type : string }.
End UploadResponse.

Module OCRResponse.
Record t := mk { id : string; extracted_text : string; confidence : float }.
End OCRResponse.

Module WireRecord.
(** [VerificationResponse.matched_record]. *)
Record t := mk {
  certificate_number : string;
  name : string;
  institution : string;
  course : string;
  year : Z }.
End WireRecord.

Module VerificationResponse.
Record t := mk {
  id : string;
  status : Status;
  confidence : float;
  matched_record : option WireRecord.t;
  issues : list string }.
End VerificationResponse.

Module MLDetectionResponse.
Record t := mk {
  success : bool;
  is_fake : bool;
  confidence : float;
  authenticity_score : float;
  error_message : option string }.
End MLDetectionResponse.

Module RegistryRecord.
Record t := mk {
  certificateNumber : string;
  hashHex : string;
  name : string;
  institution : string;
  course : string;
  year : Z }.
End RegistryRecord.

Module Metadata.
Record t := mk {
  fileName : string;
  size : Z;
  mime : string;
  hashHex : string;
  qrData : option string;
  uploadId : option string;
  ocrText : option string;
  backendVerification : option VerificationResponse.t;
  mlDetection : option MLDetectionResponse.t }.
End Metadata.

Module VerificationResult.
Record t := mk {
  status : Status;
  issues : list string;
  metadata : Metadata.t;
  matchedRecord : option RegistryRecord.t }.
End VerificationResult.

Module File.
(** A browser [File]: [arrayBuffer] is the outcome of reading its bytes. *)
Record t := mk {
  name : string;
  size : Z;
  type : string;
  arrayBuffer : Outcome (list byte) }.
End File.

(** Fallback mock registry for offline mode. *)
Definition MOCK_REGISTRY : list RegistryRecord.t :=
  [ RegistryRecord.mk
      "JH-NU-2019-000123"
      "e3b0c44298fc1c149afbf4c8996fb92427ae41e4649b934ca495991b7852b855"
      "Aarav Kumar" "Nilamber-Pitamber University" "B.Sc" 2019;
    RegistryRecord.mk
      "JH-RU-2021-004567"
      "aaaaaaaaaaaaaaaaaaaaaaaaaaaaaaaaaaaaaaaaaaaaaaaaaaaaaaaaaaaaaaaa"
      "Ishita Singh" "Ranchi University" "B.Tech" 2021 ].

(** Field updates of the mutable [base] object. *)
Definition set_status (s : Status) (b : VerificationResult.t) : VerificationResult.t :=
  VerificationResult.mk s (VerificationResult.issues b)
    (VerificationResult.metadata b) (VerificationResult.matchedRecord b).

Definition set_issues (l : list string) (b : VerificationResult.t) : VerificationResult.t :=
  VerificationResult.mk (VerificationResult.status b) l
    (VerificationResult.metadata b) (VerificationResult.matchedRecord b).

Definition set_matchedRecord (r : option RegistryRecord.t) (b : VerificationResult.t)
  : VerificationResult.t :=
  VerificationResult.mk (VerificationResult.status b) (VerificationResult.issues b)
    (VerificationResult.metadata b) r.

Definition set_metadata (m : Metadata.t) (b : VerificationResult.t) : VerificationResult.t :=
  VerificationResult.mk (VerificationResult.status b) (VerificationResult.issues b)
    m (VerificationResult.matchedRecord b).

Definition set_qrData (q : string) (m : Metadata.t) : Metadata.t :=
  Metadata.mk (Metadata.fileName m) (Metadata.size m) (Metadata.mime m)
    (Metadata.hashHex m) (Some q) (Metadata.uploadId m) (Metadata.ocrText m)
    (Metadata.backendVerification m) (Metadata.mlDetection m).

Definition set_uploadId (u : string) (m : Metadata.t) : Metadata.t :=
  Metadata.mk (Metadata.fileName m) (Metadata.size m) (Metadata.mime m)
    (Metadata.hashHex m) (Metadata.qrData m) (Some u) (Metadata.ocrText m)
    (Metadata.backendVerification m) (Metadata.mlDetection m).

Definition set_ocrText (x : string) (m : Metadata.t) : Metadata.t :=
  Metadata.mk (Metadata.fileName m) (Metadata.size m) (Metadata.mime m)
    (Metadata.hashHex m) (Metadata.qrData m) (Metadata.uploadId m) (Some x)
    (Metadata.backendVerification m) (Metadata.mlDetection m).

Definition set_backendVerification (v : VerificationResponse.t) (m : Metadata.t)
  : Metadata.t :=
  Metadata.mk (Metadata.fileName m) (Metadata.size m) (Metadata.mime m)
    (Metadata.hashHex m) (Metadata.qrData m) (Metadata.uploadId m)
    (Metadata.ocrText m) (Some v) (Metadata.mlDetection m).

Definition set_mlDetection (r : MLDetectionResponse.t) (m : Metadata.t) : Metadata.t :=
  Metadata.mk (Metadata.fileName m) (Metadata.size m) (Metadata.mime m)
    (Metadata.hashHex m) (Metadata.qrData m) (Metadata.uploadId m)
    (Metadata.ocrText m) (Metadata.backendVerification m) (Some r).

(* ================================================================== *)
(** ** [extractCertificateNumber]

    The regular expression [/JH-[A-Z]{2}-\d{4}-\d{6,}/i]: eleven
    one-character classes followed by a greedy run of at least six digits.
    Nothing follows the run, so the greedy match is the only one tried at a
    position, and [String.prototype.match] returns the leftmost position
    that matches. *)

Definition isChar (a b : ascii) (c : ascii) : bool :=
  Ascii.eqb c a || Ascii.eqb c b.

Definition isHyphen (c : ascii) : bool := Ascii.eqb c "-".

(** The fixed-width part [JH-[A-Z]{2}-\d{4}-] under the [i] flag. *)
Definition certificatePrefix : list (ascii -> bool) :=
  [ isChar "J" "j"; isChar "H" "h"; isHyphen;
    Js.isLetter; Js.isLetter; isHyphen;
    Js.isDigit; Js.isDigit; Js.isDigit; Js.isDigit; isHyphen ].

(** Match a sequence of one-character classes at the start of [s]; the
    matched text and the remainder. *)
Fixpoint matchClasses (cs : list (ascii -> bool)) (s : string)
  : option (string * string) :=
  match cs with
  | [] => Some (EmptyString, s)
  | p :: cs' =>
      match s with
      | EmptyString => None
      | String c r =>
          if p c then
            match matchClasses cs' r with
            | Some (m, rest) => Some (String c m, rest)
            | None => None
            end
          else None
      end
  end.

(** The longest run of digits at the start of [s]. *)
Fixpoint takeDigits (s : string) : string :=
  match s with
  | String c r => if Js.isDigit c then String c (takeDigits r) else EmptyString
  | EmptyString => EmptyString
  end.

(** The pattern anchored at the start of [s]. *)
Definition matchHere (classes : list (ascii -> bool)) (s : string) : option string :=
  match matchClasses classes s with
  | Some (m, rest) =>
      let ds := takeDigits rest in
      if (6 <=? String.length ds)%nat then Some (m ++ ds)%string else None
  | None => None
  end.

(** [s.match(re)] for a pattern without the [g] flag: the leftmost match. *)
Fixpoint regexMatch (classes : list (ascii -> bool)) (s : string) : option string :=
  match matchHere classes s with
  | Some m => Some m
  | None =>
      match s with
      | EmptyString => None
      | String _ r => regexMatch classes r
      end
  end.

Definition extractCertificateNumber (input : option string) : option string :=
  if negb (Js.truthy_opt input) then None
  else
    match input with
    | None => None
    | Some s =>
        match regexMatch certificatePrefix s with
        | Some m => Some (Js.toUpperCase m)
        | None => None
        end
    end.

(* ================================================================== *)
(** ** [localVerification]: the offline registry matcher *)

Definition isImage (file : File.t) : bool :=
  Js.startsWith (File.type file) "image/".

(** [fromQr || fromName]. *)
Definition inferCertificateNumber (qrData : option string) (fileName : string)
  : option string :=
  let fromName := extractCertificateNumber (Some fileName) in
  let fromQr :=
    if Js.truthy_opt qrData then extractCertificateNumber qrData else None in
  Js.or_else fromQr fromName.

(** The matcher over an arbitrary record set; the source fixes the record
    set to [MOCK_REGISTRY]. *)
Definition localVerificationWith (registry : list RegistryRecord.t)
    (base : VerificationResult.t) (file : File.t) : VerificationResult.t :=
  let certificateNumber :=
    inferCertificateNumber
      (Metadata.qrData (VerificationResult.metadata base)) (File.name file) in
  let directHashMatch :=
    find (fun r => String.eqb (RegistryRecord.hashHex r)
                     (Metadata.hashHex (VerificationResult.metadata base)))
         registry in
  let numberMatches :=
    match certificateNumber with
    | Some n =>
        if Js.truthy n
        then filter (fun r => String.eqb (RegistryRecord.certificateNumber r) n)
                    registry
        else []
    | None => []
    end in
  let issues := VerificationResult.issues base in
  let status := invalid in
  let matchedRecord : option RegistryRecord.t := None in
  let '(status, matchedRecord, issues) :=
    match directHashMatch with
    | Some r => (valid, Some r, issues)
    | None =>
        if (0 <? List.length numberMatches)%nat then
          let issues :=
            issues ++
            ["Certificate number found but file hash does not match registry record"%string] in
          let issues :=
            if (1 <? List.length numberMatches)%nat
            then issues ++
                 ["Duplicate certificate number detected in registry (possible clone)"%string]
            else issues in
          (suspect, nth_error numberMatches 0, issues)
        else
          (suspect, matchedRecord,
           issues ++
           ["No registry match. Please contact issuing institution for manual validation"%string])
    end in
  let issues :=
    if negb (Js.truthy (File.type file))
    then issues ++ ["Missing file type metadata"%string] else issues in
  let issues :=
    if (File.size file =? 0)%Z
    then issues ++ ["Empty file content"%string] else issues in
  VerificationResult.mk status issues (VerificationResult.metadata base) matchedRecord.

Definition localVerification : VerificationResult.t -> File.t -> VerificationResult.t :=
  localVerificationWith MOCK_REGISTRY.

(* ================================================================== *)
(** ** The host and the remote services *)

(** What the JavaScript host provides besides the repository's code:
    [crypto.subtle] (present or not), [Date.now()], and
    [Number.prototype.toFixed(1)]. *)
Record Host := mkHost {
  platform : Platform;
  toFixed1 : float -> string
}.

(** The calls that leave the module. *)
Inductive Call :=
| ReadQr
| DetectFake (certificateText certificateId : option string)
| Upload
| ExtractText
| Verify (certificateId : string).

(** Outcomes of the image decoder ([readQrFromImage], which rests on
    [createImageBitmap] and [jsQR]) and of the four [apiClient] requests, as
    functions of the arguments they are called with.  A run makes no call
    twice with the same arguments (the second detection call carries the
    upload id, the first does not), so any combination of outcomes of one run
    is such a function. *)
Record Services := mkServices {
  readQrFromImage : File.t -> Outcome (option string);
  detectFakeCertificate :
    File.t -> option string -> option string -> Outcome MLDetectionResponse.t;
  uploadCertificate : File.t -> Outcome UploadResponse.t;
  extractText : File.t -> Outcome OCRResponse.t;
  verifyCertificate : string -> Outcome VerificationResponse.t
}.

(* ================================================================== *)
(** ** State and exceptions of one run *)

(** The mutable variables of [analyzeFile] ([base], [mlDetectionDone]), and
    the log of the calls made so far, each with whether it returned.  The log
    is not a variable of the source: it records what the run did, for the
    properties that speak of calls. *)
Record Run := mkRun {
  base : VerificationResult.t;
  mlDetectionDone : bool;
  calls : list (Call * bool)
}.

Definition M (A : Type) : Type := Run -> Run * Outcome A.

Definition ret {A} (a : A) : M A := fun s => (s, Returned a).

Definition bind {A B} (m : M A) (k : A -> M B) : M B :=
  fun s =>
    match m s with
    | (s', Returned a) => k a s'
    | (s', Threw e) => (s', Threw e)
    end.

(** [try { body } catch (e) { handler }]: the handler runs in the state the
    body left behind. *)
Definition try_catch {A} (body : M A) (handler : Error -> M A) : M A :=
  fun s =>
    match body s with
    | (s', Returned a) => (s', Returned a)
    | (s', Threw e) => handler e s'
    end.

Definition get : M Run := fun s => (s, Returned s).

Definition modify (f : Run -> Run) : M unit := fun s => (f s, Returned tt).

Definition when (b : bool) (m : M unit) : M unit := if b then m else ret tt.

(** Await an outside call: log it, then resolve or reject as it did. *)
Definition await {A} (c : Call) (o : Outcome A) : M A :=
  fun s =>
    let ok := match o with Returned _ => true | Threw _ => false end in
    (mkRun (base s) (mlDetectionDone s) (calls s ++ [(c, ok)]), o).

Declare Scope run_scope.
Delimit Scope run_scope with run.
Notation "x <- m ;; k" := (bind m (fun x => k))
  (at level 61, m at next level, right associativity) : run_scope.
Notation "m ;; k" := (bind m (fun _ => k))
  (at level 61, right associativity) : run_scope.

Definition onBase (f : VerificationResult.t -> VerificationResult.t) : M unit :=
  modify (fun s => mkRun (f (base s)) (mlDetectionDone s) (calls s)).

Definition onMetadata (f : Metadata.t -> Metadata.t) : M unit :=
  onBase (fun b => set_metadata (f (VerificationResult.metadata b)) b).

(** [base.issues.push(msg)]. *)
Definition pushIssue (msg : string) : M unit :=
  onBase (fun b => set_issues (VerificationResult.issues b ++ [msg]) b).

Definition setMlDetectionDone : M unit :=
  modify (fun s => mkRun (base s) true (calls s)).

(** [confidence > 0.8]. *)
Definition highConfidence (c : float) : bool := PrimFloat.ltb 0.8 c.

Section Pipeline.

Variable host : Host.
Variable api : Services.

Local Open Scope run_scope.
Local Open Scope string_scope.

(** [(confidence * 100).toFixed(1)]. *)
Definition percent (c : float) : string :=
  toFixed1 host (PrimFloat.mul c 100).

(** "Add ML detection results to issues": the block both detection sites
    run on a response. *)
Definition reportMlResult (mlResult : MLDetectionResponse.t) : M unit :=
  if MLDetectionResponse.success mlResult then
    if MLDetectionResponse.is_fake mlResult then
      pushIssue ("⚠️ AI detected this certificate as FAKE ("
                 ++ percent (MLDetectionResponse.confidence mlResult)
                 ++ "% confidence)") ;;
      when (highConfidence (MLDetectionResponse.confidence mlResult))
           (onBase (set_status invalid))
    else
      pushIssue ("✅ AI verified certificate as AUTHENTIC ("
                 ++ percent (MLDetectionResponse.confidence mlResult)
                 ++ "% confidence)")
  else
    match MLDetectionResponse.error_message mlResult with
    | Some msg =>
        if Js.truthy msg then pushIssue ("ML Detection error: " ++ msg)
        else ret tt
    | None => ret tt
    end.

(** QR code extraction (local). *)
Definition qrStage (file : File.t) : M unit :=
  when (isImage file)
    (try_catch
       (qr <- await ReadQr (readQrFromImage api file) ;;
        match qr with
        | Some q => when (Js.truthy q) (onMetadata (set_qrData q))
        | None => ret tt
        end)
       (fun _ => pushIssue "Failed to read QR code from image")).

(** "Try ML Detection first (even if backend fails)". *)
Definition mlStage (file : File.t) : M unit :=
  when (isImage file)
    (try_catch
       (mlResult <- await (DetectFake None None)
                      (detectFakeCertificate api file None None) ;;
        onMetadata (set_mlDetection mlResult) ;;
        setMlDetectionDone ;;
        reportMlResult mlResult)
       (fun _ => pushIssue "AI-powered fake detection unavailable")).

(** Step 1: upload the file to the backend. *)
Definition uploadStage (file : File.t) : M UploadResponse.t :=
  uploadResult <- await Upload (uploadCertificate api file) ;;
  onMetadata (set_uploadId (UploadResponse.id uploadResult)) ;;
  ret uploadResult.

(** Step 2: extract text via OCR (if image). *)
Definition ocrStage (file : File.t) : M unit :=
  when (isImage file)
    (try_catch
       (ocrResult <- await ExtractText (extractText api file) ;;
        onMetadata (set_ocrText (OCRResponse.extracted_text ocrResult)))
       (fun _ => pushIssue "OCR text extraction failed")).

(** Step 3: ML detection with OCR text (if not done already). *)
Definition mlOcrStage (file : File.t) (uploadResult : UploadResponse.t) : M unit :=
  s <- get ;;
  when (isImage file && negb (mlDetectionDone s))
    (let ocrText := Metadata.ocrText (VerificationResult.metadata (base s)) in
     let certificateId := Some (UploadResponse.id uploadResult) in
     try_catch
       (mlResult <- await (DetectFake ocrText certificateId)
                      (detectFakeCertificate api file ocrText certificateId) ;;
        onMetadata (set_mlDetection mlResult) ;;
        reportMlResult mlResult)
       (fun _ => pushIssue "AI-powered fake detection with OCR unavailable")).

(** The wire record in the local [RegistryRecord] shape, under the locally
    computed hash. *)
Definition adoptRecord (hashHex : string) (rec : WireRecord.t) : RegistryRecord.t :=
  RegistryRecord.mk
    (WireRecord.certificate_number rec)
    hashHex
    (WireRecord.name rec)
    (WireRecord.institution rec)
    (WireRecord.course rec)
    (WireRecord.year rec).

(** Step 4: verify the certificate and use the backend results. *)
Definition verifyStage (hashHex : string) (uploadResult : UploadResponse.t)
  : M VerificationResult.t :=
  verificationResult <-
    await (Verify (UploadResponse.id uploadResult))
          (verifyCertificate api (UploadResponse.id uploadResult)) ;;
  onMetadata (set_backendVerification verificationResult) ;;
  s <- get ;;
  when (negb (Status_eqb (VerificationResult.status (base s)) invalid))
    (onBase (set_status (VerificationResponse.status verificationResult))) ;;
  onBase (fun b => set_issues (VerificationResult.issues b ++
                               VerificationResponse.issues verificationResult) b) ;;
  match VerificationResponse.matched_record verificationResult with
  | Some rec => onBase (set_matchedRecord (Some (adoptRecord hashHex rec)))
  | None => ret tt
  end ;;
  s <- get ;;
  ret (base s).

(** The body of the backend [try] block. *)
Definition backendPath (hashHex : string) (file : File.t)
  : M VerificationResult.t :=
  uploadResult <- uploadStage file ;;
  ocrStage file ;;
  mlOcrStage file uploadResult ;;
  verifyStage hashHex uploadResult.

(** Everything a run does before it sends the verification request. *)
Definition beforeVerify (file : File.t) : M UploadResponse.t :=
  qrStage file ;;
  mlStage file ;;
  uploadResult <- uploadStage file ;;
  ocrStage file ;;
  mlOcrStage file uploadResult ;;
  ret uploadResult.

(** The [catch] of the backend block: fall back to local verification. *)
Definition fallback (file : File.t) : M VerificationResult.t :=
  pushIssue "Backend verification unavailable - using local verification" ;;
  s <- get ;;
  ret (localVerification (base s) file).

(** The statements of [analyzeFile] after [base] is built. *)
Definition pipeline (hashHex : string) (file : File.t) : M VerificationResult.t :=
  qrStage file ;;
  mlStage file ;;
  try_catch (backendPath hashHex file) (fun _ => fallback file).

Definition initialBase (hashHex : string) (file : File.t) : VerificationResult.t :=
  VerificationResult.mk invalid []
    (Metadata.mk (File.name file) (File.size file)
       (if Js.truthy (File.type file) then File.type file else "")
       hashHex None None None None None)
    None.

(** The state [analyzeFile] starts from once the bytes are hashed. *)
Definition initialRun (hashHex : string) (file : File.t) : Run :=
  mkRun (initialBase hashHex file) false [].

(** One run of [analyzeFile]: the calls it made and how it completed. *)
Definition analyzeFileRun (file : File.t)
  : list (Call * bool) * Outcome VerificationResult.t :=
  match File.arrayBuffer file with
  | Threw e => ([], Threw e)
  | Returned arrayBuffer =>
      let hashHex := sha256Hex (platform host) arrayBuffer in
      let (s, r) := pipeline hashHex file (initialRun hashHex file) in
      (calls s, r)
  end.

Definition analyzeFile (file : File.t) : Outcome VerificationResult.t :=
  snd (analyzeFileRun file).

Definition callsOf (file : File.t) : list (Call * bool) :=
  fst (analyzeFileRun file).

End Pipeline.

(* ================================================================== *)
(** ** Vocabulary of the properties *)

(** [x] is the first element of [l], in list order, that satisfies [p]. *)
Definition firstWith {A} (p : A -> bool) (l : list A) (x : A) : Prop :=
  exists l1 l2, l = l1 ++ x :: l2 /\ p x = true /\
                forall y, In y l1 -> p y = false.

Definition hasFingerprint (fp : string) (r : RegistryRecord.t) : bool :=
  String.eqb (RegistryRecord.hashHex r) fp.

Definition hasNumber (n : string) (r : RegistryRecord.t) : bool :=
  String.eqb (RegistryRecord.certificateNumber r) n.

(** The issues appended after matching ("Basic validation"). *)
Definition structuralIssues (file : File.t) : list string :=
  (if negb (Js.truthy (File.type file))
   then ["Missing file type metadata"%string] else []) ++
  (if (File.size file =? 0)%Z then ["Empty file content"%string] else []).

Definition mismatchIssue : string :=
  "Certificate number found but file hash does not match registry record".
Definition duplicateIssue : string :=
  "Duplicate certificate number detected in registry (possible clone)".
Definition manualIssue : string :=
  "No registry match. Please contact issuing institution for manual validation".

(** The issue string each failed call is converted into. *)
Definition failureIssue (c : Call) : string :=
  match c with
  | ReadQr => "Failed to read QR code from image"
  | DetectFake _ None => "AI-powered fake detection unavailable"
  | DetectFake _ (Some _) => "AI-powered fake detection with OCR unavailable"
  | Upload => "Backend verification unavailable - using local verification"
  | ExtractText => "OCR text extraction failed"
  | Verify _ => "Backend verification unavailable - using local verification"
  end.

Definition backendIssue : string :=
  "Backend verification unavailable - using local verification".

Definition isDetect (ev : Call * bool) : bool :=
  match fst ev with DetectFake _ _ => true | _ => false end.

(** How many times [detectFakeCertificate] was invoked. *)
Definition detectCount (log : list (Call * bool)) : nat :=
  List.length (filter isDetect log).

(** All four remote calls fail, whatever their arguments. *)
Definition offline (api : Services) : Prop :=
  (forall f, exists e, uploadCertificate api f = Threw e) /\
  (forall f, exists e, extractText api f = Threw e) /\
  (forall f t i, exists e, detectFakeCertificate api f t i = Threw e) /\
  (forall i, exists e, verifyCertificate api i = Threw e).

(** A whole token of the pattern: the fixed-width classes, then nothing but
    digits, at least six of them. *)
Definition tokenShape (classes : list (ascii -> bool)) (tok : string) : bool :=
  match matchClasses classes tok with
  | Some (_, ds) => Js.allChars Js.isDigit ds && (6 <=? String.length ds)%nat
  | None => false
  end.

(** The shape in the specification's words: two letters, hyphen, two
    letters, hyphen, four digits, hyphen (then six or more digits). *)
Definition statedPrefix : list (ascii -> bool) :=
  [ Js.isLetter; Js.isLetter; isHyphen;
    Js.isLetter; Js.isLetter; isHyphen;
    Js.isDigit; Js.isDigit; Js.isDigit; Js.isDigit; isHyphen ].

(** The text does not go on with a digit. *)
Definition noDigitAhead (s : string) : bool :=
  match s with
  | String c _ => negb (Js.isDigit c)
  | EmptyString => true
  end.

(** Status of a completed run, if it completed. *)
Definition statusOf (o : Outcome VerificationResult.t) : option Status :=
  match o with
  | Returned r => Some (VerificationResult.status r)
  | Threw _ => None
  end.

(* ------------------------------------------------------------------ *)
(** *** The program logic of a run *)

(** Weakest precondition of a computation: [Q] must hold of the value and
    state it returns, [E] of the exception and state it throws. *)
Definition wp {A} (m : M A) (Q : A -> Run -> Prop) (E : Error -> Run -> Prop)
  : Run -> Prop :=
  fun s =>
    match m s with
    | (s', Returned a) => Q a s'
    | (s', Threw e) => E e s'
    end.

Definition noThrow : Error -> Run -> Prop := fun _ _ => False.

(** Invariant behind the authoritative merge: the status is still the
    [invalid] it was initialised to. *)
Definition statusInvalid (s : Run) : Prop :=
  VerificationResult.status (base s) = invalid.

(** No record has been matched yet. *)
Definition noMatchYet (s : Run) : Prop :=
  VerificationResult.matchedRecord (base s) = None.

(** Every failed call of the log has its issue among the issues, once
    [pending] is appended (the issue a handler is about to push). *)
Definition failuresReported (pending : list string) (s : Run) : Prop :=
  forall c, In (c, false) (calls s) ->
            In (failureIssue c) (VerificationResult.issues (base s) ++ pending).

(** What the caller sees: every failed call has its issue in the result. *)
Definition failuresInResult (r : VerificationResult.t) (s : Run) : Prop :=
  forall c, In (c, false) (calls s) ->
            In (failureIssue c) (VerificationResult.issues r).

(** No detection call has been made yet. *)
Definition detectPending (s : Run) : Prop :=
  mlDetectionDone s = false /\ filter isDetect (calls s) = [].

(** Either the first detection call returned and it is the only detection
    call of the log, or it has not returned. *)
Definition detectOnce (s : Run) : Prop :=
  (mlDetectionDone s = true /\
   filter isDetect (calls s) = [(DetectFake None None, true)]) \/
  (mlDetectionDone s = false /\ ~ In (DetectFake None None, true) (calls s)).

(* ------------------------------------------------------------------ *)
(** *** Concrete runs *)

Module Scenario.
Local Open Scope string_scope.

(** A browser with Web Crypto.  Every detector response below carries
    confidence 0.95, and [(0.95 * 100).toFixed(1)] is the text ["95.0"]. *)
Definition host : Host := mkHost (mkPlatform true 1762128000000) (fun _ => "95.0").

(** The same page served over plain HTTP at two instants: no
    [crypto.subtle]. *)
Definition insecureAt (t : N) : Platform := mkPlatform false t.

Definition pngBytes : list byte := bytesOfString "abc".

Definition png : File.t :=
  File.mk "degree.png" 3 "image/png" (Returned pngBytes).

Definition pdf : File.t :=
  File.mk "degree.pdf" 3 "application/pdf" (Returned pngBytes).

(** A zero-byte upload: its SHA-256 is the first mock record's hash. *)
Definition emptyPng : File.t :=
  File.mk "blank.png" 0 "image/png" (Returned []).

Definition unreadable : File.t :=
  File.mk "gone.png" 3 "image/png" (Threw "NotReadableError").

Definition fakeVerdict : MLDetectionResponse.t :=
  MLDetectionResponse.mk true true 0.95 0.05 None.

Definition authenticVerdict : MLDetectionResponse.t :=
  MLDetectionResponse.mk true false 0.95 0.95 None.

Definition uploaded : UploadResponse.t :=
  UploadResponse.mk "cert-42" "degree.png" 3 "image/png".

Definition wireRecord : WireRecord.t :=
  WireRecord.mk "JH-NU-2019-000123" "Aarav Kumar"
    "Nilamber-Pitamber University" "B.Sc" 2019.

Definition remoteValid : VerificationResponse.t :=
  VerificationResponse.mk "ver-7" valid 0.99 (Some wireRecord)
    ["Verified against registry"].

(** Every service answers; the detector reports a fake at 95%. *)
Definition online : Services :=
  mkServices (fun _ => Returned None)
             (fun _ _ _ => Returned fakeVerdict)
             (fun _ => Returned uploaded)
             (fun _ => Returned (OCRResponse.mk "ocr-1" "B.Sc 2019" 0.9))
             (fun _ => Returned remoteValid).

(** Every service answers; the detector finds the document authentic. *)
Definition onlineAuthentic : Services :=
  mkServices (fun _ => Returned None)
             (fun _ _ _ => Returned authenticVerdict)
             (fun _ => Returned uploaded)
             (fun _ => Returned (OCRResponse.mk "ocr-1" "B.Sc 2019" 0.9))
             (fun _ => Returned remoteValid).

(** The detector answers (fake, 95%), the backend is unreachable. *)
Definition detectorOnly : Services :=
  mkServices (fun _ => Returned None)
             (fun _ _ _ => Returned fakeVerdict)
             (fun _ => Threw "API Error: 503 Service Unavailable")
             (fun _ => Threw "API Error: 503 Service Unavailable")
             (fun _ => Threw "API Error: 503 Service Unavailable").

(** Nothing answers and the image cannot be decoded. *)
Definition allDown : Services :=
  mkServices (fun _ => Threw "InvalidStateError")
             (fun _ _ _ => Threw "Failed to fetch")
             (fun _ => Threw "Failed to fetch")
             (fun _ => Threw "Failed to fetch")
             (fun _ => Threw "Failed to fetch").

(** A registry in which one certificate number was issued twice. *)
Definition cloned : list RegistryRecord.t :=
  [ RegistryRecord.mk "JH-NU-2019-000123"
      "e3b0c44298fc1c149afbf4c8996fb92427ae41e4649b934ca495991b7852b855"
      "Aarav Kumar" "Nilamber-Pitamber University" "B.Sc" 2019;
    RegistryRecord.mk "JH-RU-2021-004567"
      "aaaaaaaaaaaaaaaaaaaaaaaaaaaaaaaaaaaaaaaaaaaaaaaaaaaaaaaaaaaaaaaa"
      "Ishita Singh" "Ranchi University" "B.Tech" 2021;
    RegistryRecord.mk "JH-RU-2021-004567"
      "bbbbbbbbbbbbbbbbbbbbbbbbbbbbbbbbbbbbbbbbbbbbbbbbbbbbbbbbbbbbbbbb"
      "Ishita Sinha" "Ranchi University" "B.Tech" 2021 ].

(** Evidence of a file named after a certificate number. *)
Definition named (fileName hashHex : string) : VerificationResult.t * File.t :=
  (initialBase hashHex (File.mk fileName 3 "image/png" (Returned pngBytes)),
   File.mk fileName 3 "image/png" (Returned pngBytes)).

End Scenario.


(* ================================================================== *)
(** ** Vocabulary of the pipeline's further properties *)

(** Position of a call in the source text of [analyzeFile]. *)
Definition callRank (c : Call) : nat :=
  match c with
  | ReadQr => 0
  | DetectFake _ None => 1
  | Upload => 2
  | ExtractText => 3
  | DetectFake _ (Some _) => 4
  | Verify _ => 5
  end.

(** The log is in source order, every call before position [k]. *)
Definition logBelow (k : nat) (log : list (Call * bool)) : Prop :=
  StronglySorted lt (map (fun ev => callRank (fst ev)) log) /\
  Forall (fun ev => callRank (fst ev) < k) log.

(** The fields of the metadata that are fixed when [base] is built. *)
Definition metadataOf (hashHex : string) (file : File.t) (m : Metadata.t) : Prop :=
  Metadata.fileName m = File.name file /\
  Metadata.size m = File.size file /\
  Metadata.mime m = File.type file /\
  Metadata.hashHex m = hashHex.

(** What [base.metadata.qrData] holds once the decoder has been tried. *)
Definition decodedCode (api : Services) (file : File.t) : option string :=
  if isImage file then
    match readQrFromImage api file with
    | Returned (Some q) => if Js.truthy q then Some q else None
    | _ => None
    end
  else None.

(** The line a detection response adds to the issues, if any. *)
Definition verdictIssue (host : Host) (m : MLDetectionResponse.t) : option string :=
  if MLDetectionResponse.success m then
    if MLDetectionResponse.is_fake m then
      Some ("⚠️ AI detected this certificate as FAKE ("
            ++ percent host (MLDetectionResponse.confidence m)
            ++ "% confidence)")%string
    else
      Some ("✅ AI verified certificate as AUTHENTIC ("
            ++ percent host (MLDetectionResponse.confidence m)
            ++ "% confidence)")%string
  else
    match MLDetectionResponse.error_message m with
    | Some msg => if Js.truthy msg then Some ("ML Detection error: " ++ msg)%string
                  else None
    | None => None
    end.

(** The authoritative path failed: the upload threw, or it returned and the
    verification threw. *)
Definition backendFailed (api : Services) (file : File.t) : Prop :=
  (exists e, uploadCertificate api file = Threw e) \/
  (exists u e, uploadCertificate api file = Returned u /\
               verifyCertificate api (UploadResponse.id u) = Threw e).

(** The state carries the file's identity. *)
Definition metadataKept (hashHex : string) (file : File.t) (s : Run) : Prop :=
  metadataOf hashHex file (VerificationResult.metadata (base s)).

(** The calls made after the upload carry what the upload returned. *)
Definition afterUpload (api : Services) (file : File.t) (log : list (Call * bool))
  : Prop :=
  forall c ok, In (c, ok) log -> 2 < callRank c ->
    exists u, uploadCertificate api file = Returned u /\
              (forall i, c = Verify i -> i = UploadResponse.id u) /\
              (forall t i, c = DetectFake t (Some i) -> Some i = Some (UploadResponse.id u)).

Definition protocol (api : Services) (file : File.t) (k : nat) (s : Run) : Prop :=
  logBelow k (calls s) /\ afterUpload api file (calls s).

(** The records that share the inferred number (none without a number). *)
Definition numberMatchesOf (registry : list RegistryRecord.t)
    (number : option string) : list RegistryRecord.t :=
  match number with
  | Some n => if Js.truthy n then filter (hasNumber n) registry else []
  | None => []
  end.

(** Until the verification returns, the metadata holds no backend verdict. *)
Definition unverified (hashHex : string) (file : File.t) (s : Run) : Prop :=
  metadataOf hashHex file (VerificationResult.metadata (base s)) /\
  Metadata.backendVerification (VerificationResult.metadata (base s)) = None.

(** What the [catch] of the backend block returns. *)
Definition fromMatcher (hashHex : string) (file : File.t)
    (r : VerificationResult.t) : Prop :=
  exists b, r = localVerification b file /\
            Metadata.hashHex (VerificationResult.metadata b) = hashHex /\
            Metadata.backendVerification (VerificationResult.metadata b) = None /\
            In backendIssue (VerificationResult.issues b).

(** Only the upload and the verification were called, and nothing an image
    stage writes is set. *)
Definition onlyBackendCalls (s : Run) : Prop :=
  (forall c ok, In (c, ok) (calls s) -> c = Upload \/ exists i, c = Verify i) /\
  Metadata.qrData (VerificationResult.metadata (base s)) = None /\
  Metadata.ocrText (VerificationResult.metadata (base s)) = None /\
  Metadata.mlDetection (VerificationResult.metadata (base s)) = None.

Definition qrDataIs (v : option string) (s : Run) : Prop :=
  Metadata.qrData (VerificationResult.metadata (base s)) = v.

(** The first detection response is recorded and its line is among the
    issues. *)
Definition verdictKept (host : Host) (m : MLDetectionResponse.t) (s : Run) : Prop :=
  mlDetectionDone s = true /\
  Metadata.mlDetection (VerificationResult.metadata (base s)) = Some m /\
  forall line, verdictIssue host m = Some line ->
               In line (VerificationResult.issues (base s)).

Definition verdictInResult (host : Host) (m : MLDetectionResponse.t)
    (r : VerificationResult.t) : Prop :=
  Metadata.mlDetection (VerificationResult.metadata r) = Some m /\
  forall line, verdictIssue host m = Some line ->
               In line (VerificationResult.issues r).

(** What [base.metadata.uploadId] and [base.metadata.ocrText] hold once the
    backend block has run. *)
Definition uploadedId (api : Services) (file : File.t) : option string :=
  match uploadCertificate api file with
  | Returned u => Some (UploadResponse.id u)
  | Threw _ => None
  end.

Definition textRead (api : Services) (file : File.t) : option string :=
  if isImage file then
    match extractText api file with
    | Returned o => Some (OCRResponse.extracted_text o)
    | Threw _ => None
    end
  else None.

Definition extractedText (api : Services) (file : File.t) : option string :=
  match uploadCertificate api file with
  | Returned _ => textRead api file
  | Threw _ => None
  end.

(** The second detection site was not reached yet. *)
Definition evidenceBefore (i t : option string) (s : Run) : Prop :=
  Metadata.uploadId (VerificationResult.metadata (base s)) = i /\
  Metadata.ocrText (VerificationResult.metadata (base s)) = t /\
  forall t' i' ok, ~ In (DetectFake t' (Some i'), ok) (calls s).

(** The second detection, if it was called, was sent the recorded text and
    upload id. *)
Definition evidenceIs (i t : option string) (s : Run) : Prop :=
  Metadata.uploadId (VerificationResult.metadata (base s)) = i /\
  Metadata.ocrText (VerificationResult.metadata (base s)) = t /\
  forall t' i' ok, In (DetectFake t' (Some i'), ok) (calls s) ->
                   t' = t /\ Some i' = i.

(** The issue lines the outcomes of the services call for, stage by stage:
    the decoder and the first detection are tried on images only. *)
Definition qrFailure (api : Services) (file : File.t) : list string :=
  if isImage file then
    match readQrFromImage api file with
    | Threw _ => [failureIssue ReadQr]
    | Returned _ => []
    end
  else [].

Definition mlFailure (api : Services) (file : File.t) : list string :=
  if isImage file then
    match detectFakeCertificate api file None None with
    | Threw _ => [failureIssue (DetectFake None None)]
    | Returned _ => []
    end
  else [].

(** [mlDetectionDone] once the first detection site is passed. *)
Definition detected (api : Services) (file : File.t) : bool :=
  isImage file &&
  match detectFakeCertificate api file None None with
  | Returned _ => true
  | Threw _ => false
  end.

Definition ocrFailure (api : Services) (file : File.t) : list string :=
  if isImage file then
    match extractText api file with
    | Threw _ => [failureIssue ExtractText]
    | Returned _ => []
    end
  else [].

(** The second detection is tried when the first did not return; it is sent
    the text that was read and the upload id. *)
Definition mlOcrFailure (api : Services) (file : File.t) (u : UploadResponse.t)
  : list string :=
  if isImage file && negb (detected api file) then
    match detectFakeCertificate api file (textRead api file)
            (Some (UploadResponse.id u)) with
    | Threw _ =>
        [failureIssue (DetectFake (textRead api file) (Some (UploadResponse.id u)))]
    | Returned _ => []
    end
  else [].

(** All of them, in the order of the run: nothing after a failed upload is
    tried. *)
Definition failureLines (api : Services) (file : File.t) : list string :=
  qrFailure api file ++ mlFailure api file ++
  match uploadCertificate api file with
  | Threw _ => [failureIssue Upload]
  | Returned u =>
      ocrFailure api file ++ mlOcrFailure api file u ++
      match verifyCertificate api (UploadResponse.id u) with
      | Threw _ => [failureIssue (Verify (UploadResponse.id u))]
      | Returned _ => []
      end
  end.

(** The lines are among the issues; the flag and the text are as given. *)
Definition linesReported (lines : list string) (done : bool) (text : option string)
    (s : Run) : Prop :=
  (forall line, In line lines -> In line (VerificationResult.issues (base s))) /\
  mlDetectionDone s = done /\
  Metadata.ocrText (VerificationResult.metadata (base s)) = text.

(** The backend block threw: every line is among the issues, but for the
    one the handler is about to push. *)
Definition linesPending (api : Services) (file : File.t) (s : Run) : Prop :=
  forall line, In line (failureLines api file) ->
               line = backendIssue \/ In line (VerificationResult.issues (base s)).

Definition linesInResult (api : Services) (file : File.t)
    (r : VerificationResult.t) : Prop :=
  forall line, In line (failureLines api file) ->
               In line (VerificationResult.issues r).

(** A class that still accepts a character once it is uppercased. *)
Definition upperClosed (p : ascii -> bool) : Prop :=
  forall c, p c = true -> p (Js.upperChar c) = true.

(** Value of one lowercase hexadecimal digit. *)
Definition hexDigitValue (c : ascii) : N :=
  let n := N_of_ascii c in
  if Js.isDigit c then n - 48 else n - 87.

(** Value of a two-digit hexadecimal text. *)
Definition hexPairValue (s : string) : N :=
  match s with
  | String a (String b EmptyString) => 16 * hexDigitValue a + hexDigitValue b
  | _ => 0
  end.

(* ================================================================== *)
(** ** [APIClient] ([shared/api.ts]) *)

Module Api.
Local Open Scope string_scope.

(** The own properties of an object, or the items of [localStorage]: keys
    with their values.  The client only looks keys up, so the order of the
    list is not observed; the first binding of a key is the one that
    counts. *)
Definition Props (V : Type) := list (string * V).

(** A plain object with string values, or [localStorage]. *)
Definition Obj := Props string.

(** [o[k]]. *)
Definition getProp {V : Type} (k : string) (o : Props V) : option V :=
  match find (fun kv => String.eqb (fst kv) k) o with
  | Some kv => Some (snd kv)
  | None => None
  end.

(** [o[k] = v]: an existing key keeps its place. *)
Fixpoint setProp {V : Type} (k : string) (v : V) (o : Props V) : Props V :=
  match o with
  | [] => [(k, v)]
  | (k', v') :: r =>
      if String.eqb k' k then (k, v) :: r else (k', v') :: setProp k v r
  end.

(** [delete o[k]], [localStorage.removeItem(k)]. *)
Definition removeProp {V : Type} (k : string) (o : Props V) : Props V :=
  filter (fun kv => negb (String.eqb (fst kv) k)) o.

Inductive FormValue := FileValue (f : File.t) | TextValue (s : string).

(** A [FormData]: the appended fields, in order. *)
Definition FormData := list (string * FormValue).

(** [RequestInit.body]: absent, a [FormData], a string, or one of the
    other kinds (a [Blob], a buffer, [URLSearchParams], a stream), which
    [request] does not tell apart. *)
Inductive Body := NoBody | FormBody (d : FormData) | TextBody (s : string) | OtherBody.

(** [body instanceof FormData]. *)
Definition isFormData (b : Body) : bool :=
  match b with FormBody _ => true | _ => false end.

(** A decimal integer in a template literal, or as a property key. *)
Definition numberText (n : N) : string := NilZero.string_of_uint (N.to_uint n).

(** A value of a header object: a string, or, where an array of pairs was
    spread, one of its [[name, value]] elements. *)
Inductive HeaderValue := Text (s : string) | Entry (name value : string).

(** [HeadersInit]: [options.headers] may be absent, a plain object, a
    [Headers] instance (with the entries it holds) or an array of
    [[name, value]] pairs. *)
Inductive HeadersInit :=
| NoHeaders
| PlainObject (o : Props HeaderValue)
| HeadersInstance (entries : list (string * string))
| PairArray (pairs : list (string * string)).

(** The own enumerable properties of an array: its indices. *)
Fixpoint indexed (i : N) (pairs : list (string * string)) : Props HeaderValue :=
  match pairs with
  | [] => []
  | (name, value) :: r => (numberText i, Entry name value) :: indexed (N.succ i) r
  end.

(** [{ ...h }]: the own enumerable properties of [h].  An absent value
    and a [Headers] instance have none (the entries of a [Headers] are
    not properties); an array has its indices. *)
Definition spread (h : HeadersInit) : Props HeaderValue :=
  match h with
  | NoHeaders => []
  | PlainObject o => o
  | HeadersInstance _ => []
  | PairArray pairs => indexed 0 pairs
  end.

(** The fields of [RequestInit] the client uses. *)
Record RequestInit := mkInit {
  method : option string;
  headers : HeadersInit;
  body : Body }.

(** The default [options = {}]. *)
Definition noOptions : RequestInit := mkInit None NoHeaders NoBody.

(** A [Response] whose JSON body is read at the type the caller expects;
    [json] is the outcome of [response.json()]. *)
Record Response (T : Type) := mkResponse {
  ok : bool;
  status : N;
  statusText : string;
  json : Outcome T }.
Arguments mkResponse {T} ok status statusText json.
Arguments ok {T} r.
Arguments status {T} r.
Arguments statusText {T} r.
Arguments json {T} r.

(** [fetch], for the responses of one endpoint. *)
Definition Fetch (T : Type) : Type := string -> RequestInit -> Outcome (Response T).

Record Client := mkClient {
  baseURL : string;
  token : option string }.

(** The object [headers] that [request] builds. *)
Definition requestHeaders (c : Client) (options : RequestInit) : Props HeaderValue :=
  let headers := spread (headers options) in
  let headers :=
    match token c with
    | Some t => if Js.truthy t
                then setProp "Authorization" (Text ("Bearer " ++ t)) headers
                else headers
    | None => headers
    end in
  if negb (isFormData (body options))
  then setProp "Content-Type" (Text "application/json") headers
  else headers.

(** The second argument [request] gives to [fetch]:
    [{ ...options, headers }]. *)
Definition fetchInit (c : Client) (options : RequestInit) : RequestInit :=
  mkInit (method options) (PlainObject (requestHeaders c options)) (body options).

Definition request {T} (c : Client) (fetch : Fetch T)
    (endpoint : string) (options : RequestInit) : Outcome T :=
  match fetch (baseURL c ++ endpoint) (fetchInit c options) with
  | Threw e => Threw e
  | Returned response =>
      if negb (ok response) then
        Threw ("API Error: " ++ numberText (status response) ++ " "
               ++ statusText response)
      else json response
  end.

Definition fileForm (file : File.t) : FormData := [("file", FileValue file)].

Definition uploadCertificate (c : Client) (fetch : Fetch UploadResponse.t)
    (file : File.t) : Outcome UploadResponse.t :=
  request c fetch "/api/v1/upload/certificate"
          (mkInit (Some "POST") NoHeaders (FormBody (fileForm file))).

Definition extractText (c : Client) (fetch : Fetch OCRResponse.t)
    (file : File.t) : Outcome OCRResponse.t :=
  request c fetch "/api/v1/ocr/extract-text"
          (mkInit (Some "POST") NoHeaders (FormBody (fileForm file))).

Definition verifyCertificate (c : Client) (fetch : Fetch VerificationResponse.t)
    (certificateId : string) : Outcome VerificationResponse.t :=
  request c fetch ("/api/v1/verify/certificate/" ++ certificateId)
          (mkInit (Some "POST") NoHeaders NoBody).

Definition detectForm (file : File.t) (certificateText certificateId : option string)
  : FormData :=
  (fileForm file ++
   (match certificateText with
    | Some t => if Js.truthy t then [("certificate_text", TextValue t)] else []
    | None => []
    end) ++
   (match certificateId with
    | Some i => if Js.truthy i then [("certificate_id", TextValue i)] else []
    | None => []
    end))%list.

Definition detectFakeCertificate (c : Client) (fetch : Fetch MLDetectionResponse.t)
    (file : File.t) (certificateText certificateId : option string)
  : Outcome MLDetectionResponse.t :=
  request c fetch "/api/v1/ml/detect-fake"
          (mkInit (Some "POST") NoHeaders
                  (FormBody (detectForm file certificateText certificateId))).

(** [window.localStorage], or nothing where [window] is undefined. *)
Definition Window := option Obj.

(** [new APIClient(baseURL)]. *)
Definition newClient (w : Window) (baseURL : string) : Client :=
  mkClient baseURL
    (match w with
     | Some storage => getProp "auth_token" storage
     | None => None
     end).

Definition setToken (t : string) (cw : Client * Window) : Client * Window :=
  (mkClient (baseURL (fst cw)) (Some t),
   match snd cw with
   | Some storage => Some (setProp "auth_token" t storage)
   | None => None
   end).

Definition clearToken (cw : Client * Window) : Client * Window :=
  (mkClient (baseURL (fst cw)) None,
   match snd cw with
   | Some storage => Some (removeProp "auth_token" storage)
   | None => None
   end).

(** [fetch] at the four endpoints of the pipeline. *)
Record Network := mkNetwork {
  fetchUpload : Fetch UploadResponse.t;
  fetchOcr : Fetch OCRResponse.t;
  fetchDetect : Fetch MLDetectionResponse.t;
  fetchVerify : Fetch VerificationResponse.t }.

(** The services [analyzeFile] calls, as [apiClient] provides them over a
    network, beside the image decoder. *)
Definition services (c : Client) (net : Network)
    (decode : File.t -> Outcome (option string)) : Services :=
  mkServices decode
    (detectFakeCertificate c (fetchDetect net))
    (uploadCertificate c (fetchUpload net))
    (extractText c (fetchOcr net))
    (verifyCertificate c (fetchVerify net)).

(** What [fetch] answers to the upload request and to the verification
    request of a client. *)
Definition uploadResponse (c : Client) (net : Network) (file : File.t)
  : Outcome (Response UploadResponse.t) :=
  fetchUpload net (baseURL c ++ "/api/v1/upload/certificate")
    (fetchInit c (mkInit (Some "POST") NoHeaders (FormBody (fileForm file)))).

Definition verifyResponse (c : Client) (net : Network) (certificateId : string)
  : Outcome (Response VerificationResponse.t) :=
  fetchVerify net (baseURL c ++ ("/api/v1/verify/certificate/" ++ certificateId))
    (fetchInit c (mkInit (Some "POST") NoHeaders NoBody)).

(** A request that does not deliver a payload: the network failed, the
    status was not a success, or the body was not JSON. *)
Definition undelivered {T} (o : Outcome (Response T)) : Prop :=
  match o with
  | Threw _ => True
  | Returned response =>
      ok response = false \/ exists e, json response = Threw e
  end.

(** A request that delivers the payload [x]. *)
Definition delivered {T} (o : Outcome (Response T)) (x : T) : Prop :=
  exists response, o = Returned response /\ ok response = true /\
                   json response = Returned x.

End Api.

(* ================================================================== *)
(** ** The [MLStatus] badge *)

Module MLStatus.

(** [ModelStatusResponse], without the per-model table. *)
Record Response := mkResponse {
  success : bool;
  total_models : Z;
  loaded_models : Z }.

(** The three [useState] cells. *)
Record State := mkState {
  status : option Response;
  loading : bool;
  error : option string }.

Definition initial : State := mkState None true None.

(** What a rejected [getModelStatus] threw: an [Error] with its message,
    or something else. *)
Inductive Thrown := ErrorObject (message : string) | OtherValue.

(** One run of [checkMLStatus], given how [getModelStatus] settled. *)
Definition checkMLStatus (settled : Thrown + Response) (s : State) : State :=
  match settled with
  | inr response => mkState (Some response) false None
  | inl err =>
      mkState (status s) false
        (Some (match err with
               | ErrorObject message => message
               | OtherValue => "Failed to check ML status"%string
               end))
  end.

(** The checks of the mount and of the interval, in order. *)
Definition poll (settled : list (Thrown + Response)) (s : State) : State :=
  fold_left (fun s o => checkMLStatus o s) settled s.

Inductive Badge :=
| Checking
| Unavailable
| Ready (loaded total : Z)
| LoadingModels.

(** How [apiClient.getModelStatus()] settles: what [request] throws is an
    [Error] carrying the message. *)
Definition getModelStatus (c : Api.Client) (fetch : Api.Fetch Response)
  : Thrown + Response :=
  match Api.request c fetch "/api/v1/ml/model-status" Api.noOptions with
  | Returned response => inr response
  | Threw message => inl (ErrorObject message)
  end.

Definition render (s : State) : Badge :=
  if loading s then Checking
  else if Js.truthy_opt (error s) ||
          negb (match status s with Some r => success r | None => false end)
  then Unavailable
  else
    match status s with
    | Some r =>
        if (0 <? loaded_models r)%Z
        then Ready (loaded_models r) (total_models r)
        else LoadingModels
    | None => Unavailable
    end.

End MLStatus.

(* ================================================================== *)
(** ** A deployment: a client, its storage and two failing networks *)

Module Deployment.
Local Open Scope string_scope.

Definition storage : Api.Obj := [("theme", "dark"); ("auth_token", "tok-1")].

Definition client : Api.Client := Api.newClient (Some storage) "https://api.example".

(** An endpoint that answers 503 with an HTML body. *)
Definition unavailable {T : Type} : Api.Fetch T :=
  fun _ _ =>
    Returned (Api.mkResponse false 503 "Service Unavailable"
                (Threw "Unexpected token < in JSON")).

(** Every endpoint answers 503. *)
Definition down : Api.Network :=
  Api.mkNetwork unavailable unavailable unavailable unavailable.

Definition accepted : Api.Fetch UploadResponse.t :=
  fun _ _ => Returned (Api.mkResponse true 201 "Created" (Returned Scenario.uploaded)).

(** The upload is accepted, every other endpoint answers 503. *)
Definition uploadOnly : Api.Network :=
  Api.mkNetwork accepted unavailable unavailable unavailable.

(** An image whose embedded code is a verification link. *)
Definition codeReader : File.t -> Outcome (option string) :=
  fun _ => Returned (Some "https://verify.example/JH-RU-2021-004567").

(** A detector that is down for the image alone and answers once the
    upload id is sent along; every other service answers. *)
Definition lateDetector : Services :=
  mkServices (fun _ => Returned None)
             (fun _ _ certificateId =>
                match certificateId with
                | Some _ => Returned Scenario.authenticVerdict
                | None => Threw "Failed to fetch"
                end)
             (fun _ => Returned Scenario.uploaded)
             (fun _ => Returned (OCRResponse.mk "ocr-1" "B.Sc 2019" 0.9))
             (fun _ => Threw "API Error: 500 Internal Server Error").

(** The page served over plain HTTP: no [crypto.subtle]. *)
Definition insecureHost : Host :=
  mkHost (Scenario.insecureAt 255) (fun _ => "95.0").

End Deployment.
(* ================================================================== *)
(** ** Test vectors *)

Example sha256_empty :
  sha256Hex (mkPlatform true 0) [] =
  "e3b0c44298fc1c149afbf4c8996fb92427ae41e4649b934ca495991b7852b855"%string.
Proof. vm_compute. reflexivity. Qed.

Example sha256_abc :
  sha256Hex (mkPlatform true 0) (bytesOfString "abc") =
  "ba7816bf8f01cfea414140de5dae2223b00361a396177a9cb410ff61f20015ad"%string.
Proof. vm_compute. reflexivity. Qed.

Example sha256_two_blocks :
  sha256Hex (mkPlatform true 0)
    (bytesOfString "abcdbcdecdefdefgefghfghighijhijkijkljklmklmnlmnomnopnopq") =
  "248d6a61d20638b8e5c026930c3e6039a33ce45964ff2167f6ecedd419db06c1"%string.
Proof. vm_compute. reflexivity. Qed.

Example extract_from_name :
  extractCertificateNumber (Some "scan_jh-nu-2019-000123_v2.png"%string)
  = Some "JH-NU-2019-000123"%string.
Proof. reflexivity. Qed.

Example extract_greedy :
  extractCertificateNumber (Some "JH-NU-2019-00012345"%string)
  = Some "JH-NU-2019-00012345"%string.
Proof. reflexivity. Qed.

Example extract_short :
  extractCertificateNumber (Some "JH-NU-2019-00012"%string) = None.
Proof. reflexivity. Qed.

(* ================================================================== *)
(** ** Lists: first match of [find] and [filter] *)

Section FirstMatch.
Context {A : Type} (p : A -> bool).

Lemma find_firstWith (l : list A) (x : A) :
  find p l = Some x -> firstWith p l x.
Proof.
  induction l as [|a l IH]; simpl; [discriminate|].
  destruct (p a) eqn:Ha.
  - intros [= ->]. exists [], l. repeat split; auto. intros y [].
  - intros H. destruct (IH H) as (l1 & l2 & -> & Hx & Hl1).
    exists (a :: l1), l2. repeat split; auto.
    intros y [<-|Hy]; auto.
Qed.

Lemma firstWith_find (l : list A) (x : A) :
  firstWith p l x -> find p l = Some x.
Proof.
  intros (l1 & l2 & -> & Hx & Hl1).
  induction l1 as [|a l1 IH]; simpl.
  - now rewrite Hx.
  - rewrite (Hl1 a (or_introl eq_refl)). apply IH.
    intros y Hy. apply Hl1. now right.
Qed.

Lemma firstWith_filter (l : list A) (x : A) :
  firstWith p l x -> exists rest, filter p l = x :: rest.
Proof.
  intros (l1 & l2 & -> & Hx & Hl1).
  induction l1 as [|a l1 IH]; simpl.
  - rewrite Hx. eauto.
  - rewrite (Hl1 a (or_introl eq_refl)). apply IH.
    intros y Hy. apply Hl1. now right.
Qed.

Lemma exists_firstWith (l : list A) (x : A) :
  In x l -> p x = true -> exists y, firstWith p l y.
Proof.
  intros Hin Hx. destruct (find p l) as [y|] eqn:Hf.
  - exists y. now apply find_firstWith.
  - now rewrite (find_none p l Hf x Hin) in Hx.
Qed.

Lemma find_none_iff (l : list A) :
  (forall y, In y l -> p y = false) -> find p l = None.
Proof.
  induction l as [|a l IH]; simpl; auto.
  intros H. rewrite (H a (or_introl eq_refl)). apply IH. auto.
Qed.

Lemma filter_nil_iff (l : list A) :
  (forall y, In y l -> p y = false) -> filter p l = [].
Proof.
  induction l as [|a l IH]; simpl; auto.
  intros H. rewrite (H a (or_introl eq_refl)). apply IH. auto.
Qed.

End FirstMatch.

(* ================================================================== *)
(** ** Shape of what [extractCertificateNumber] returns *)

Lemma matchClasses_split cs : forall s m rest,
  matchClasses cs s = Some (m, rest) ->
  s = (m ++ rest)%string /\ String.length m = List.length cs.
Proof.
  induction cs as [|p cs IH]; simpl; intros s m rest.
  - intros [= <- <-]. auto.
  - destruct s as [|c r]; [discriminate|].
    destruct (p c); [|discriminate].
    destruct (matchClasses cs r) as [[m' rest']|] eqn:E; [|discriminate].
    intros [= <- <-]. destruct (IH _ _ _ E) as [-> Hl]. simpl. auto.
Qed.

Lemma append_length (a b : string) :
  String.length (a ++ b) = String.length a + String.length b.
Proof. induction a; simpl; auto. Qed.

Lemma matchHere_length s m :
  matchHere certificatePrefix s = Some m -> 17 <= String.length m.
Proof.
  unfold matchHere.
  destruct (matchClasses certificatePrefix s) as [[m' rest]|] eqn:E; [|discriminate].
  destruct (6 <=? String.length (takeDigits rest))%nat eqn:L; [|discriminate].
  intros [= <-]. apply matchClasses_split in E. destruct E as [_ E].
  apply Nat.leb_le in L. rewrite append_length, E. simpl. lia.
Qed.

Lemma regexMatch_length s : forall m,
  regexMatch certificatePrefix s = Some m -> 17 <= String.length m.
Proof.
  induction s as [|c r IH]; intros m; cbn [regexMatch];
    destruct (matchHere certificatePrefix _) eqn:E;
    try (intros [= <-]; now apply matchHere_length in E).
  apply IH.
Qed.

Lemma toUpperCase_length s : String.length (Js.toUpperCase s) = String.length s.
Proof. induction s; simpl; auto. Qed.

Lemma truthy_length s : 1 <= String.length s -> Js.truthy s = true.
Proof. destruct s; simpl; auto. lia. Qed.

Lemma extractCertificateNumber_truthy input n :
  extractCertificateNumber input = Some n -> Js.truthy n = true.
Proof.
  unfold extractCertificateNumber.
  destruct (negb (Js.truthy_opt input)); [discriminate|].
  destruct input as [s|]; [|discriminate].
  destruct (regexMatch certificatePrefix s) as [m|] eqn:E; [|discriminate].
  intros [= <-]. apply truthy_length. rewrite toUpperCase_length.
  apply regexMatch_length in E. lia.
Qed.

Lemma inferCertificateNumber_truthy qr name n :
  inferCertificateNumber qr name = Some n -> Js.truthy n = true.
Proof.
  unfold inferCertificateNumber, Js.or_else.
  destruct (Js.truthy_opt qr).
  - destruct (extractCertificateNumber qr) as [q|] eqn:E; simpl.
    + rewrite (extractCertificateNumber_truthy _ _ E).
      intros [= <-]. now apply extractCertificateNumber_truthy in E.
    + apply extractCertificateNumber_truthy.
  - simpl. apply extractCertificateNumber_truthy.
Qed.

(* ================================================================== *)
(** ** The local matcher *)

(** Both sides of a matcher equation differ only in how appends nest, once
    the two structural tests are decided. *)
Ltac structural_cases file :=
  unfold structuralIssues, mismatchIssue, duplicateIssue, manualIssue;
  cbv zeta beta iota;
  destruct (negb (Js.truthy (File.type file))), (File.size file =? 0)%Z;
  cbn [app nth_error]; rewrite ?app_nil_r, <- ?app_assoc; reflexivity.

(** Exact fingerprint match: [valid], that record, no matcher issue. *)
Lemma localVerification_fingerprint registry base file rec :
  firstWith (hasFingerprint (Metadata.hashHex (VerificationResult.metadata base)))
            registry rec ->
  localVerificationWith registry base file =
  VerificationResult.mk valid
    (VerificationResult.issues base ++ structuralIssues file)
    (VerificationResult.metadata base) (Some rec).
Proof.
  intros H. apply firstWith_find in H.
  unfold localVerificationWith, hasFingerprint in *. cbv zeta.
  rewrite H. structural_cases file.
Qed.

(** No fingerprint match, some record shares the extracted number. *)
Lemma localVerification_number registry base file n rec :
  (forall r, In r registry ->
     hasFingerprint (Metadata.hashHex (VerificationResult.metadata base)) r = false) ->
  inferCertificateNumber (Metadata.qrData (VerificationResult.metadata base))
                         (File.name file) = Some n ->
  firstWith (hasNumber n) registry rec ->
  localVerificationWith registry base file =
  VerificationResult.mk suspect
    (VerificationResult.issues base ++ [mismatchIssue] ++
     (if (1 <? List.length (filter (hasNumber n) registry))%nat
      then [duplicateIssue] else []) ++ structuralIssues file)
    (VerificationResult.metadata base) (Some rec).
Proof.
  intros Hfp Hn Hrec.
  destruct (firstWith_filter _ _ _ Hrec) as [rest Hfilter].
  unfold localVerificationWith, hasFingerprint, hasNumber in *. cbv zeta.
  rewrite (find_none_iff _ _ Hfp), Hn, (inferCertificateNumber_truthy _ _ _ Hn).
  rewrite Hfilter.
  change (0 <? List.length (rec :: rest))%nat with true.
  destruct (1 <? List.length (rec :: rest))%nat; structural_cases file.
Qed.

(** Neither a fingerprint match nor a number match. *)
Lemma localVerification_nomatch registry base file :
  (forall r, In r registry ->
     hasFingerprint (Metadata.hashHex (VerificationResult.metadata base)) r = false) ->
  (forall n,
     inferCertificateNumber (Metadata.qrData (VerificationResult.metadata base))
                            (File.name file) = Some n ->
     forall r, In r registry -> hasNumber n r = false) ->
  localVerificationWith registry base file =
  VerificationResult.mk suspect
    (VerificationResult.issues base ++ [manualIssue] ++ structuralIssues file)
    (VerificationResult.metadata base) None.
Proof.
  intros Hfp Hn.
  unfold localVerificationWith, hasFingerprint, hasNumber in *. cbv zeta.
  rewrite (find_none_iff _ _ Hfp).
  set (num := inferCertificateNumber _ _) in *.
  assert (Hnil :
    match num with
    | Some n => if Js.truthy n
                then filter (fun r => String.eqb (RegistryRecord.certificateNumber r) n)
                            registry
                else []
    | None => []
    end = []).
  { destruct num as [n|]; auto. destruct (Js.truthy n); auto.
    apply filter_nil_iff. now apply Hn. }
  rewrite Hnil. change (0 <? List.length (@nil RegistryRecord.t))%nat with false.
  structural_cases file.
Qed.

Lemma eqb_false_of_neq (a b : string) : a <> b -> String.eqb a b = false.
Proof. intros H. now apply String.eqb_neq. Qed.

(** C5 -- Local matcher precedence.  For every record set and every evidence
    reaching the matcher: (1) if some record carries the file's fingerprint,
    the status is [valid], the matched record is the first such record and
    the matcher appends no issue of its own; (2) else, if some record shares
    the extracted certificate number, the status is [suspect], the matched
    record is the first such record in record-set order, the mismatch issue
    is appended, and the duplicate-number issue is appended exactly when more
    than one record shares the number; (3) else the status is [suspect], no
    record is matched and the manual-verification issue is appended.  In all
    three cases the structural issues follow. *)
Theorem local_matcher_precedence
    (registry : list RegistryRecord.t) (base : VerificationResult.t) (file : File.t) :
  let fp := Metadata.hashHex (VerificationResult.metadata base) in
  let number :=
    inferCertificateNumber (Metadata.qrData (VerificationResult.metadata base))
                           (File.name file) in
  let res := localVerificationWith registry base file in
  (forall r0, In r0 registry -> RegistryRecord.hashHex r0 = fp ->
     exists rec,
       firstWith (hasFingerprint fp) registry rec /\
       VerificationResult.status res = valid /\
       VerificationResult.matchedRecord res = Some rec /\
       VerificationResult.issues res =
         VerificationResult.issues base ++ structuralIssues file)
  /\
  ((forall r, In r registry -> RegistryRecord.hashHex r <> fp) ->
   forall n r0, number = Some n -> In r0 registry ->
     RegistryRecord.certificateNumber r0 = n ->
     exists rec,
       firstWith (hasNumber n) registry rec /\
       VerificationResult.status res = suspect /\
       VerificationResult.matchedRecord res = Some rec /\
       VerificationResult.issues res =
         VerificationResult.issues base ++ [mismatchIssue] ++
         (if (1 <? List.length (filter (hasNumber n) registry))%nat
          then [duplicateIssue] else []) ++ structuralIssues file)
  /\
  ((forall r, In r registry -> RegistryRecord.hashHex r <> fp) ->
   (forall n, number = Some n ->
      forall r, In r registry -> RegistryRecord.certificateNumber r <> n) ->
   VerificationResult.status res = suspect /\
   VerificationResult.matchedRecord res = None /\
   VerificationResult.issues res =
     VerificationResult.issues base ++ [manualIssue] ++ structuralIssues file).
Proof.
  cbv zeta. split; [|split].
  - intros r0 Hin Hfp.
    destruct (exists_firstWith
                (hasFingerprint (Metadata.hashHex (VerificationResult.metadata base)))
                registry r0 Hin) as [rec Hrec].
    { unfold hasFingerprint. rewrite Hfp. apply String.eqb_refl. }
    exists rec. split; [exact Hrec|].
    rewrite (localVerification_fingerprint _ _ file _ Hrec). auto.
  - intros Hnofp n r0 Hn Hin Hnum.
    destruct (exists_firstWith (hasNumber n) registry r0 Hin) as [rec Hrec].
    { unfold hasNumber. rewrite Hnum. apply String.eqb_refl. }
    exists rec. split; [exact Hrec|].
    rewrite (localVerification_number registry base file n rec); auto.
    intros r Hr. apply eqb_false_of_neq. auto.
  - intros Hnofp Hnonum.
    rewrite localVerification_nomatch; auto.
    + intros r Hr. apply eqb_false_of_neq. auto.
    + intros n Hn r Hr. apply eqb_false_of_neq. eauto.
Qed.

Lemma local_matcher_precedence_witness :
  (let ev := Scenario.named "scan.png"
       "e3b0c44298fc1c149afbf4c8996fb92427ae41e4649b934ca495991b7852b855" in
   let res := localVerificationWith Scenario.cloned (fst ev) (snd ev) in
   exists rec,
     firstWith (hasFingerprint
                  "e3b0c44298fc1c149afbf4c8996fb92427ae41e4649b934ca495991b7852b855")
               Scenario.cloned rec /\
     VerificationResult.status res = valid /\
     VerificationResult.matchedRecord res = Some rec /\
     VerificationResult.issues res = [])
  /\
  (let ev := Scenario.named "JH-RU-2021-004567.png"
       "cccccccccccccccccccccccccccccccccccccccccccccccccccccccccccccccc" in
   let res := localVerificationWith Scenario.cloned (fst ev) (snd ev) in
   exists rec,
     firstWith (hasNumber "JH-RU-2021-004567") Scenario.cloned rec /\
     VerificationResult.status res = suspect /\
     VerificationResult.matchedRecord res = Some rec /\
     VerificationResult.issues res = [mismatchIssue; duplicateIssue])
  /\
  (let ev := Scenario.named "holiday.png"
       "cccccccccccccccccccccccccccccccccccccccccccccccccccccccccccccccc" in
   let res := localVerificationWith Scenario.cloned (fst ev) (snd ev) in
   VerificationResult.status res = suspect /\
   VerificationResult.matchedRecord res = None /\
   VerificationResult.issues res = [manualIssue]).
Proof.
  cbv zeta. split; [|split].
  - destruct (local_matcher_precedence Scenario.cloned
                (fst (Scenario.named "scan.png"
                   "e3b0c44298fc1c149afbf4c8996fb92427ae41e4649b934ca495991b7852b855"))
                (snd (Scenario.named "scan.png"
                   "e3b0c44298fc1c149afbf4c8996fb92427ae41e4649b934ca495991b7852b855")))
      as (H & _ & _).
    apply (H (nth 0 Scenario.cloned (RegistryRecord.mk "" "" "" "" "" 0)));
      [left; reflexivity|reflexivity].
  - destruct (local_matcher_precedence Scenario.cloned
                (fst (Scenario.named "JH-RU-2021-004567.png"
                   "cccccccccccccccccccccccccccccccccccccccccccccccccccccccccccccccc"))
                (snd (Scenario.named "JH-RU-2021-004567.png"
                   "cccccccccccccccccccccccccccccccccccccccccccccccccccccccccccccccc")))
      as (_ & H & _).
    apply (H ltac:(intros r [<-|[<-|[<-|[]]]]; discriminate)
             "JH-RU-2021-004567"%string
             (nth 1 Scenario.cloned (RegistryRecord.mk "" "" "" "" "" 0)));
      [reflexivity|right; left; reflexivity|reflexivity].
  - destruct (local_matcher_precedence Scenario.cloned
                (fst (Scenario.named "holiday.png"
                   "cccccccccccccccccccccccccccccccccccccccccccccccccccccccccccccccc"))
                (snd (Scenario.named "holiday.png"
                   "cccccccccccccccccccccccccccccccccccccccccccccccccccccccccccccccc")))
      as (_ & _ & H).
    apply H.
    + intros r [<-|[<-|[<-|[]]]]; discriminate.
    + intros n Hn. discriminate Hn.
Defined.

(** On the duplicated number the matched record is the first of the two. *)
Example cloned_number_first_record :
  VerificationResult.matchedRecord
    (localVerificationWith Scenario.cloned
       (fst (Scenario.named "JH-RU-2021-004567.png" "cc"))
       (snd (Scenario.named "JH-RU-2021-004567.png" "cc")))
  = nth_error Scenario.cloned 1.
Proof. reflexivity. Qed.

Lemma localVerificationWith_status registry base file :
  VerificationResult.status (localVerificationWith registry base file) = valid \/
  VerificationResult.status (localVerificationWith registry base file) = suspect.
Proof.
  unfold localVerificationWith. cbv zeta.
  destruct (find _ registry); [left; reflexivity|].
  destruct (0 <? _)%nat; right; reflexivity.
Qed.

(** C6 -- The local registry matcher never returns [invalid]: the status it
    assigns is [valid] or [suspect], whatever evidence and file reach it. *)
Theorem localVerification_never_invalid (base : VerificationResult.t) (file : File.t) :
  VerificationResult.status (localVerification base file) = valid \/
  VerificationResult.status (localVerification base file) = suspect.
Proof. apply localVerificationWith_status. Qed.

(* ================================================================== *)
(** ** Rules of the weakest-precondition calculus *)

Section WpRules.
Context {A B : Type}.

Lemma wp_ret (a : A) Q E s : Q a s -> wp (ret a) Q E s.
Proof. exact (fun H => H). Qed.

Lemma wp_bind (m : M A) (k : A -> M B) Q E s :
  wp m (fun a => wp (k a) Q E) E s -> wp (bind m k) Q E s.
Proof. unfold wp, bind. destruct (m s) as [s' [a|e]]; auto. Qed.

Lemma wp_try (body : M A) (handler : Error -> M A) Q E s :
  wp body Q (fun e => wp (handler e) Q E) s -> wp (try_catch body handler) Q E s.
Proof. unfold wp, try_catch. destruct (body s) as [s' [a|e]]; auto. Qed.

Lemma wp_mono (m : M A) (Q Q' : A -> Run -> Prop) (E E' : Error -> Run -> Prop) s :
  wp m Q E s ->
  (forall a s', Q a s' -> Q' a s') ->
  (forall e s', E e s' -> E' e s') ->
  wp m Q' E' s.
Proof. unfold wp. destruct (m s) as [s' [a|e]]; auto. Qed.

(** Sequencing through an intermediate assertion. *)
Lemma wp_seq (m : M A) (k : A -> M B) (R : A -> Run -> Prop) Q E s :
  wp m R E s ->
  (forall a s', R a s' -> wp (k a) Q E s') ->
  wp (bind m k) Q E s.
Proof.
  intros Hm Hk. apply wp_bind. eapply wp_mono; eauto.
Qed.


End WpRules.

Lemma wp_catch {A} (body : M A) (handler : Error -> M A)
    (R : Error -> Run -> Prop) Q E s :
  wp body Q R s ->
  (forall e s', R e s' -> wp (handler e) Q E s') ->
  wp (try_catch body handler) Q E s.
Proof. intros Hb Hh. apply wp_try. eapply wp_mono; eauto. Qed.

(** A computation that satisfies [wp _ Q noThrow] returns. *)
Lemma wp_returns {A} (m : M A) Q s :
  wp m Q noThrow s -> exists s' a, m s = (s', Returned a) /\ Q a s'.
Proof.
  unfold wp, noThrow. destruct (m s) as [s' [a|e]]; [eauto|tauto].
Qed.

(** Symbolic execution of one stage: unfold the stage down to the awaited
    outcomes and the tests on them, and decide each in turn. *)
Ltac run_unfold :=
  cbv [wp qrStage mlStage uploadStage ocrStage mlOcrStage verifyStage fallback
       reportMlResult bind ret try_catch get modify when await onBase
       onMetadata pushIssue setMlDetectionDone base mlDetectionDone calls].

Ltac run_simpl :=
  cbn [base mlDetectionDone calls fst snd negb andb orb Status_eqb
       VerificationResult.status VerificationResult.issues
       VerificationResult.metadata VerificationResult.matchedRecord
       set_status set_issues set_metadata set_matchedRecord] in *;
  rewrite ?andb_false_r, ?andb_true_r in *.

Ltac run_use_known :=
  repeat match goal with
         | H : ?x = _ |- context [match ?x with _ => _ end] => rewrite H
         end.

Ltac run_case :=
  match goal with
  | |- context [match ?x with _ => _ end] =>
      lazymatch x with
      | context [match _ with _ => _ end] => fail
      | _ => destruct x eqn:?
      end
  end.

Ltac run_cases := run_unfold; run_simpl; repeat (run_use_known; run_simpl; try run_case; run_simpl).

Lemma wp_seq_returns {A B} (m : M A) (k : A -> M B) (R : A -> Run -> Prop) Q E s :
  wp m R noThrow s ->
  (forall a s', R a s' -> wp (k a) Q E s') ->
  wp (bind m k) Q E s.
Proof.
  intros Hm Hk. eapply wp_seq; [|exact Hk].
  eapply wp_mono; [exact Hm|auto|]. intros e s' [].
Qed.

(** What [wp] of the pipeline from the initial state says of [analyzeFile]. *)
Lemma analyzeFileRun_wp host api file buf
    (Q : VerificationResult.t -> Run -> Prop) :
  File.arrayBuffer file = Returned buf ->
  wp (pipeline host api (sha256Hex (platform host) buf) file) Q noThrow
     (initialRun (sha256Hex (platform host) buf) file) ->
  exists s' r, analyzeFileRun host api file = (calls s', Returned r) /\ Q r s'.
Proof.
  intros Hbuf H. apply wp_returns in H. destruct H as (s' & r & Heq & HQ).
  exists s', r. split; [|exact HQ].
  unfold analyzeFileRun. rewrite Hbuf. now rewrite Heq.
Qed.

(* ================================================================== *)
(** ** The status stays [invalid] up to the merge, and through it *)

Ltac status_stage s :=
  let H := fresh "H" in
  destruct s as [b d l]; unfold statusInvalid; cbn [base]; intros H;
  run_cases; rewrite ?H in *; run_cases; try congruence; auto.

Section StatusInvalid.
Variable host : Host.
Variable api : Services.
Variable file : File.t.

Lemma qrStage_statusInvalid s :
  statusInvalid s -> wp (qrStage api file) (fun _ => statusInvalid) noThrow s.
Proof. status_stage s. Qed.

Lemma mlStage_statusInvalid s :
  statusInvalid s -> wp (mlStage host api file) (fun _ => statusInvalid) noThrow s.
Proof. status_stage s. Qed.

Lemma uploadStage_statusInvalid s :
  statusInvalid s ->
  wp (uploadStage api file)
     (fun u s' => uploadCertificate api file = Returned u /\ statusInvalid s')
     (fun e _ => uploadCertificate api file = Threw e) s.
Proof. status_stage s. Qed.

Lemma ocrStage_statusInvalid s :
  statusInvalid s -> wp (ocrStage api file) (fun _ => statusInvalid) noThrow s.
Proof. status_stage s. Qed.

Lemma mlOcrStage_statusInvalid u s :
  statusInvalid s ->
  wp (mlOcrStage host api file u) (fun _ => statusInvalid) noThrow s.
Proof. status_stage s. Qed.

Lemma verifyStage_statusInvalid hashHex u s :
  statusInvalid s ->
  wp (verifyStage api hashHex u)
     (fun r _ => VerificationResult.status r = invalid)
     (fun e _ => verifyCertificate api (UploadResponse.id u) = Threw e) s.
Proof. status_stage s. Qed.

(** The backend block either returns a result whose status is [invalid],
    or throws because the upload or the verification did. *)
Lemma backendPath_statusInvalid hashHex s :
  statusInvalid s ->
  wp (backendPath host api hashHex file)
     (fun r _ => VerificationResult.status r = invalid)
     (fun e _ => uploadCertificate api file = Threw e \/
                 exists u, uploadCertificate api file = Returned u /\
                           verifyCertificate api (UploadResponse.id u) = Threw e) s.
Proof.
  intros H. unfold backendPath.
  apply wp_seq with
    (R := fun u s' => uploadCertificate api file = Returned u /\ statusInvalid s').
  { eapply wp_mono; [apply (uploadStage_statusInvalid _ H)|auto|]. cbv beta. auto. }
  intros u s1 [Hu H1].
  eapply wp_seq_returns; [apply (ocrStage_statusInvalid _ H1)|].
  cbv beta. intros _ s2 H2.
  eapply wp_seq_returns; [apply (mlOcrStage_statusInvalid u _ H2)|].
  cbv beta. intros _ s3 H3.
  eapply wp_mono; [apply (verifyStage_statusInvalid hashHex u _ H3)| |];
    cbv beta; eauto.
Qed.

Lemma pipeline_statusInvalid hashHex u v s :
  uploadCertificate api file = Returned u ->
  verifyCertificate api (UploadResponse.id u) = Returned v ->
  statusInvalid s ->
  wp (pipeline host api hashHex file)
     (fun r _ => VerificationResult.status r = invalid) noThrow s.
Proof.
  intros Hup Hver H. unfold pipeline.
  eapply wp_seq_returns; [apply (qrStage_statusInvalid _ H)|].
  cbv beta. intros _ s1 H1.
  eapply wp_seq_returns; [apply (mlStage_statusInvalid _ H1)|].
  cbv beta. intros _ s2 H2.
  eapply wp_catch; [apply (backendPath_statusInvalid hashHex _ H2)|].
  cbv beta. intros e s3 [He|(u' & Hu' & He)].
  - congruence.
  - rewrite Hup in Hu'. injection Hu' as <-. congruence.
Qed.

End StatusInvalid.

(** C3 -- Whenever the authoritative path succeeds (upload and verify both
    return), [analyzeFile] returns status [invalid], whatever verdict the
    remote verification reports: the status starts as [invalid] and the
    remote verdict is adopted only when the status is not [invalid]. *)
Theorem authoritative_success_always_invalid
    (host : Host) (api : Services) (file : File.t) (buf : list byte)
    (u : UploadResponse.t) (v : VerificationResponse.t) :
  File.arrayBuffer file = Returned buf ->
  uploadCertificate api file = Returned u ->
  verifyCertificate api (UploadResponse.id u) = Returned v ->
  exists r, analyzeFile host api file = Returned r /\
            VerificationResult.status r = invalid.
Proof.
  intros Hbuf Hup Hver.
  destruct (analyzeFileRun_wp host api file buf
              (fun r _ => VerificationResult.status r = invalid) Hbuf)
    as (s' & r & Hrun & Hr).
  { apply (pipeline_statusInvalid host api file _ u v _ Hup Hver). reflexivity. }
  exists r. split; [|exact Hr]. unfold analyzeFile. now rewrite Hrun.
Qed.

Lemma authoritative_success_always_invalid_witness :
  exists r, analyzeFile Scenario.host Scenario.onlineAuthentic Scenario.pdf = Returned r /\
            VerificationResult.status r = invalid.
Proof.
  apply (authoritative_success_always_invalid
           Scenario.host Scenario.onlineAuthentic Scenario.pdf
           Scenario.pngBytes Scenario.uploaded Scenario.remoteValid);
    reflexivity.
Defined.

(* ================================================================== *)
(** ** Every failed call leaves its issue *)

Ltac reported :=
  let c := fresh "c" in
  let Hc := fresh "Hc" in
  intros c Hc; rewrite ?in_app_iff in *; cbn [In] in *;
  repeat match goal with
         | H : _ \/ _ |- _ => destruct H
         | H : False |- _ => destruct H
         | H : (_, _) = (_, _) |- _ => inversion H; clear H; subst
         end;
  try match goal with
      | H : forall c, In (c, false) _ -> _, Hc : In (_, false) _ |- _ =>
          apply H in Hc; rewrite ?in_app_iff in Hc; cbn [In] in Hc
      end;
  cbn [failureIssue]; unfold backendIssue in *; tauto.

Ltac reported_stage s :=
  let H := fresh "H" in
  destruct s as [b d l]; unfold failuresReported, failuresInResult;
  cbn [base calls]; intros H; run_cases; try reported.

Lemma localVerification_keeps_issues registry base file x :
  In x (VerificationResult.issues base) ->
  In x (VerificationResult.issues (localVerificationWith registry base file)).
Proof.
  intros H. unfold localVerificationWith. cbv zeta.
  destruct (find _ registry); [|destruct (0 <? _)%nat; [destruct (1 <? _)%nat|]];
    cbv beta iota;
    destruct (negb (Js.truthy (File.type file))), (File.size file =? 0)%Z;
    cbn [VerificationResult.issues]; rewrite ?in_app_iff; tauto.
Qed.

Section FailuresReported.
Variable host : Host.
Variable api : Services.
Variable file : File.t.

Lemma qrStage_reported s :
  failuresReported [] s ->
  wp (qrStage api file) (fun _ => failuresReported []) noThrow s.
Proof. reported_stage s. Qed.

Lemma mlStage_reported s :
  failuresReported [] s ->
  wp (mlStage host api file) (fun _ => failuresReported []) noThrow s.
Proof. reported_stage s. Qed.

Lemma uploadStage_reported s :
  failuresReported [] s ->
  wp (uploadStage api file) (fun _ => failuresReported [])
     (fun _ => failuresReported [backendIssue]) s.
Proof. reported_stage s. Qed.

Lemma ocrStage_reported s :
  failuresReported [] s ->
  wp (ocrStage api file) (fun _ => failuresReported []) noThrow s.
Proof. reported_stage s. Qed.

Lemma mlOcrStage_reported u s :
  failuresReported [] s ->
  wp (mlOcrStage host api file u) (fun _ => failuresReported []) noThrow s.
Proof. reported_stage s. Qed.

Lemma verifyStage_reported hashHex u s :
  failuresReported [] s ->
  wp (verifyStage api hashHex u) failuresInResult
     (fun _ => failuresReported [backendIssue]) s.
Proof. reported_stage s. Qed.

Lemma fallback_reported s :
  failuresReported [backendIssue] s ->
  wp (fallback file) failuresInResult noThrow s.
Proof.
  destruct s as [b d l]. unfold failuresReported, failuresInResult.
  cbn [base calls]. intros H. run_cases.
  intros c Hc. apply localVerification_keeps_issues. apply H in Hc.
  exact Hc.
Qed.

Lemma backendPath_reported hashHex s :
  failuresReported [] s ->
  wp (backendPath host api hashHex file) failuresInResult
     (fun _ => failuresReported [backendIssue]) s.
Proof.
  intros H. unfold backendPath.
  apply wp_seq with (R := fun _ => failuresReported []);
    [apply (uploadStage_reported _ H)|].
  intros u s1 H1.
  eapply wp_seq_returns; [apply (ocrStage_reported _ H1)|].
  cbv beta. intros _ s2 H2.
  eapply wp_seq_returns; [apply (mlOcrStage_reported u _ H2)|].
  cbv beta. intros _ s3 H3.
  apply (verifyStage_reported hashHex u _ H3).
Qed.

Lemma pipeline_reported hashHex s :
  failuresReported [] s ->
  wp (pipeline host api hashHex file) failuresInResult noThrow s.
Proof.
  intros H. unfold pipeline.
  eapply wp_seq_returns; [apply (qrStage_reported _ H)|].
  cbv beta. intros _ s1 H1.
  eapply wp_seq_returns; [apply (mlStage_reported _ H1)|].
  cbv beta. intros _ s2 H2.
  eapply wp_catch; [apply (backendPath_reported hashHex _ H2)|].
  cbv beta. intros e s3 H3. apply (fallback_reported _ H3).
Qed.

End FailuresReported.


(** The run of an image with nothing reachable, evaluated: the three calls
    that were made all failed, each left its issue, and the matcher answered
    [suspect]. *)
Example offline_run :
  analyzeFileRun Scenario.host Scenario.allDown Scenario.png =
  ([(ReadQr, false); (DetectFake None None, false); (Upload, false)],
   Returned
     (VerificationResult.mk suspect
        [ "Failed to read QR code from image";
          "AI-powered fake detection unavailable";
          "Backend verification unavailable - using local verification";
          "No registry match. Please contact issuing institution for manual validation" ]%string
        (Metadata.mk "degree.png" 3 "image/png"
           "ba7816bf8f01cfea414140de5dae2223b00361a396177a9cb410ff61f20015ad"
           None None None None None)
        None)).
Proof. vm_compute. reflexivity. Qed.

(** An unreadable file is the one input on which [analyzeFile] throws. *)
Example unreadable_run :
  analyzeFileRun Scenario.host Scenario.online Scenario.unreadable =
  ([], Threw "NotReadableError"%string).
Proof. reflexivity. Qed.

(* ================================================================== *)
(** ** The detector is not asked twice *)

Lemma filter_snoc {A} (p : A -> bool) l x :
  filter p (l ++ [x]) = filter p l ++ (if p x then [x] else []).
Proof. rewrite filter_app. simpl. destruct (p x); reflexivity. Qed.

Ltac detect_solve :=
  unfold detectOnce, detectPending; cbn [mlDetectionDone calls];
  rewrite ?filter_snoc; cbn [isDetect fst]; rewrite ?app_nil_r;
  try match goal with
      | H : filter isDetect _ = _ |- _ => rewrite H; cbn [app]
      end;
  first
    [ solve [auto]
    | left; split; [reflexivity|]; solve [auto | congruence]
    | right; split; [reflexivity|];
      rewrite ?in_app_iff; cbn [In];
      let H := fresh in
      intros H;
      repeat match goal with
             | H : _ \/ _ |- _ => destruct H
             | H : False |- _ => destruct H
             end;
      solve [tauto | discriminate | congruence] ].

Ltac detect_stage s :=
  let Hd := fresh "Hd" in
  let Hl := fresh "Hl" in
  destruct s as [b d l]; unfold detectOnce, detectPending;
  cbn [mlDetectionDone calls];
  intros [[Hd Hl]|[Hd Hl]]; subst d; run_cases; detect_solve.

Section DetectOnce.
Variable host : Host.
Variable api : Services.
Variable file : File.t.

Lemma qrStage_detectPending s :
  detectPending s -> wp (qrStage api file) (fun _ => detectPending) noThrow s.
Proof.
  destruct s as [b d l]. unfold detectPending. cbn [mlDetectionDone calls].
  intros [-> Hl]. run_cases; detect_solve.
Qed.

(** The first call site: if the call returns, the flag is set and the log
    holds exactly that detection call. *)
Lemma mlStage_detectOnce s :
  detectPending s -> wp (mlStage host api file) (fun _ => detectOnce) noThrow s.
Proof.
  destruct s as [b d l]. unfold detectPending. cbn [mlDetectionDone calls].
  intros [-> Hl]. run_cases; try detect_solve.
  all: right; split; [reflexivity|]; cbn [calls];
    rewrite ?in_app_iff; cbn [In]; intros Hin.
  all: assert (Hin' : In (DetectFake None None, true) l)
         by (repeat match goal with H : _ \/ _ |- _ => destruct H end;
             try assumption; try discriminate; contradiction).
  all: assert (Hf : In (DetectFake None None, true) (filter isDetect l))
         by (apply filter_In; split; [exact Hin'|reflexivity]).
  all: rewrite Hl in Hf; destruct Hf.
Qed.

Lemma uploadStage_detectOnce s :
  detectOnce s ->
  wp (uploadStage api file) (fun _ => detectOnce) (fun _ => detectOnce) s.
Proof. detect_stage s. Qed.

Lemma ocrStage_detectOnce s :
  detectOnce s -> wp (ocrStage api file) (fun _ => detectOnce) noThrow s.
Proof. detect_stage s. Qed.

(** The second call site: skipped when the flag is set; otherwise its call
    carries an upload id, so it is not the first site's call. *)
Lemma mlOcrStage_detectOnce u s :
  detectOnce s -> wp (mlOcrStage host api file u) (fun _ => detectOnce) noThrow s.
Proof. detect_stage s. Qed.

Lemma verifyStage_detectOnce hashHex u s :
  detectOnce s ->
  wp (verifyStage api hashHex u) (fun _ => detectOnce) (fun _ => detectOnce) s.
Proof. detect_stage s. Qed.

Lemma fallback_detectOnce s :
  detectOnce s -> wp (fallback file) (fun _ => detectOnce) noThrow s.
Proof. detect_stage s. Qed.

Lemma pipeline_detectOnce hashHex s :
  detectPending s ->
  wp (pipeline host api hashHex file) (fun _ => detectOnce) noThrow s.
Proof.
  intros H. unfold pipeline.
  eapply wp_seq_returns; [apply (qrStage_detectPending _ H)|].
  cbv beta. intros _ s1 H1.
  eapply wp_seq_returns; [apply (mlStage_detectOnce _ H1)|].
  cbv beta. intros _ s2 H2.
  apply wp_catch with (R := fun _ => detectOnce).
  - unfold backendPath.
    apply wp_seq with (R := fun _ => detectOnce);
      [apply (uploadStage_detectOnce _ H2)|].
    intros u s3 H3.
    eapply wp_seq_returns; [apply (ocrStage_detectOnce _ H3)|].
    cbv beta. intros _ s4 H4.
    eapply wp_seq_returns; [apply (mlOcrStage_detectOnce u _ H4)|].
    cbv beta. intros _ s5 H5.
    apply (verifyStage_detectOnce hashHex u _ H5).
  - intros e s3 H3. apply (fallback_detectOnce _ H3).
Qed.

End DetectOnce.

(** C7 -- [detectFakeCertificate] executes at most once when the first
    attempt succeeded: in every run whose first (pre-OCR) detection call
    returned, that call is the only detection call of the run, and the
    second (post-OCR) call site, whose call carries the upload id, made
    none. *)
Theorem detectForgery_at_most_once (host : Host) (api : Services) (file : File.t) :
  In (DetectFake None None, true) (callsOf host api file) ->
  detectCount (callsOf host api file) = 1 /\
  forall text id ok,
    ~ In (DetectFake text (Some id), ok) (callsOf host api file).
Proof.
  unfold callsOf.
  destruct (File.arrayBuffer file) as [buf|e] eqn:Hbuf.
  2:{ unfold analyzeFileRun. rewrite Hbuf. intros []. }
  destruct (analyzeFileRun_wp host api file buf (fun _ => detectOnce) Hbuf)
    as (s' & r & Hrun & [[_ Hl]|[_ Hn]]).
  { apply pipeline_detectOnce. split; reflexivity. }
  - rewrite Hrun. cbn [fst]. intros _. split.
    + unfold detectCount. now rewrite Hl.
    + intros text id ok Hin.
      assert (Hf : In (DetectFake text (Some id), ok) (filter isDetect (calls s')))
        by (apply filter_In; split; [exact Hin|reflexivity]).
      rewrite Hl in Hf. destruct Hf as [Hf|[]]. discriminate.
  - rewrite Hrun. cbn [fst]. intros Hin. contradiction.
Qed.

Lemma detectForgery_at_most_once_witness :
  detectCount (callsOf Scenario.host Scenario.online Scenario.png) = 1 /\
  forall text id ok,
    ~ In (DetectFake text (Some id), ok)
         (callsOf Scenario.host Scenario.online Scenario.png).
Proof.
  apply (detectForgery_at_most_once Scenario.host Scenario.online Scenario.png).
  vm_compute. tauto.
Defined.

(** The percentage the detector's verdicts are printed with. *)
Example percent_of_confidence :
  PrimFloat.eqb (PrimFloat.mul 0.95 100) 95 = true /\
  percent Scenario.host (MLDetectionResponse.confidence Scenario.fakeVerdict)
    = "95.0"%string.
Proof. split; reflexivity. Qed.

(** The calls of a run in which everything answers: both call sites are
    reachable, one detection call is made. *)
Example online_calls :
  callsOf Scenario.host Scenario.online Scenario.png =
  [ (ReadQr, true); (DetectFake None None, true); (Upload, true);
    (ExtractText, true); (Verify "cert-42", true) ].
Proof. vm_compute. reflexivity. Qed.

(* ================================================================== *)
(** ** The authoritative merge *)

Section Merge.
Variable host : Host.
Variable api : Services.
Variable file : File.t.

Ltac nomatch_stage s :=
  let H := fresh "H" in
  destruct s as [b d l]; unfold noMatchYet; cbn [base]; intros H;
  run_cases; auto.

Lemma qrStage_noMatchYet s :
  noMatchYet s -> wp (qrStage api file) (fun _ => noMatchYet) noThrow s.
Proof. nomatch_stage s. Qed.

Lemma mlStage_noMatchYet s :
  noMatchYet s -> wp (mlStage host api file) (fun _ => noMatchYet) noThrow s.
Proof. nomatch_stage s. Qed.

Lemma uploadStage_noMatchYet u s :
  uploadCertificate api file = Returned u ->
  noMatchYet s ->
  wp (uploadStage api file) (fun u' s' => u' = u /\ noMatchYet s') noThrow s.
Proof. intros Hup. nomatch_stage s. Qed.

Lemma ocrStage_noMatchYet s :
  noMatchYet s -> wp (ocrStage api file) (fun _ => noMatchYet) noThrow s.
Proof. nomatch_stage s. Qed.

Lemma mlOcrStage_noMatchYet u s :
  noMatchYet s -> wp (mlOcrStage host api file u) (fun _ => noMatchYet) noThrow s.
Proof. nomatch_stage s. Qed.

(** When the upload returns, the run reaches the verification request. *)
Lemma beforeVerify_returns u s :
  uploadCertificate api file = Returned u ->
  noMatchYet s ->
  wp (beforeVerify host api file) (fun u' s' => u' = u /\ noMatchYet s') noThrow s.
Proof.
  intros Hup H. unfold beforeVerify.
  eapply wp_seq_returns; [apply (qrStage_noMatchYet _ H)|].
  cbv beta. intros _ s1 H1.
  eapply wp_seq_returns; [apply (mlStage_noMatchYet _ H1)|].
  cbv beta. intros _ s2 H2.
  eapply wp_seq_returns; [apply (uploadStage_noMatchYet u _ Hup H2)|].
  cbv beta. intros u' s3 [-> H3].
  eapply wp_seq_returns; [apply (ocrStage_noMatchYet _ H3)|].
  cbv beta. intros _ s4 H4.
  eapply wp_seq_returns; [apply (mlOcrStage_noMatchYet u _ H4)|].
  cbv beta. intros _ s5 H5.
  apply wp_ret. auto.
Qed.

(** The pipeline is the evidence gathering followed by the guarded
    verification step. *)
Lemma pipeline_after_beforeVerify hashHex s s1 u :
  beforeVerify host api file s = (s1, Returned u) ->
  pipeline host api hashHex file s =
  try_catch (verifyStage api hashHex u) (fun _ => fallback file) s1.
Proof.
  unfold pipeline, beforeVerify, backendPath, bind, try_catch, ret.
  destruct (qrStage api file s) as [sa [[]|e]]; [|discriminate].
  destruct (mlStage host api file sa) as [sb [[]|e]]; [|discriminate].
  destruct (uploadStage api file sb) as [sc [u'|e]]; [|discriminate].
  destruct (ocrStage api file sc) as [sd [[]|e]]; [|discriminate].
  destruct (mlOcrStage host api file u' sd) as [se [[]|e]]; [|discriminate].
  intros [= -> ->]. reflexivity.
Qed.

(** The merge itself, from any state in which the verification returns. *)
Lemma verifyStage_merge hashHex u v s :
  verifyCertificate api (UploadResponse.id u) = Returned v ->
  wp (verifyStage api hashHex u)
     (fun r _ =>
        VerificationResult.issues r =
          VerificationResult.issues (base s) ++ VerificationResponse.issues v /\
        VerificationResult.matchedRecord r =
          match VerificationResponse.matched_record v with
          | Some rec => Some (adoptRecord hashHex rec)
          | None => VerificationResult.matchedRecord (base s)
          end)
     noThrow s.
Proof.
  intros Hver. destruct s as [b d l]. run_cases; auto.
Qed.

End Merge.

(** C10 -- Authoritative merge of issues and record.  When the authoritative
    path succeeds, the run reaches the verification request in some state
    [s1]; the result's issues are the issues accumulated in [s1] followed by
    the remote verification's issues; and the result's matched record is the
    remote record, if any, in the local shape with its hash field set to the
    locally computed fingerprint of the file's bytes (no record is matched
    when the remote response carries none). *)
Theorem authoritative_merge
    (host : Host) (api : Services) (file : File.t) (buf : list byte)
    (u : UploadResponse.t) (v : VerificationResponse.t) :
  File.arrayBuffer file = Returned buf ->
  uploadCertificate api file = Returned u ->
  verifyCertificate api (UploadResponse.id u) = Returned v ->
  let hashHex := sha256Hex (platform host) buf in
  exists s1 r,
    beforeVerify host api file (initialRun hashHex file) = (s1, Returned u) /\
    analyzeFile host api file = Returned r /\
    VerificationResult.issues r =
      VerificationResult.issues (base s1) ++ VerificationResponse.issues v /\
    VerificationResult.matchedRecord r =
      match VerificationResponse.matched_record v with
      | Some rec =>
          Some (RegistryRecord.mk
                  (WireRecord.certificate_number rec) hashHex
                  (WireRecord.name rec) (WireRecord.institution rec)
                  (WireRecord.course rec) (WireRecord.year rec))
      | None => None
      end.
Proof.
  intros Hbuf Hup Hver hashHex.
  destruct (wp_returns _ _ _
              (beforeVerify_returns host api file u (initialRun hashHex file)
                 Hup eq_refl))
    as (s1 & u' & Hpre & -> & Hnone).
  destruct (wp_returns _ _ _ (verifyStage_merge api hashHex u v s1 Hver))
    as (s2 & r & Hv & Hissues & Hrec).
  exists s1, r. split; [exact Hpre|].
  split.
  - unfold analyzeFile, analyzeFileRun. rewrite Hbuf. fold hashHex.
    rewrite (pipeline_after_beforeVerify host api file hashHex _ _ _ Hpre).
    unfold try_catch. rewrite Hv. reflexivity.
  - split; [exact Hissues|]. rewrite Hrec. unfold noMatchYet in Hnone.
    rewrite Hnone. reflexivity.
Qed.

(** The merged issues of that run: the detector's line, then the remote
    issue. *)
Example online_run_issues :
  match analyzeFile Scenario.host Scenario.online Scenario.png with
  | Returned r => VerificationResult.issues r
  | Threw _ => []
  end =
  [ "⚠️ AI detected this certificate as FAKE (95.0% confidence)";
    "Verified against registry" ]%string.
Proof. vm_compute. reflexivity. Qed.

Lemma authoritative_merge_witness :
  exists s1 r,
    beforeVerify Scenario.host Scenario.online Scenario.png
      (initialRun (sha256Hex (platform Scenario.host) Scenario.pngBytes) Scenario.png)
      = (s1, Returned Scenario.uploaded) /\
    analyzeFile Scenario.host Scenario.online Scenario.png = Returned r /\
    VerificationResult.issues r =
      VerificationResult.issues (base s1) ++ ["Verified against registry"%string] /\
    VerificationResult.matchedRecord r =
      Some (RegistryRecord.mk "JH-NU-2019-000123"
              (sha256Hex (platform Scenario.host) Scenario.pngBytes)
              "Aarav Kumar" "Nilamber-Pitamber University" "B.Sc" 2019).
Proof.
  apply (authoritative_merge Scenario.host Scenario.online Scenario.png
           Scenario.pngBytes Scenario.uploaded Scenario.remoteValid);
    reflexivity.
Defined.

(* ================================================================== *)
(** ** Where the code departs from the stated merge and latch rules *)

(** C2 -- The authoritative merge rule fails on the code.  A PDF (no
    detection call is made, so nothing latched the status) is uploaded and
    verified; the remote verification reports [valid]; [analyzeFile] returns
    [invalid].  The same happens to an image that the detector found
    authentic. *)
Theorem remote_verdict_not_adopted :
  VerificationResponse.status Scenario.remoteValid = valid /\
  callsOf Scenario.host Scenario.onlineAuthentic Scenario.pdf =
    [(Upload, true); (Verify "cert-42", true)] /\
  statusOf (analyzeFile Scenario.host Scenario.onlineAuthentic Scenario.pdf)
    = Some invalid /\
  MLDetectionResponse.is_fake Scenario.authenticVerdict = false /\
  statusOf (analyzeFile Scenario.host Scenario.onlineAuthentic Scenario.png)
    = Some invalid.
Proof. vm_compute. repeat split; reflexivity. Qed.

(** C1 -- The latch does not survive the local fallback.  The first
    detection call returns a fake verdict at confidence 0.95, the upload
    fails, and the local matcher's status is returned: [suspect] for a file
    the registry does not know, [valid] for a file whose fingerprint is in
    the registry. *)
Theorem latch_lost_in_fallback :
  MLDetectionResponse.success Scenario.fakeVerdict = true /\
  MLDetectionResponse.is_fake Scenario.fakeVerdict = true /\
  highConfidence (MLDetectionResponse.confidence Scenario.fakeVerdict) = true /\
  callsOf Scenario.host Scenario.detectorOnly Scenario.png =
    [(ReadQr, true); (DetectFake None None, true); (Upload, false)] /\
  statusOf (analyzeFile Scenario.host Scenario.detectorOnly Scenario.png)
    = Some suspect /\
  statusOf (analyzeFile Scenario.host Scenario.detectorOnly Scenario.emptyPng)
    = Some valid.
Proof. vm_compute. repeat split; reflexivity. Qed.

(** On the authoritative path the same verdict is kept: the sibling path
    honours the latch. *)
Example latch_kept_on_success :
  statusOf (analyzeFile Scenario.host Scenario.online Scenario.png) = Some invalid.
Proof. vm_compute. reflexivity. Qed.

(* ================================================================== *)
(** ** The fingerprint *)

Lemma byteHex_length (b : byte) : String.length (byteHex b) = 2.
Proof. destruct b; reflexivity. Qed.

Lemma byteHex_lowerHex (b : byte) : Js.allChars Js.isLowerHex (byteHex b) = true.
Proof. destruct b; reflexivity. Qed.

Lemma digest_length (buf : list byte) : List.length (SHA256.digest buf) = 32.
Proof. reflexivity. Qed.

Lemma allChars_append p (a b : string) :
  Js.allChars p (a ++ b) = Js.allChars p a && Js.allChars p b.
Proof.
  induction a as [|c a IH]; simpl; [reflexivity|].
  rewrite IH. now rewrite andb_assoc.
Qed.

Lemma join_byteHex_length (l : list byte) :
  String.length (Js.join (map byteHex l)) = 2 * List.length l.
Proof.
  induction l as [|b l IH]; simpl; [reflexivity|].
  rewrite append_length, byteHex_length, IH. lia.
Qed.

Lemma join_byteHex_lowerHex (l : list byte) :
  Js.allChars Js.isLowerHex (Js.join (map byteHex l)) = true.
Proof.
  induction l as [|b l IH]; simpl; [reflexivity|].
  now rewrite allChars_append, byteHex_lowerHex, IH.
Qed.

(** C9, as the code has it -- Where [crypto.subtle] exists, [sha256Hex] is
    the hexadecimal text of the SHA-256 digest of the whole content: 64
    characters, all lowercase hexadecimal, for every byte sequence including
    the empty one, and the same on every such platform at every instant.
    Where it does not exist, [sha256Hex] is the text [fallback-hash-]
    followed by the clock reading in hexadecimal, whatever the bytes. *)
Theorem sha256Hex_fingerprint (p : Platform) (buf : list byte) :
  (hasSubtleCrypto p = true ->
   sha256Hex p buf = Js.join (map byteHex (SHA256.digest buf)) /\
   String.length (sha256Hex p buf) = 64 /\
   Js.allChars Js.isLowerHex (sha256Hex p buf) = true /\
   forall p', hasSubtleCrypto p' = true -> sha256Hex p' buf = sha256Hex p buf)
  /\
  (hasSubtleCrypto p = false ->
   sha256Hex p buf = ("fallback-hash-" ++ Js.toString16 (dateNow p))%string).
Proof.
  unfold sha256Hex. split; intros Hp; rewrite Hp; cbn [negb]; [|reflexivity].
  split; [reflexivity|]. split; [|split].
  - now rewrite join_byteHex_length, digest_length.
  - apply join_byteHex_lowerHex.
  - intros p' Hp'. now rewrite Hp'.
Qed.

Lemma sha256Hex_fingerprint_witness :
  (sha256Hex (platform Scenario.host) [] =
     Js.join (map byteHex (SHA256.digest [])) /\
   String.length (sha256Hex (platform Scenario.host) []) = 64 /\
   Js.allChars Js.isLowerHex (sha256Hex (platform Scenario.host) []) = true /\
   forall p', hasSubtleCrypto p' = true ->
              sha256Hex p' [] = sha256Hex (platform Scenario.host) [])
  /\
  sha256Hex (Scenario.insecureAt 255) (bytesOfString "abc")
    = "fallback-hash-ff"%string.
Proof.
  split.
  - apply (proj1 (sha256Hex_fingerprint (platform Scenario.host) [])).
    reflexivity.
  - apply (proj2 (sha256Hex_fingerprint (Scenario.insecureAt 255)
                    (bytesOfString "abc"))).
    reflexivity.
Defined.

(** C9, as stated, fails -- Without [crypto.subtle] the same (empty) bytes
    give different outputs at two instants, and the output is neither 64
    characters long nor hexadecimal. *)
Lemma sha256Hex_fallback_follows_clock :
  sha256Hex (Scenario.insecureAt 1762128000000) [] = "fallback-hash-19a47037400"%string /\
  sha256Hex (Scenario.insecureAt 1762128000001) [] = "fallback-hash-19a47037401"%string /\
  String.eqb (sha256Hex (Scenario.insecureAt 1762128000000) [])
             (sha256Hex (Scenario.insecureAt 1762128000001) []) = false /\
  String.length (sha256Hex (Scenario.insecureAt 1762128000000) []) = 25 /\
  Js.allChars Js.isLowerHex (sha256Hex (Scenario.insecureAt 1762128000000) []) = false.
Proof. vm_compute. repeat split; reflexivity. Qed.

(* ================================================================== *)
(** ** The certificate-number pattern *)

Lemma string_app_assoc (a b c : string) : ((a ++ b) ++ c = a ++ (b ++ c))%string.
Proof. induction a as [|x a IH]; simpl; [reflexivity|now rewrite IH]. Qed.

Lemma string_app_nil_r (a : string) : (a ++ "" = a)%string.
Proof. induction a as [|x a IH]; simpl; [reflexivity|now rewrite IH]. Qed.

(** Two splits of one string at the same position are the same split. *)
Lemma string_app_inv (a a' b b' : string) :
  String.length a = String.length a' ->
  (a ++ b = a' ++ b')%string -> a = a' /\ b = b'.
Proof.
  revert a'. induction a as [|x a IH]; intros [|x' a']; simpl;
    try discriminate; auto.
  intros [= Hl] [= -> Heq]. destruct (IH _ Hl Heq) as [-> ->]. auto.
Qed.

Section Pattern.
Variable classes : list (ascii -> bool).

(** The classes only look at as many characters as there are classes. *)
Lemma matchClasses_tail : forall cs s m rest x,
  matchClasses cs s = Some (m, rest) ->
  matchClasses cs (m ++ x) = Some (m, x).
Proof.
  induction cs as [|p cs IH]; simpl; intros s m rest x.
  - intros [= <- <-]. reflexivity.
  - destruct s as [|c r]; [discriminate|].
    destruct (p c) eqn:Hp; [|discriminate].
    destruct (matchClasses cs r) as [[m' rest']|] eqn:E; [|discriminate].
    intros [= <- <-]. simpl. rewrite Hp, (IH _ _ _ x E). reflexivity.
Qed.

Lemma takeDigits_digits s : Js.allChars Js.isDigit (takeDigits s) = true.
Proof.
  induction s as [|c r IH]; simpl; [reflexivity|].
  destruct (Js.isDigit c) eqn:Hc; simpl; [now rewrite Hc|reflexivity].
Qed.

Lemma takeDigits_split s :
  exists post, s = (takeDigits s ++ post)%string /\ noDigitAhead post = true.
Proof.
  induction s as [|c r IH]; simpl.
  - exists EmptyString. auto.
  - destruct (Js.isDigit c) eqn:Hc.
    + destruct IH as (post & Heq & Hpost). exists post. simpl.
      split; [now rewrite <- Heq|exact Hpost].
    + exists (String c r). simpl. rewrite Hc. auto.
Qed.

Lemma takeDigits_app ds post :
  Js.allChars Js.isDigit ds = true ->
  takeDigits (ds ++ post) = (ds ++ takeDigits post)%string.
Proof.
  induction ds as [|c r IH]; simpl; [reflexivity|].
  intros H. apply andb_true_iff in H. destruct H as [Hc Hr].
  now rewrite Hc, IH.
Qed.

Lemma takeDigits_stop post : noDigitAhead post = true -> takeDigits post = EmptyString.
Proof.
  destruct post as [|c r]; simpl; [reflexivity|].
  intros H. apply negb_true_iff in H. now rewrite H.
Qed.

(** A match at the start of [s] is a whole token, and the text after it
    does not go on with a digit. *)
Lemma matchHere_sound s m :
  matchHere classes s = Some m ->
  exists post, s = (m ++ post)%string /\ tokenShape classes m = true /\
               noDigitAhead post = true.
Proof.
  unfold matchHere, tokenShape.
  destruct (matchClasses classes s) as [[m0 rest]|] eqn:E; [|discriminate].
  destruct (6 <=? String.length (takeDigits rest))%nat eqn:L; [|discriminate].
  intros [= <-].
  destruct (takeDigits_split rest) as (post & Hrest & Hpost).
  exists post. repeat split.
  - apply matchClasses_split in E. destruct E as [-> _].
    now rewrite string_app_assoc, <- Hrest.
  - rewrite (matchClasses_tail _ _ _ _ (takeDigits rest) E).
    now rewrite takeDigits_digits, L.
  - exact Hpost.
Qed.

(** A token at the start of the text matches, together with the digits
    that follow it. *)
Lemma matchHere_complete tok post :
  tokenShape classes tok = true ->
  matchHere classes (tok ++ post) = Some (tok ++ takeDigits post)%string.
Proof.
  unfold matchHere, tokenShape.
  destruct (matchClasses classes tok) as [[m0 ds]|] eqn:E; [|discriminate].
  intros H. apply andb_true_iff in H. destruct H as [Hds Hlen].
  pose proof (matchClasses_split _ _ _ _ E) as [Htok _]. subst tok.
  rewrite string_app_assoc.
  rewrite (matchClasses_tail _ _ _ _ (ds ++ post)%string E).
  rewrite (takeDigits_app _ _ Hds).
  apply Nat.leb_le in Hlen.
  assert (L : (6 <=? String.length (ds ++ takeDigits post))%nat = true).
  { apply Nat.leb_le. rewrite append_length. lia. }
  rewrite L. now rewrite string_app_assoc.
Qed.

(** A token that is not followed by a digit is the only token that starts
    where it starts. *)
Lemma token_unique t1 q1 t2 q2 :
  tokenShape classes t1 = true -> noDigitAhead q1 = true ->
  tokenShape classes t2 = true -> noDigitAhead q2 = true ->
  (t1 ++ q1 = t2 ++ q2)%string -> t1 = t2.
Proof.
  intros H1 Hq1 H2 Hq2 Heq.
  pose proof (matchHere_complete t1 q1 H1) as M1.
  pose proof (matchHere_complete t2 q2 H2) as M2.
  rewrite (takeDigits_stop _ Hq1), string_app_nil_r in M1.
  rewrite (takeDigits_stop _ Hq2), string_app_nil_r in M2.
  rewrite Heq in M1. congruence.
Qed.

(** [match] finds a token that starts no later than any given one. *)
Lemma regexMatch_occurrence : forall pre tok post,
  tokenShape classes tok = true ->
  exists pre' tok' post',
    (pre ++ tok ++ post = pre' ++ tok' ++ post')%string /\
    tokenShape classes tok' = true /\
    noDigitAhead post' = true /\
    String.length pre' <= String.length pre /\
    regexMatch classes (pre ++ tok ++ post) = Some tok'.
Proof.
  induction pre as [|c pre IH]; intros tok post Htok.
  - pose proof (matchHere_complete tok post Htok) as M.
    destruct (matchHere_sound _ _ M) as (post' & Heq & Hshape & Hpost').
    exists EmptyString, (tok ++ takeDigits post)%string, post'.
    cbn [append String.length]. repeat split; auto.
    destruct (tok ++ post)%string; cbn [regexMatch]; now rewrite M.
  - cbn [append regexMatch].
    destruct (matchHere classes (String c (pre ++ tok ++ post))) as [m|] eqn:M.
    + destruct (matchHere_sound _ _ M) as (post' & Heq & Hshape & Hpost').
      exists EmptyString, m, post'. cbn [append String.length].
      repeat split; auto. lia.
    + destruct (IH tok post Htok) as (pre' & tok' & post' & Heq & Hs & Hp & Hl & Hm).
      exists (String c pre'), tok', post'. cbn [append String.length].
      repeat split; auto; [now rewrite Heq|lia].
Qed.

(** No token, no match. *)
Lemma regexMatch_none s :
  (forall pre tok post, s = (pre ++ tok ++ post)%string ->
                        tokenShape classes tok = false) ->
  regexMatch classes s = None.
Proof.
  induction s as [|c r IH]; intros H; cbn [regexMatch].
  - destruct (matchHere classes "") as [m|] eqn:M; [|reflexivity].
    destruct (matchHere_sound _ _ M) as (post & Heq & Hs & _).
    rewrite (H EmptyString m post Heq) in Hs. discriminate.
  - destruct (matchHere classes (String c r)) as [m|] eqn:M.
    + destruct (matchHere_sound _ _ M) as (post & Heq & Hs & _).
      rewrite (H EmptyString m post Heq) in Hs. discriminate.
    + apply IH. intros pre tok post Heq.
      apply (H (String c pre) tok post). cbn [append]. now rewrite Heq.
Qed.

(** The leftmost token, taken with every digit that follows it, is the
    match. *)
Lemma regexMatch_leftmost pre tok post :
  tokenShape classes tok = true ->
  noDigitAhead post = true ->
  (forall pre2 tok2 post2,
     (pre ++ tok ++ post = pre2 ++ tok2 ++ post2)%string ->
     tokenShape classes tok2 = true ->
     String.length pre <= String.length pre2) ->
  regexMatch classes (pre ++ tok ++ post) = Some tok.
Proof.
  intros Htok Hpost Hleft.
  destruct (regexMatch_occurrence pre tok post Htok)
    as (pre' & tok' & post' & Heq & Hs & Hp & Hl & Hm).
  pose proof (Hleft pre' tok' post' Heq Hs) as Hge.
  destruct (string_app_inv pre pre' _ _ ltac:(lia) Heq) as [-> Hrest].
  rewrite Hm. f_equal. symmetry.
  exact (token_unique _ _ _ _ Htok Hpost Hs Hp Hrest).
Qed.

End Pattern.

Lemma extractCertificateNumber_some s m :
  regexMatch certificatePrefix s = Some m ->
  extractCertificateNumber (Some s) = Some (Js.toUpperCase m).
Proof.
  intros H. unfold extractCertificateNumber.
  assert (Hs : Js.truthy s = true).
  { destruct s; [|reflexivity]. discriminate H. }
  cbn [Js.truthy_opt]. rewrite Hs. cbn [negb]. now rewrite H.
Qed.

Lemma extractCertificateNumber_none s :
  regexMatch certificatePrefix s = None ->
  extractCertificateNumber (Some s) = None.
Proof.
  intros H. unfold extractCertificateNumber.
  destruct (negb (Js.truthy_opt (Some s))); [reflexivity|]. now rewrite H.
Qed.

(** C8, as the code has it -- Certificate-number extraction.  The token is
    [J], [H] (either case), hyphen, two letters, hyphen, four digits,
    hyphen, six or more digits.  (1) An input that contains such a token
    yields the uppercase of a token of that shape which starts no later and
    takes every digit that follows it; (2) hence the leftmost token, when no
    digit follows it, is returned in uppercase; (3) an input with no such
    token yields nothing.  (4) The number comes from the decoded code when
    the code holds a token, (5) and from the file's display name when there
    is no code or the code holds no token. *)
Theorem certificate_number_extraction :
  (forall pre tok post,
     tokenShape certificatePrefix tok = true ->
     exists pre' tok' post',
       (pre ++ tok ++ post = pre' ++ tok' ++ post')%string /\
       tokenShape certificatePrefix tok' = true /\
       noDigitAhead post' = true /\
       String.length pre' <= String.length pre /\
       extractCertificateNumber (Some (pre ++ tok ++ post)%string)
       = Some (Js.toUpperCase tok'))
  /\
  (forall pre tok post,
     tokenShape certificatePrefix tok = true ->
     noDigitAhead post = true ->
     (forall pre2 tok2 post2,
        (pre ++ tok ++ post = pre2 ++ tok2 ++ post2)%string ->
        tokenShape certificatePrefix tok2 = true ->
        String.length pre <= String.length pre2) ->
     extractCertificateNumber (Some (pre ++ tok ++ post)%string)
     = Some (Js.toUpperCase tok))
  /\
  (forall s,
     (forall pre tok post, s = (pre ++ tok ++ post)%string ->
                           tokenShape certificatePrefix tok = false) ->
     extractCertificateNumber (Some s) = None)
  /\
  (forall qr name n,
     extractCertificateNumber (Some qr) = Some n ->
     inferCertificateNumber (Some qr) name = Some n)
  /\
  (forall qr name,
     (forall q, qr = Some q -> extractCertificateNumber (Some q) = None) ->
     inferCertificateNumber qr name = extractCertificateNumber (Some name)).
Proof.
  split; [|split; [|split; [|split]]].
  - intros pre tok post Htok.
    destruct (regexMatch_occurrence certificatePrefix pre tok post Htok)
      as (pre' & tok' & post' & Heq & Hs & Hp & Hl & Hm).
    exists pre', tok', post'. repeat split; auto.
    now apply extractCertificateNumber_some.
  - intros pre tok post Htok Hpost Hleft.
    apply extractCertificateNumber_some.
    now apply regexMatch_leftmost.
  - intros s Hnone. apply extractCertificateNumber_none.
    now apply regexMatch_none.
  - intros qr name n Hn. unfold inferCertificateNumber, Js.or_else.
    assert (Hq : Js.truthy_opt (Some qr) = true).
    { unfold extractCertificateNumber in Hn.
      destruct (Js.truthy_opt (Some qr)); [reflexivity|discriminate]. }
    rewrite Hq, Hn. cbn [Js.truthy_opt].
    now rewrite (extractCertificateNumber_truthy _ _ Hn).
  - intros qr name Hnone. unfold inferCertificateNumber, Js.or_else.
    destruct qr as [q|]; cbn [Js.truthy_opt].
    + destruct (Js.truthy q); [|reflexivity].
      now rewrite (Hnone q eq_refl).
    + reflexivity.
Qed.

Lemma certificate_number_extraction_witness :
  extractCertificateNumber (Some "jh-nu-2019-000123.png"%string)
    = Some "JH-NU-2019-000123"%string /\
  inferCertificateNumber (Some "https://verify.example/JH-RU-2021-004567"%string)
                         "jh-nu-2019-000123.png"
    = Some "JH-RU-2021-004567"%string /\
  inferCertificateNumber (Some "no number here"%string) "jh-nu-2019-000123.png"
    = Some "JH-NU-2019-000123"%string.
Proof.
  destruct certificate_number_extraction as (_ & Hleft & _ & Hqr & Hname).
  split; [|split].
  - apply (Hleft ""%string "jh-nu-2019-000123"%string ".png"%string);
      [reflexivity|reflexivity|].
    intros. cbn [String.length]. lia.
  - apply Hqr. reflexivity.
  - rewrite Hname; [reflexivity|]. intros q [= <-]. reflexivity.
Defined.

(** C8, as stated, fails -- A token of the stated shape (two letters,
    hyphen, two letters, ...) that does not begin with [JH] is not
    extracted; and a decoded code without a token does not stop the display
    name from being used. *)
Lemma stated_shape_not_extracted :
  tokenShape statedPrefix "AB-CD-2019-000123" = true /\
  extractCertificateNumber (Some "AB-CD-2019-000123"%string) = None /\
  inferCertificateNumber (Some "no number here"%string) "JH-NU-2019-000123.png"
    = Some "JH-NU-2019-000123"%string.
Proof. repeat split; reflexivity. Qed.

(* ================================================================== *)
(** * Further properties of the pipeline *)

(** The pipeline, stage by stage: one assertion between each pair of
    stages, [E] where the backend block throws. *)
Lemma pipeline_rule host api file hashHex
    (P0 P1 P2 : Run -> Prop) (P3 P4 P5 : UploadResponse.t -> Run -> Prop)
    (E : Run -> Prop) (Q : VerificationResult.t -> Run -> Prop) s :
  (forall s, P0 s -> wp (qrStage api file) (fun _ => P1) noThrow s) ->
  (forall s, P1 s -> wp (mlStage host api file) (fun _ => P2) noThrow s) ->
  (forall s, P2 s -> wp (uploadStage api file) P3 (fun _ => E) s) ->
  (forall u s, P3 u s -> wp (ocrStage api file) (fun _ => P4 u) noThrow s) ->
  (forall u s, P4 u s -> wp (mlOcrStage host api file u) (fun _ => P5 u) noThrow s) ->
  (forall u s, P5 u s -> wp (verifyStage api hashHex u) Q (fun _ => E) s) ->
  (forall s, E s -> wp (fallback file) Q noThrow s) ->
  P0 s ->
  wp (pipeline host api hashHex file) Q noThrow s.
Proof.
  intros Hqr Hml Hup Hocr Hml2 Hver Hfb H0. unfold pipeline.
  eapply wp_seq_returns; [apply (Hqr _ H0)|].
  cbv beta. intros _ s1 H1.
  eapply wp_seq_returns; [apply (Hml _ H1)|].
  cbv beta. intros _ s2 H2.
  apply wp_catch with (R := fun _ => E).
  - unfold backendPath.
    apply wp_seq with (R := P3); [apply (Hup _ H2)|].
    intros u s3 H3.
    eapply wp_seq_returns; [apply (Hocr _ _ H3)|].
    cbv beta. intros _ s4 H4.
    eapply wp_seq_returns; [apply (Hml2 _ _ H4)|].
    cbv beta. intros _ s5 H5.
    apply (Hver _ _ H5).
  - intros e s3 H3. apply (Hfb _ H3).
Qed.

(* ================================================================== *)
(** ** What every result carries: the file's identity *)

Ltac meta_stage s :=
  let H := fresh "H" in
  destruct s as [b d l]; unfold metadataKept, metadataOf; cbn [base]; intros H;
  run_cases; cbn [Metadata.fileName Metadata.size Metadata.mime Metadata.hashHex
                  set_qrData set_uploadId set_ocrText set_backendVerification
                  set_mlDetection]; auto.

Lemma localVerification_metadata registry base file :
  VerificationResult.metadata (localVerificationWith registry base file) =
  VerificationResult.metadata base.
Proof.
  unfold localVerificationWith. cbv zeta.
  destruct (find _ registry); [reflexivity|].
  destruct (0 <? _)%nat; reflexivity.
Qed.

Section MetadataKept.
Variable host : Host.
Variable api : Services.
Variable file : File.t.
Variable hashHex : string.

Lemma qrStage_metadata s :
  metadataKept hashHex file s ->
  wp (qrStage api file) (fun _ => metadataKept hashHex file) noThrow s.
Proof. meta_stage s. Qed.

Lemma mlStage_metadata s :
  metadataKept hashHex file s ->
  wp (mlStage host api file) (fun _ => metadataKept hashHex file) noThrow s.
Proof. meta_stage s. Qed.

Lemma uploadStage_metadata s :
  metadataKept hashHex file s ->
  wp (uploadStage api file) (fun _ => metadataKept hashHex file)
     (fun _ => metadataKept hashHex file) s.
Proof. meta_stage s. Qed.

Lemma ocrStage_metadata s :
  metadataKept hashHex file s ->
  wp (ocrStage api file) (fun _ => metadataKept hashHex file) noThrow s.
Proof. meta_stage s. Qed.

Lemma mlOcrStage_metadata u s :
  metadataKept hashHex file s ->
  wp (mlOcrStage host api file u) (fun _ => metadataKept hashHex file) noThrow s.
Proof. meta_stage s. Qed.

Lemma verifyStage_metadata h u s :
  metadataKept hashHex file s ->
  wp (verifyStage api h u)
     (fun r _ => metadataOf hashHex file (VerificationResult.metadata r))
     (fun _ => metadataKept hashHex file) s.
Proof. meta_stage s. Qed.

Lemma fallback_metadata s :
  metadataKept hashHex file s ->
  wp (fallback file)
     (fun r _ => metadataOf hashHex file (VerificationResult.metadata r))
     noThrow s.
Proof.
  unfold metadataKept. destruct s as [b d l]. cbn [base]. intros H.
  run_cases. unfold localVerification.
  now rewrite localVerification_metadata.
Qed.

Lemma pipeline_metadata h s :
  metadataKept hashHex file s ->
  wp (pipeline host api h file)
     (fun r _ => metadataOf hashHex file (VerificationResult.metadata r))
     noThrow s.
Proof.
  apply pipeline_rule with
    (P1 := metadataKept hashHex file) (P2 := metadataKept hashHex file)
    (P3 := fun _ => metadataKept hashHex file)
    (P4 := fun _ => metadataKept hashHex file)
    (P5 := fun _ => metadataKept hashHex file)
    (E := metadataKept hashHex file).
  - apply qrStage_metadata.
  - apply mlStage_metadata.
  - apply uploadStage_metadata.
  - intros _. apply ocrStage_metadata.
  - apply mlOcrStage_metadata.
  - apply verifyStage_metadata.
  - apply fallback_metadata.
Qed.
End MetadataKept.

Lemma initialBase_metadata hashHex file :
  metadataOf hashHex file (VerificationResult.metadata (initialBase hashHex file)).
Proof.
  unfold metadataOf, initialBase. cbn. repeat split.
  destruct (File.type file); reflexivity.
Qed.

(** X1 -- Whatever the services answer, the result of [analyzeFile] on a
    readable file identifies that file: its metadata carries the file's
    name, size and type, and the fingerprint [sha256Hex] computes of the
    file's bytes.  No stage, on either path, rewrites these four fields. *)
Theorem result_metadata_identifies_file
    (host : Host) (api : Services) (file : File.t) (buf : list byte) :
  File.arrayBuffer file = Returned buf ->
  exists r,
    analyzeFile host api file = Returned r /\
    Metadata.fileName (VerificationResult.metadata r) = File.name file /\
    Metadata.size (VerificationResult.metadata r) = File.size file /\
    Metadata.mime (VerificationResult.metadata r) = File.type file /\
    Metadata.hashHex (VerificationResult.metadata r) = sha256Hex (platform host) buf.
Proof.
  intros Hbuf.
  destruct (analyzeFileRun_wp host api file buf
              (fun r _ => metadataOf (sha256Hex (platform host) buf) file
                            (VerificationResult.metadata r)) Hbuf)
    as (s' & r & Hrun & Hr).
  { apply pipeline_metadata. apply initialBase_metadata. }
  exists r. split; [unfold analyzeFile; now rewrite Hrun|exact Hr].
Qed.

Lemma result_metadata_identifies_file_witness :
  exists r,
    analyzeFile Scenario.host Scenario.online Scenario.png = Returned r /\
    Metadata.fileName (VerificationResult.metadata r) = "degree.png"%string /\
    Metadata.size (VerificationResult.metadata r) = File.size Scenario.png /\
    Metadata.mime (VerificationResult.metadata r) = File.type Scenario.png /\
    Metadata.hashHex (VerificationResult.metadata r)
    = sha256Hex (platform Scenario.host) Scenario.pngBytes.
Proof.
  apply (result_metadata_identifies_file Scenario.host Scenario.online Scenario.png
           Scenario.pngBytes).
  reflexivity.
Defined.

(* ================================================================== *)
(** ** The order of the calls *)

Lemma sorted_snoc (l : list nat) (k x : nat) :
  StronglySorted lt l -> Forall (fun y => y < k) l -> k <= x ->
  StronglySorted lt (l ++ [x]).
Proof.
  induction l as [|a l IH]; intros Hs Hf Hk; cbn.
  - repeat constructor.
  - inversion Hs; subst. inversion Hf; subst. constructor; [now apply IH|].
    apply Forall_app. split; [assumption|]. constructor; [lia|constructor].
Qed.

Lemma logBelow_nil k : logBelow k [].
Proof. split; constructor. Qed.

Lemma logBelow_mono k k' log : k <= k' -> logBelow k log -> logBelow k' log.
Proof.
  intros Hk [Hs Hf]. split; [exact Hs|].
  eapply Forall_impl; [|exact Hf]. cbv beta. intros; lia.
Qed.

Lemma logBelow_snoc k log c ok :
  logBelow k log -> k <= callRank c -> logBelow (S (callRank c)) (log ++ [(c, ok)]).
Proof.
  intros [Hs Hf] Hk. split.
  - rewrite map_app. cbn [map fst]. eapply sorted_snoc; eauto.
    now apply Forall_map.
  - apply Forall_app. split.
    + eapply Forall_impl; [|exact Hf]. cbv beta. intros; lia.
    + constructor; [cbn; lia|constructor].
Qed.

Lemma afterUpload_snoc_low api file log c ok :
  afterUpload api file log -> callRank c <= 2 ->
  afterUpload api file (log ++ [(c, ok)]).
Proof.
  intros H Hc c' ok' Hin Hr. apply in_app_iff in Hin.
  destruct Hin as [Hin|[[= <- <-]|[]]]; [eauto|lia].
Qed.

Lemma afterUpload_snoc_high api file log c ok u :
  afterUpload api file log ->
  uploadCertificate api file = Returned u ->
  (forall i, c = Verify i -> i = UploadResponse.id u) ->
  (forall t i, c = DetectFake t (Some i) -> Some i = Some (UploadResponse.id u)) ->
  afterUpload api file (log ++ [(c, ok)]).
Proof.
  intros H Hu Hv Hd c' ok' Hin Hr. apply in_app_iff in Hin.
  destruct Hin as [Hin|[[= <- <-]|[]]]; [eauto|].
  exists u. auto.
Qed.

Ltac protocol_solve :=
  unfold protocol; cbn [calls];
  match goal with
  | H : logBelow _ ?l /\ afterUpload _ _ ?l |- logBelow _ (?l ++ [(?c, _)]) /\ _ =>
      destruct H as [? ?]; split;
      [ eapply logBelow_mono; [|eapply logBelow_snoc; [eassumption|cbn; lia]]; cbn; lia
      | first [ eapply afterUpload_snoc_low; [eassumption|cbn; lia]
              | eapply afterUpload_snoc_high; [eassumption|eassumption| |];
                intros; congruence ] ]
  | H : logBelow _ ?l /\ afterUpload _ _ ?l |- logBelow _ ?l /\ _ =>
      destruct H as [? ?]; split;
      [eapply logBelow_mono; [|eassumption]; lia|assumption]
  end.

Ltac protocol_stage s :=
  let H := fresh "H" in
  destruct s as [b d l]; unfold protocol; cbn [calls]; intros H;
  run_cases; try protocol_solve.

Section Protocol.
Variable host : Host.
Variable api : Services.
Variable file : File.t.

Lemma qrStage_protocol s :
  protocol api file 0 s ->
  wp (qrStage api file) (fun _ => protocol api file 1) noThrow s.
Proof. protocol_stage s. Qed.

Lemma mlStage_protocol s :
  protocol api file 1 s ->
  wp (mlStage host api file) (fun _ => protocol api file 2) noThrow s.
Proof. protocol_stage s. Qed.

Lemma uploadStage_protocol s :
  protocol api file 2 s ->
  wp (uploadStage api file)
     (fun u s' => uploadCertificate api file = Returned u /\ protocol api file 3 s')
     (fun _ => protocol api file 6) s.
Proof. protocol_stage s. split; [reflexivity|protocol_solve]. Qed.

Lemma ocrStage_protocol u s :
  uploadCertificate api file = Returned u /\ protocol api file 3 s ->
  wp (ocrStage api file)
     (fun _ s' => uploadCertificate api file = Returned u /\ protocol api file 4 s')
     noThrow s.
Proof.
  intros [Hu H]. revert H. protocol_stage s; split; auto; protocol_solve.
Qed.

Lemma mlOcrStage_protocol u s :
  uploadCertificate api file = Returned u /\ protocol api file 4 s ->
  wp (mlOcrStage host api file u)
     (fun _ s' => uploadCertificate api file = Returned u /\ protocol api file 5 s')
     noThrow s.
Proof.
  intros [Hu H]. revert H. protocol_stage s; split; auto; protocol_solve.
Qed.

Lemma verifyStage_protocol hashHex u s :
  uploadCertificate api file = Returned u /\ protocol api file 5 s ->
  wp (verifyStage api hashHex u)
     (fun _ => protocol api file 6) (fun _ => protocol api file 6) s.
Proof.
  intros [Hu H]. revert H. protocol_stage s.
Qed.

Lemma fallback_protocol s :
  protocol api file 6 s ->
  wp (fallback file) (fun _ => protocol api file 6) noThrow s.
Proof. protocol_stage s. Qed.

End Protocol.

(** The protocol holds of the log when the run ends. *)
Lemma analyzeFileRun_protocol host api file buf :
  File.arrayBuffer file = Returned buf ->
  exists s' r, analyzeFileRun host api file = (calls s', Returned r) /\
               protocol api file 6 s'.
Proof.
  intros Hbuf.
  apply (analyzeFileRun_wp host api file buf (fun _ => protocol api file 6) Hbuf).
  apply pipeline_rule with
    (P0 := protocol api file 0) (P1 := protocol api file 1)
    (P2 := protocol api file 2)
    (P3 := fun u s => uploadCertificate api file = Returned u /\ protocol api file 3 s)
    (P4 := fun u s => uploadCertificate api file = Returned u /\ protocol api file 4 s)
    (P5 := fun u s => uploadCertificate api file = Returned u /\ protocol api file 5 s)
    (E := protocol api file 6).
  - apply qrStage_protocol.
  - apply mlStage_protocol.
  - apply uploadStage_protocol.
  - apply ocrStage_protocol.
  - apply mlOcrStage_protocol.
  - apply verifyStage_protocol.
  - apply fallback_protocol.
  - split; [apply logBelow_nil|intros ? ? []].
Qed.

(** X2 -- The calls of a run of [analyzeFile] follow the source order: QR
    decode, detection on the image alone, upload, text extraction, detection
    with the text and the upload id, verification; each is made at most once
    (the positions in the log strictly increase).  Nothing after the upload
    is called unless the upload returned, and the verification and the second
    detection carry the id that the upload returned. *)
Theorem calls_follow_protocol (host : Host) (api : Services) (file : File.t) :
  StronglySorted lt (map (fun ev => callRank (fst ev)) (callsOf host api file)) /\
  forall c ok, In (c, ok) (callsOf host api file) -> 2 < callRank c ->
    exists u, uploadCertificate api file = Returned u /\
              (forall i, c = Verify i -> i = UploadResponse.id u) /\
              (forall t i, c = DetectFake t (Some i) -> i = UploadResponse.id u).
Proof.
  unfold callsOf.
  destruct (File.arrayBuffer file) as [buf|e] eqn:Hbuf.
  2:{ unfold analyzeFileRun. rewrite Hbuf. cbn. split; [constructor|intros ? ? []]. }
  destruct (analyzeFileRun_protocol host api file buf Hbuf)
    as (s' & r & Hrun & [[Hs _] Ha]).
  rewrite Hrun. cbn [fst]. split; [exact Hs|].
  intros c ok Hin Hr. destruct (Ha c ok Hin Hr) as (u & Hu & Hv & Hd).
  exists u. repeat split; auto. intros t i Hc. specialize (Hd t i Hc). congruence.
Qed.

(** The full run of an image when every service answers, evaluated. *)
Example online_order :
  map (fun ev => callRank (fst ev))
      (callsOf Scenario.host Scenario.onlineAuthentic Scenario.png) = [0; 1; 2; 3; 5].
Proof. vm_compute. reflexivity. Qed.

(* ================================================================== *)
(** ** What the local matcher's answer means *)

Lemma localVerificationWith_cases registry base file :
  let fp := Metadata.hashHex (VerificationResult.metadata base) in
  let number :=
    inferCertificateNumber (Metadata.qrData (VerificationResult.metadata base))
                           (File.name file) in
  let res := localVerificationWith registry base file in
  (exists rec, find (hasFingerprint fp) registry = Some rec /\
               VerificationResult.status res = valid /\
               VerificationResult.matchedRecord res = Some rec)
  \/
  (find (hasFingerprint fp) registry = None /\
   VerificationResult.status res = suspect /\
   VerificationResult.matchedRecord res = hd_error (numberMatchesOf registry number)).
Proof.
  cbv zeta. unfold localVerificationWith, numberMatchesOf, hasFingerprint, hasNumber.
  cbv zeta.
  destruct (find _ registry) as [rec|]; [left; eauto|right].
  split; [reflexivity|].
  set (nm := match inferCertificateNumber _ _ with Some n => _ | None => _ end).
  destruct nm as [|x rest]; cbn; auto.
Qed.

Lemma find_fingerprint_none fp registry :
  find (hasFingerprint fp) registry = None ->
  forall rec, In rec registry -> RegistryRecord.hashHex rec <> fp.
Proof.
  intros Hf rec Hin Hfp. pose proof (find_none _ _ Hf rec Hin) as Hnone.
  unfold hasFingerprint in Hnone. rewrite Hfp, String.eqb_refl in Hnone.
  discriminate.
Qed.

Lemma numberMatchesOf_In registry number rec :
  In rec (numberMatchesOf registry number) ->
  In rec registry /\ number = Some (RegistryRecord.certificateNumber rec).
Proof.
  unfold numberMatchesOf. destruct number as [n|]; [|intros []].
  destruct (Js.truthy n); [|intros []].
  intros Hx. apply filter_In in Hx. destruct Hx as [Hin Hnum].
  apply String.eqb_eq in Hnum. split; [exact Hin|]. now rewrite Hnum.
Qed.

(** The answer is [valid] exactly when the registry knows the fingerprint. *)
Lemma localVerificationWith_valid_iff registry base file :
  VerificationResult.status (localVerificationWith registry base file) = valid <->
  exists rec, In rec registry /\
              RegistryRecord.hashHex rec
              = Metadata.hashHex (VerificationResult.metadata base).
Proof.
  destruct (localVerificationWith_cases registry base file)
    as [(rec & Hf & Hs & _)|(Hf & Hs & _)]; cbv zeta in *; rewrite Hs.
  - apply find_some in Hf. destruct Hf as [Hin Hfp]. apply String.eqb_eq in Hfp.
    split; [eauto|reflexivity].
  - split; [discriminate|]. intros (rec & Hin & Hfp).
    now destruct (find_fingerprint_none _ _ Hf rec Hin).
Qed.

(** A matched record is a record of the registry, matched by fingerprint or,
    in a [suspect] answer, by number. *)
Lemma localVerificationWith_matched registry base file rec :
  VerificationResult.matchedRecord (localVerificationWith registry base file)
  = Some rec ->
  In rec registry /\
  (RegistryRecord.hashHex rec = Metadata.hashHex (VerificationResult.metadata base) \/
   (VerificationResult.status (localVerificationWith registry base file) = suspect /\
    inferCertificateNumber (Metadata.qrData (VerificationResult.metadata base))
                           (File.name file)
    = Some (RegistryRecord.certificateNumber rec))).
Proof.
  destruct (localVerificationWith_cases registry base file)
    as [(rec' & Hf & Hs & Hm)|(Hf & Hs & Hm)]; cbv zeta in *; rewrite Hm.
  - apply find_some in Hf. destruct Hf as [Hin Hfp]. apply String.eqb_eq in Hfp.
    intros [= <-]. auto.
  - intros Hhd.
    destruct (numberMatchesOf registry _) as [|x rest] eqn:Hnm; [discriminate|].
    injection Hhd as ->.
    assert (Hx : In rec (numberMatchesOf registry
                   (inferCertificateNumber
                      (Metadata.qrData (VerificationResult.metadata base))
                      (File.name file))))
      by (rewrite Hnm; now left).
    apply numberMatchesOf_In in Hx. destruct Hx as [Hin Hn].
    split; [exact Hin|]. right. split; [exact Hs|exact Hn].
Qed.

(** X3 -- Meaning of the local matcher's answer, for every record set.  The
    status is [valid] exactly when some record carries the file's
    fingerprint.  A matched record is always a record of the set, and it
    either carries the fingerprint or, in a [suspect] answer, carries the
    inferred certificate number.  No record is matched exactly when no record
    of the set carries the fingerprint or the inferred number. *)
Theorem local_matcher_sound
    (registry : list RegistryRecord.t) (base : VerificationResult.t) (file : File.t) :
  let fp := Metadata.hashHex (VerificationResult.metadata base) in
  let number :=
    inferCertificateNumber (Metadata.qrData (VerificationResult.metadata base))
                           (File.name file) in
  let res := localVerificationWith registry base file in
  (VerificationResult.status res = valid <->
   exists rec, In rec registry /\ RegistryRecord.hashHex rec = fp)
  /\
  (forall rec, VerificationResult.matchedRecord res = Some rec ->
     In rec registry /\
     (RegistryRecord.hashHex rec = fp \/
      (VerificationResult.status res = suspect /\
       number = Some (RegistryRecord.certificateNumber rec))))
  /\
  (VerificationResult.matchedRecord res = None <->
   forall rec, In rec registry ->
     RegistryRecord.hashHex rec <> fp /\
     number <> Some (RegistryRecord.certificateNumber rec)).
Proof.
  cbv zeta.
  split; [apply localVerificationWith_valid_iff|].
  split; [apply localVerificationWith_matched|].
  destruct (localVerificationWith_cases registry base file)
    as [(rec & Hf & Hs & Hm)|(Hf & Hs & Hm)]; cbv zeta in *; rewrite Hm.
  - apply find_some in Hf. destruct Hf as [Hin Hfp]. apply String.eqb_eq in Hfp.
    split; [discriminate|]. intros H. destruct (H rec Hin) as [Hne _].
    contradiction.
  - unfold numberMatchesOf. split.
    + intros Hhd rec Hin. split; [now apply (find_fingerprint_none _ _ Hf)|].
      intros Hn. rewrite Hn in Hhd.
      rewrite (inferCertificateNumber_truthy _ _ _ Hn) in Hhd.
      assert (Hx : In rec (filter (hasNumber (RegistryRecord.certificateNumber rec))
                             registry)).
      { apply filter_In. split; [exact Hin|].
        unfold hasNumber. apply String.eqb_refl. }
      destruct (filter _ registry); [destruct Hx|discriminate].
    + intros H.
      destruct (inferCertificateNumber _ _) as [n|] eqn:Hn; [|reflexivity].
      destruct (Js.truthy n); [|reflexivity].
      destruct (filter (hasNumber n) registry) as [|x rest] eqn:Hfil; [reflexivity|].
      assert (Hx : In x (filter (hasNumber n) registry))
        by (rewrite Hfil; now left).
      apply filter_In in Hx. destruct Hx as [Hin Hnum].
      apply String.eqb_eq in Hnum. destruct (H x Hin) as [_ Hne].
      rewrite Hnum in Hne. contradiction.
Qed.

(** A file named after the number that was issued twice: the first of the
    two records is matched, by number. *)
Example cloned_number_match :
  let '(base, file) := Scenario.named "JH-RU-2021-004567.png" "cafe" in
  option_map RegistryRecord.name
    (VerificationResult.matchedRecord (localVerificationWith Scenario.cloned base file))
  = Some "Ishita Singh"%string.
Proof. reflexivity. Qed.

(* ================================================================== *)
(** ** The fallback path *)

Ltac unverified_stage s :=
  let H := fresh "H" in
  destruct s as [b d l]; unfold unverified, metadataOf; cbn [base]; intros H;
  run_cases;
  cbn [Metadata.fileName Metadata.size Metadata.mime Metadata.hashHex
       Metadata.backendVerification
       set_qrData set_uploadId set_ocrText set_backendVerification
       set_mlDetection]; auto.

Section Fallback.
Variable host : Host.
Variable api : Services.
Variable file : File.t.
Variable hashHex : string.
Hypothesis Hfailed : backendFailed api file.

Lemma qrStage_unverified s :
  unverified hashHex file s ->
  wp (qrStage api file) (fun _ => unverified hashHex file) noThrow s.
Proof. unverified_stage s. Qed.

Lemma mlStage_unverified s :
  unverified hashHex file s ->
  wp (mlStage host api file) (fun _ => unverified hashHex file) noThrow s.
Proof. unverified_stage s. Qed.

Lemma uploadStage_unverified s :
  unverified hashHex file s ->
  wp (uploadStage api file)
     (fun u s' => uploadCertificate api file = Returned u /\
                  unverified hashHex file s')
     (fun _ => unverified hashHex file) s.
Proof. unverified_stage s. Qed.

Lemma ocrStage_unverified u s :
  uploadCertificate api file = Returned u /\ unverified hashHex file s ->
  wp (ocrStage api file)
     (fun _ s' => uploadCertificate api file = Returned u /\
                  unverified hashHex file s') noThrow s.
Proof. intros [Hu H]. revert H. unverified_stage s. Qed.

Lemma mlOcrStage_unverified u s :
  uploadCertificate api file = Returned u /\ unverified hashHex file s ->
  wp (mlOcrStage host api file u)
     (fun _ s' => uploadCertificate api file = Returned u /\
                  unverified hashHex file s') noThrow s.
Proof. intros [Hu H]. revert H. unverified_stage s. Qed.

(** The verification throws, so the block does. *)
Lemma verifyStage_unverified h u s :
  uploadCertificate api file = Returned u /\ unverified hashHex file s ->
  wp (verifyStage api h u) (fun r _ => fromMatcher hashHex file r)
     (fun _ => unverified hashHex file) s.
Proof.
  intros [Hu H].
  assert (Hver : exists e, verifyCertificate api (UploadResponse.id u) = Threw e).
  { destruct Hfailed as [[e He]|(u' & e & Hu' & He)]; [congruence|].
    rewrite Hu in Hu'. injection Hu' as <-. eauto. }
  destruct Hver as [e Hver]. revert H. unverified_stage s.
Qed.

Lemma fallback_fromMatcher s :
  unverified hashHex file s ->
  wp (fallback file) (fun r _ => fromMatcher hashHex file r) noThrow s.
Proof.
  destruct s as [b d l]. unfold unverified, metadataOf. cbn [base].
  intros [(_ & _ & _ & Hh) Hv]. run_cases.
  eexists. split; [reflexivity|]. cbn. repeat split; auto.
  apply in_app_iff. right. now left.
Qed.

Lemma pipeline_fromMatcher h s :
  unverified hashHex file s ->
  wp (pipeline host api h file) (fun r _ => fromMatcher hashHex file r) noThrow s.
Proof.
  apply pipeline_rule with
    (P1 := unverified hashHex file) (P2 := unverified hashHex file)
    (P3 := fun u s => uploadCertificate api file = Returned u /\
                      unverified hashHex file s)
    (P4 := fun u s => uploadCertificate api file = Returned u /\
                      unverified hashHex file s)
    (P5 := fun u s => uploadCertificate api file = Returned u /\
                      unverified hashHex file s)
    (E := unverified hashHex file).
  - apply qrStage_unverified.
  - apply mlStage_unverified.
  - apply uploadStage_unverified.
  - apply ocrStage_unverified.
  - apply mlOcrStage_unverified.
  - apply verifyStage_unverified.
  - apply fallback_fromMatcher.
Qed.

End Fallback.

(** When the backend block fails, the result is the local matcher's answer
    on evidence that carries the file's fingerprint, the backend issue and no
    backend verdict. *)
Lemma analyzeFile_fromMatcher host api file buf :
  File.arrayBuffer file = Returned buf ->
  backendFailed api file ->
  exists b,
    analyzeFile host api file = Returned (localVerification b file) /\
    Metadata.hashHex (VerificationResult.metadata b) = sha256Hex (platform host) buf /\
    Metadata.backendVerification (VerificationResult.metadata b) = None /\
    In backendIssue (VerificationResult.issues b).
Proof.
  intros Hbuf Hfailed.
  destruct (analyzeFileRun_wp host api file buf
              (fun r _ => fromMatcher (sha256Hex (platform host) buf) file r) Hbuf)
    as (s' & r & Hrun & b & -> & Hh & Hv & Hi).
  { apply pipeline_fromMatcher; [exact Hfailed|].
    split; [apply initialBase_metadata|reflexivity]. }
  exists b. split; [unfold analyzeFile; now rewrite Hrun|auto].
Qed.

(** X4 -- The verdict of the fallback path.  When the upload throws, or
    returns and the verification throws, [analyzeFile] on a readable file
    returns a result whose status is [valid] exactly when a record of the
    mock registry carries the fingerprint that [sha256Hex] returns for the
    file's bytes on this platform, and is [suspect] otherwise.  Where
    [crypto.subtle] is available that fingerprint is the hexadecimal SHA-256
    of the bytes, so there the status is [valid] exactly when the content is
    registered; elsewhere it is the ["fallback-hash-"] text.  A matched
    record is a record of the mock registry; the issues contain the line of
    the fallback ([backendIssue]); and the metadata holds no backend
    verification. *)
Theorem fallback_verdict
    (host : Host) (api : Services) (file : File.t) (buf : list byte) :
  File.arrayBuffer file = Returned buf ->
  backendFailed api file ->
  exists r,
    analyzeFile host api file = Returned r /\
    (VerificationResult.status r = valid <->
     exists rec, In rec MOCK_REGISTRY /\
                 RegistryRecord.hashHex rec = sha256Hex (platform host) buf) /\
    (hasSubtleCrypto (platform host) = true ->
     (VerificationResult.status r = valid <->
      exists rec, In rec MOCK_REGISTRY /\
                  RegistryRecord.hashHex rec
                  = Js.join (map byteHex (SHA256.digest buf)))) /\
    (VerificationResult.status r = valid \/ VerificationResult.status r = suspect) /\
    (forall rec, VerificationResult.matchedRecord r = Some rec -> In rec MOCK_REGISTRY) /\
    In backendIssue (VerificationResult.issues r) /\
    Metadata.backendVerification (VerificationResult.metadata r) = None.
Proof.
  intros Hbuf Hfailed.
  destruct (analyzeFile_fromMatcher host api file buf Hbuf Hfailed)
    as (b & Hrun & Hh & Hv & Hi).
  exists (localVerification b file). split; [exact Hrun|].
  unfold localVerification.
  assert (Hvalid :
            VerificationResult.status (localVerificationWith MOCK_REGISTRY b file)
            = valid <->
            exists rec, In rec MOCK_REGISTRY /\
                        RegistryRecord.hashHex rec = sha256Hex (platform host) buf).
  { rewrite <- Hh. apply localVerificationWith_valid_iff. }
  split; [exact Hvalid|].
  split.
  { intros Hp. rewrite Hvalid. unfold sha256Hex. rewrite Hp. cbn [negb].
    reflexivity. }
  split; [apply localVerificationWith_status|].
  split; [intros rec Hm; now destruct (localVerificationWith_matched _ _ _ _ Hm)|].
  split; [now apply localVerification_keeps_issues|].
  now rewrite localVerification_metadata.
Qed.

Lemma fallback_verdict_witness :
  exists r,
    analyzeFile Scenario.host Scenario.detectorOnly Scenario.emptyPng = Returned r /\
    (VerificationResult.status r = valid <->
     exists rec, In rec MOCK_REGISTRY /\
                 RegistryRecord.hashHex rec = sha256Hex (platform Scenario.host) []) /\
    (hasSubtleCrypto (platform Scenario.host) = true ->
     (VerificationResult.status r = valid <->
      exists rec, In rec MOCK_REGISTRY /\
                  RegistryRecord.hashHex rec
                  = Js.join (map byteHex (SHA256.digest [])))) /\
    (VerificationResult.status r = valid \/ VerificationResult.status r = suspect) /\
    (forall rec, VerificationResult.matchedRecord r = Some rec -> In rec MOCK_REGISTRY) /\
    In backendIssue (VerificationResult.issues r) /\
    Metadata.backendVerification (VerificationResult.metadata r) = None.
Proof.
  apply (fallback_verdict Scenario.host Scenario.detectorOnly Scenario.emptyPng []).
  - reflexivity.
  - left. eexists. reflexivity.
Defined.

(* ================================================================== *)
(** ** Without [crypto.subtle] the registry is never matched by content *)

Lemma fallback_hash_unregistered (x : string) rec :
  In rec MOCK_REGISTRY ->
  RegistryRecord.hashHex rec <> ("fallback-hash-" ++ x)%string.
Proof. intros [<-|[<-|[]]]; discriminate. Qed.

(** X5 -- Where [crypto.subtle] is missing, the fallback path never answers
    [valid]: the fingerprint is the ["fallback-hash-"] text, which no record
    of the mock registry carries, so the status is [suspect], also for a file
    whose content is registered; and a matched record was matched by the
    certificate number inferred from the decoded code or the file name. *)
Theorem no_subtle_crypto_never_valid
    (host : Host) (api : Services) (file : File.t) (buf : list byte) :
  File.arrayBuffer file = Returned buf ->
  hasSubtleCrypto (platform host) = false ->
  backendFailed api file ->
  exists r,
    analyzeFile host api file = Returned r /\
    VerificationResult.status r = suspect /\
    forall rec, VerificationResult.matchedRecord r = Some rec ->
      inferCertificateNumber (Metadata.qrData (VerificationResult.metadata r))
                             (File.name file)
      = Some (RegistryRecord.certificateNumber rec).
Proof.
  intros Hbuf Hp Hfailed.
  destruct (analyzeFile_fromMatcher host api file buf Hbuf Hfailed)
    as (b & Hrun & Hh & Hv & Hi).
  exists (localVerification b file). split; [exact Hrun|].
  unfold localVerification.
  assert (Hnone : forall rec, In rec MOCK_REGISTRY ->
            RegistryRecord.hashHex rec
            <> Metadata.hashHex (VerificationResult.metadata b)).
  { intros rec Hin. rewrite Hh. unfold sha256Hex. rewrite Hp. cbn [negb].
    now apply fallback_hash_unregistered. }
  split.
  - destruct (localVerificationWith_status MOCK_REGISTRY b file) as [Hs|Hs];
      [|exact Hs].
    apply localVerificationWith_valid_iff in Hs. destruct Hs as (rec & Hin & Hfp).
    now destruct (Hnone rec Hin).
  - intros rec Hrec. rewrite localVerification_metadata.
    destruct (localVerificationWith_matched _ _ _ _ Hrec) as [Hin [Hfp|[_ Hn]]];
      [now destruct (Hnone rec Hin)|exact Hn].
Qed.

Lemma no_subtle_crypto_never_valid_witness :
  exists r,
    analyzeFile Deployment.insecureHost Scenario.allDown Scenario.emptyPng
    = Returned r /\
    VerificationResult.status r = suspect /\
    forall rec, VerificationResult.matchedRecord r = Some rec ->
      inferCertificateNumber (Metadata.qrData (VerificationResult.metadata r))
                             (File.name Scenario.emptyPng)
      = Some (RegistryRecord.certificateNumber rec).
Proof.
  apply (no_subtle_crypto_never_valid Deployment.insecureHost Scenario.allDown
           Scenario.emptyPng []).
  - reflexivity.
  - reflexivity.
  - left. eexists. reflexivity.
Defined.

(** The same registered (empty) file on the two kinds of platform. *)
Example registered_file_by_platform :
  option_map VerificationResult.status
    (match analyzeFile Scenario.host Scenario.allDown Scenario.emptyPng with
     | Returned r => Some r | Threw _ => None end) = Some valid /\
  option_map VerificationResult.status
    (match analyzeFile Deployment.insecureHost Scenario.allDown Scenario.emptyPng with
     | Returned r => Some r | Threw _ => None end) = Some suspect.
Proof. split; vm_compute; reflexivity. Qed.

(* ================================================================== *)
(** ** Files that are not images *)

Ltac backend_only :=
  unfold onlyBackendCalls in *; cbn [base calls] in *;
  cbn [Metadata.qrData Metadata.ocrText Metadata.mlDetection
       set_qrData set_uploadId set_ocrText set_backendVerification set_mlDetection];
  match goal with
  | H : _ /\ _ /\ _ /\ _ |- _ => destruct H as (? & ? & ? & ?)
  end;
  repeat split; auto;
  let c := fresh in let ok := fresh in let Hin := fresh in
  intros c ok Hin; apply in_app_iff in Hin;
  destruct Hin as [Hin|[Hin|[]]]; [eauto|];
  inversion Hin; subst; eauto.

Section NotAnImage.
Variable host : Host.
Variable api : Services.
Variable file : File.t.
Hypothesis Hfile : isImage file = false.

Ltac not_image s :=
  let H := fresh "H" in
  destruct s as [b d l]; intros H; run_unfold; rewrite ?Hfile; run_cases;
  try backend_only.

Lemma qrStage_notImage s :
  onlyBackendCalls s -> wp (qrStage api file) (fun _ => onlyBackendCalls) noThrow s.
Proof. not_image s; exact H. Qed.

Lemma mlStage_notImage s :
  onlyBackendCalls s ->
  wp (mlStage host api file) (fun _ => onlyBackendCalls) noThrow s.
Proof. not_image s; exact H. Qed.

Lemma uploadStage_notImage s :
  onlyBackendCalls s ->
  wp (uploadStage api file) (fun _ => onlyBackendCalls) (fun _ => onlyBackendCalls) s.
Proof. not_image s. Qed.

Lemma ocrStage_notImage s :
  onlyBackendCalls s -> wp (ocrStage api file) (fun _ => onlyBackendCalls) noThrow s.
Proof. not_image s; exact H. Qed.

Lemma mlOcrStage_notImage u s :
  onlyBackendCalls s ->
  wp (mlOcrStage host api file u) (fun _ => onlyBackendCalls) noThrow s.
Proof. not_image s; exact H. Qed.

Lemma verifyStage_notImage h u s :
  onlyBackendCalls s ->
  wp (verifyStage api h u)
     (fun r s' => onlyBackendCalls (mkRun r false (calls s')))
     (fun _ => onlyBackendCalls) s.
Proof. not_image s. Qed.

Lemma fallback_notImage s :
  onlyBackendCalls s ->
  wp (fallback file)
     (fun r s' => onlyBackendCalls (mkRun r false (calls s'))) noThrow s.
Proof.
  destruct s as [b d l]. intros H. run_cases.
  unfold onlyBackendCalls in *. cbn [base calls] in *.
  unfold localVerification. now rewrite localVerification_metadata.
Qed.

End NotAnImage.

(** X6 -- A file whose type does not start with ["image/"] (a PDF, a file
    with no type) is only uploaded and verified: no QR decode, no detection
    and no text extraction is called, and the result's [qrData], [ocrText]
    and [mlDetection] are unset. *)
Theorem non_image_only_backend
    (host : Host) (api : Services) (file : File.t) (buf : list byte) :
  File.arrayBuffer file = Returned buf ->
  isImage file = false ->
  exists r,
    analyzeFile host api file = Returned r /\
    (forall c ok, In (c, ok) (callsOf host api file) ->
       c = Upload \/ exists i, c = Verify i) /\
    Metadata.qrData (VerificationResult.metadata r) = None /\
    Metadata.ocrText (VerificationResult.metadata r) = None /\
    Metadata.mlDetection (VerificationResult.metadata r) = None.
Proof.
  intros Hbuf Hfile.
  destruct (analyzeFileRun_wp host api file buf
              (fun r s' => onlyBackendCalls (mkRun r false (calls s'))) Hbuf)
    as (s' & r & Hrun & Hr).
  { apply pipeline_rule with
      (P0 := onlyBackendCalls) (P1 := onlyBackendCalls) (P2 := onlyBackendCalls)
      (P3 := fun _ => onlyBackendCalls) (P4 := fun _ => onlyBackendCalls)
      (P5 := fun _ => onlyBackendCalls) (E := onlyBackendCalls).
    - now apply qrStage_notImage.
    - now apply mlStage_notImage.
    - now apply uploadStage_notImage.
    - intros _. now apply ocrStage_notImage.
    - intros u. now apply mlOcrStage_notImage.
    - intros u. now apply verifyStage_notImage.
    - now apply fallback_notImage.
    - repeat split. intros c ok []. }
  exists r. unfold analyzeFile, callsOf. rewrite Hrun. cbn [fst snd].
  split; [reflexivity|exact Hr].
Qed.

Lemma non_image_only_backend_witness :
  exists r,
    analyzeFile Scenario.host Scenario.online Scenario.pdf = Returned r /\
    (forall c ok, In (c, ok) (callsOf Scenario.host Scenario.online Scenario.pdf) ->
       c = Upload \/ exists i, c = Verify i) /\
    Metadata.qrData (VerificationResult.metadata r) = None /\
    Metadata.ocrText (VerificationResult.metadata r) = None /\
    Metadata.mlDetection (VerificationResult.metadata r) = None.
Proof.
  apply (non_image_only_backend Scenario.host Scenario.online Scenario.pdf
           Scenario.pngBytes).
  - reflexivity.
  - reflexivity.
Defined.

(* ================================================================== *)
(** ** The decoded code *)

Ltac qr_stage s :=
  let H := fresh "H" in
  destruct s as [b d l]; unfold qrDataIs, decodedCode; cbn [base]; intros H;
  run_cases;
  cbn [Metadata.qrData set_qrData set_uploadId set_ocrText set_backendVerification
       set_mlDetection]; auto.

Section DecodedCode.
Variable host : Host.
Variable api : Services.
Variable file : File.t.

Lemma qrStage_qrData s :
  qrDataIs None s ->
  wp (qrStage api file) (fun _ => qrDataIs (decodedCode api file)) noThrow s.
Proof. qr_stage s. Qed.

Lemma mlStage_qrData v s :
  qrDataIs v s -> wp (mlStage host api file) (fun _ => qrDataIs v) noThrow s.
Proof. qr_stage s. Qed.

Lemma uploadStage_qrData v s :
  qrDataIs v s ->
  wp (uploadStage api file) (fun _ => qrDataIs v) (fun _ => qrDataIs v) s.
Proof. qr_stage s. Qed.

Lemma ocrStage_qrData v s :
  qrDataIs v s -> wp (ocrStage api file) (fun _ => qrDataIs v) noThrow s.
Proof. qr_stage s. Qed.

Lemma mlOcrStage_qrData v u s :
  qrDataIs v s -> wp (mlOcrStage host api file u) (fun _ => qrDataIs v) noThrow s.
Proof. qr_stage s. Qed.

Lemma verifyStage_qrData v h u s :
  qrDataIs v s ->
  wp (verifyStage api h u)
     (fun r _ => Metadata.qrData (VerificationResult.metadata r) = v)
     (fun _ => qrDataIs v) s.
Proof. qr_stage s. Qed.

Lemma fallback_qrData v s :
  qrDataIs v s ->
  wp (fallback file)
     (fun r _ => Metadata.qrData (VerificationResult.metadata r) = v) noThrow s.
Proof.
  destruct s as [b d l]. unfold qrDataIs. cbn [base]. intros H. run_cases.
  unfold localVerification. now rewrite localVerification_metadata.
Qed.

End DecodedCode.

(** X7 -- The result's [qrData] is the code the decoder read, and nothing
    else: it is set to [q] exactly when the file is an image, the decoder
    returned [q] and [q] is not the empty string.  A decoder that throws or
    finds no code, and later stages on either path, leave it unset. *)
Theorem qrData_is_decoded_code
    (host : Host) (api : Services) (file : File.t) (buf : list byte) :
  File.arrayBuffer file = Returned buf ->
  exists r,
    analyzeFile host api file = Returned r /\
    forall q,
      Metadata.qrData (VerificationResult.metadata r) = Some q <->
      (isImage file = true /\ readQrFromImage api file = Returned (Some q) /\
       q <> EmptyString).
Proof.
  intros Hbuf.
  destruct (analyzeFileRun_wp host api file buf
              (fun r _ => Metadata.qrData (VerificationResult.metadata r)
                          = decodedCode api file) Hbuf)
    as (s' & r & Hrun & Hr).
  { apply pipeline_rule with
      (P0 := qrDataIs None)
      (P1 := qrDataIs (decodedCode api file)) (P2 := qrDataIs (decodedCode api file))
      (P3 := fun _ => qrDataIs (decodedCode api file))
      (P4 := fun _ => qrDataIs (decodedCode api file))
      (P5 := fun _ => qrDataIs (decodedCode api file))
      (E := qrDataIs (decodedCode api file)).
    - apply qrStage_qrData.
    - apply mlStage_qrData.
    - apply uploadStage_qrData.
    - intros _. apply ocrStage_qrData.
    - intros u. apply mlOcrStage_qrData.
    - intros u. apply verifyStage_qrData.
    - apply fallback_qrData.
    - reflexivity. }
  exists r. split; [unfold analyzeFile; now rewrite Hrun|].
  intros q. rewrite Hr. unfold decodedCode.
  destruct (isImage file).
  - destruct (readQrFromImage api file) as [[q'|]|e].
    + destruct q' as [|c q']; cbn [Js.truthy].
      * split; [discriminate|]. intros (_ & [= <-] & Hne). contradiction.
      * split.
        { intros [= <-]. repeat split. discriminate. }
        { intros (_ & [= <-] & _). reflexivity. }
    + split; [discriminate|]. intros (_ & Hq & _). discriminate.
    + split; [discriminate|]. intros (_ & Hq & _). discriminate.
  - split; [discriminate|]. intros (Hq & _). discriminate.
Qed.

Lemma qrData_is_decoded_code_witness :
  exists r,
    analyzeFile Scenario.host
      (Api.services Deployment.client Deployment.down Deployment.codeReader)
      Scenario.png = Returned r /\
    forall q,
      Metadata.qrData (VerificationResult.metadata r) = Some q <->
      (isImage Scenario.png = true /\
       readQrFromImage
         (Api.services Deployment.client Deployment.down Deployment.codeReader)
         Scenario.png = Returned (Some q) /\
       q <> EmptyString).
Proof.
  apply (qrData_is_decoded_code Scenario.host
           (Api.services Deployment.client Deployment.down Deployment.codeReader)
           Scenario.png Scenario.pngBytes).
  reflexivity.
Defined.

(* ================================================================== *)
(** ** The detector's verdict is reported on both paths *)

Ltac verdict_solve :=
  unfold verdictKept, verdictInResult in *;
  cbn [base mlDetectionDone] in *;
  cbn [Metadata.mlDetection set_qrData set_uploadId set_ocrText
       set_backendVerification set_mlDetection];
  match goal with
  | H : _ /\ _ /\ _ |- _ => destruct H as (? & ? & ?)
  end;
  repeat split; auto;
  let line := fresh in let Hl := fresh in
  intros line Hl; cbn [VerificationResult.issues set_issues set_metadata set_status
                        set_matchedRecord];
  rewrite ?in_app_iff; eauto.

Section Verdict.
Variable host : Host.
Variable api : Services.
Variable file : File.t.
Variable m : MLDetectionResponse.t.
Hypothesis Himage : isImage file = true.
Hypothesis Hfirst : detectFakeCertificate api file None None = Returned m.

Lemma mlStage_verdict s :
  wp (mlStage host api file) (fun _ => verdictKept host m) noThrow s.
Proof.
  destruct s as [b d l]. run_unfold. rewrite Himage, Hfirst.
  unfold verdictKept, verdictIssue. run_cases;
    cbn [Metadata.mlDetection set_mlDetection]; repeat split; auto;
    intros line [= <-]; rewrite ?in_app_iff; cbn [In]; auto.
Qed.

Ltac verdict_stage s :=
  let H := fresh "H" in
  destruct s as [b d l]; intros H;
  let Hd := fresh "Hd" in
  pose proof (proj1 H) as Hd; cbn [mlDetectionDone] in Hd; subst d;
  run_cases; try verdict_solve.

Lemma uploadStage_verdict s :
  verdictKept host m s ->
  wp (uploadStage api file) (fun _ => verdictKept host m)
     (fun _ => verdictKept host m) s.
Proof. verdict_stage s. Qed.

Lemma ocrStage_verdict s :
  verdictKept host m s ->
  wp (ocrStage api file) (fun _ => verdictKept host m) noThrow s.
Proof. verdict_stage s. Qed.

Lemma mlOcrStage_verdict u s :
  verdictKept host m s ->
  wp (mlOcrStage host api file u) (fun _ => verdictKept host m) noThrow s.
Proof. verdict_stage s. Qed.

Lemma verifyStage_verdict h u s :
  verdictKept host m s ->
  wp (verifyStage api h u) (fun r _ => verdictInResult host m r)
     (fun _ => verdictKept host m) s.
Proof. verdict_stage s. Qed.

Lemma fallback_verdict_kept s :
  verdictKept host m s ->
  wp (fallback file) (fun r _ => verdictInResult host m r) noThrow s.
Proof.
  destruct s as [b d l]. intros (_ & Hm & Hl). cbn [base] in *. run_cases.
  unfold verdictInResult, localVerification.
  rewrite localVerification_metadata. split; [exact Hm|].
  intros line Hline. apply localVerification_keeps_issues.
  cbn. apply in_app_iff. left. auto.
Qed.

End Verdict.

(** X8 -- What the detector said is what the user is shown.  When the first
    detection call on an image returns a response [m], the result of
    [analyzeFile] records exactly [m] as [mlDetection], on the authoritative
    path and on the fallback path alike, and the line that [m] produces (the
    FAKE or AUTHENTIC line with the confidence as a percentage, or the
    detector's own error message) is among the result's issues. *)
Theorem detector_verdict_reported
    (host : Host) (api : Services) (file : File.t) (buf : list byte)
    (m : MLDetectionResponse.t) :
  File.arrayBuffer file = Returned buf ->
  isImage file = true ->
  detectFakeCertificate api file None None = Returned m ->
  exists r,
    analyzeFile host api file = Returned r /\
    Metadata.mlDetection (VerificationResult.metadata r) = Some m /\
    forall line, verdictIssue host m = Some line ->
                 In line (VerificationResult.issues r).
Proof.
  intros Hbuf Himage Hfirst.
  destruct (analyzeFileRun_wp host api file buf
              (fun r _ => verdictInResult host m r) Hbuf)
    as (s' & r & Hrun & Hr).
  { apply pipeline_rule with
      (P0 := fun _ => True) (P1 := fun _ => True)
      (P2 := verdictKept host m)
      (P3 := fun _ => verdictKept host m) (P4 := fun _ => verdictKept host m)
      (P5 := fun _ => verdictKept host m) (E := verdictKept host m).
    - intros s _. destruct s as [b d l]. run_cases; exact I.
    - intros s _. apply (mlStage_verdict host api file m Himage Hfirst).
    - apply uploadStage_verdict; assumption.
    - intros _. apply ocrStage_verdict; assumption.
    - intros u. apply mlOcrStage_verdict; assumption.
    - intros u. apply verifyStage_verdict; assumption.
    - apply fallback_verdict_kept; assumption.
    - exact I. }
  exists r. split; [unfold analyzeFile; now rewrite Hrun|exact Hr].
Qed.

Lemma detector_verdict_reported_witness :
  exists r,
    analyzeFile Scenario.host Scenario.detectorOnly Scenario.png = Returned r /\
    Metadata.mlDetection (VerificationResult.metadata r) = Some Scenario.fakeVerdict /\
    forall line, verdictIssue Scenario.host Scenario.fakeVerdict = Some line ->
                 In line (VerificationResult.issues r).
Proof.
  apply (detector_verdict_reported Scenario.host Scenario.detectorOnly Scenario.png
           Scenario.pngBytes Scenario.fakeVerdict).
  - reflexivity.
  - reflexivity.
  - reflexivity.
Defined.

(* ================================================================== *)
(** ** What the backend block records *)

Lemma evidenceBefore_is i t s : evidenceBefore i t s -> evidenceIs i t s.
Proof.
  intros (Hi & Ht & Hn). repeat split; auto; now destruct (Hn _ _ _ H).
Qed.

Ltac evidence_log :=
  unfold not; intros; cbn [calls] in *;
  repeat match goal with
         | H : In _ (_ ++ _) |- _ => apply in_app_iff in H; cbn [In] in H
         | H : _ \/ _ |- _ => destruct H
         | H : False |- _ => destruct H
         | H : (_, _) = (_, _) |- _ => inversion H; clear H; subst
         end;
  try discriminate; try reflexivity; try assumption; try congruence;
  try match goal with
      | Hn : forall t i ok, ~ In _ _, H : In _ _ |- _ => now destruct (Hn _ _ _ H)
      | Hn : forall t i ok, In _ _ -> _, H : In _ _ |- _ => now apply Hn in H
      end.

Ltac evidence_stage s :=
  let H := fresh "H" in
  destruct s as [b d l]; unfold evidenceBefore, evidenceIs, textRead; cbn [base calls];
  intros H; run_cases;
  cbn [Metadata.uploadId Metadata.ocrText
       set_qrData set_uploadId set_ocrText set_backendVerification set_mlDetection];
  repeat match goal with
         | H : _ /\ _ |- _ => destruct H
         end;
  repeat split; auto; try evidence_log.

Section Evidence.
Variable host : Host.
Variable api : Services.
Variable file : File.t.

Lemma qrStage_evidence s :
  evidenceBefore None None s ->
  wp (qrStage api file) (fun _ => evidenceBefore None None) noThrow s.
Proof. evidence_stage s. Qed.

Lemma mlStage_evidence s :
  evidenceBefore None None s ->
  wp (mlStage host api file) (fun _ => evidenceBefore None None) noThrow s.
Proof. evidence_stage s. Qed.

Lemma uploadStage_evidence s :
  evidenceBefore None None s ->
  wp (uploadStage api file)
     (fun u s' => uploadCertificate api file = Returned u /\
                  evidenceBefore (Some (UploadResponse.id u)) None s')
     (fun _ => evidenceIs (uploadedId api file) (extractedText api file)) s.
Proof.
  unfold uploadedId, extractedText. evidence_stage s.
Qed.

Lemma ocrStage_evidence u s :
  uploadCertificate api file = Returned u /\
  evidenceBefore (Some (UploadResponse.id u)) None s ->
  wp (ocrStage api file)
     (fun _ s' => uploadCertificate api file = Returned u /\
                  evidenceBefore (Some (UploadResponse.id u)) (textRead api file) s')
     noThrow s.
Proof. intros [Hu H]. revert H. evidence_stage s. Qed.

Lemma mlOcrStage_evidence u s :
  uploadCertificate api file = Returned u /\
  evidenceBefore (Some (UploadResponse.id u)) (textRead api file) s ->
  wp (mlOcrStage host api file u)
     (fun _ s' => uploadCertificate api file = Returned u /\
                  evidenceIs (Some (UploadResponse.id u)) (textRead api file) s')
     noThrow s.
Proof. intros [Hu H]. revert H. evidence_stage s. Qed.

Lemma verifyStage_evidence h u s :
  uploadCertificate api file = Returned u /\
  evidenceIs (Some (UploadResponse.id u)) (textRead api file) s ->
  wp (verifyStage api h u)
     (fun r s' => evidenceIs (uploadedId api file) (extractedText api file)
                    (mkRun r false (calls s')))
     (fun _ => evidenceIs (uploadedId api file) (extractedText api file)) s.
Proof.
  intros [Hu H]. revert H. unfold uploadedId, extractedText. rewrite Hu.
  evidence_stage s.
Qed.

Lemma fallback_evidence i t s :
  evidenceIs i t s ->
  wp (fallback file) (fun r s' => evidenceIs i t (mkRun r false (calls s'))) noThrow s.
Proof.
  destruct s as [b d l]. unfold evidenceIs. cbn [base calls]. intros H. run_cases.
  cbn [base calls]. unfold localVerification. now rewrite localVerification_metadata.
Qed.

End Evidence.

(** X15 -- What the backend block leaves in the metadata.  The result's
    [uploadId] is the id the upload returned, and is unset when the upload
    threw; its [ocrText] is the text the extraction returned for an uploaded
    image, and is unset for other files, after a failed upload and after a
    failed extraction.  Both survive a failed verification: the fallback
    result still carries them.  The second detection, when it is called, is
    sent exactly this text and this id. *)
Theorem backend_evidence_recorded
    (host : Host) (api : Services) (file : File.t) (buf : list byte) :
  File.arrayBuffer file = Returned buf ->
  exists r,
    analyzeFile host api file = Returned r /\
    Metadata.uploadId (VerificationResult.metadata r) = uploadedId api file /\
    Metadata.ocrText (VerificationResult.metadata r) = extractedText api file /\
    forall t i ok, In (DetectFake t (Some i), ok) (callsOf host api file) ->
      t = Metadata.ocrText (VerificationResult.metadata r) /\
      Some i = Metadata.uploadId (VerificationResult.metadata r).
Proof.
  intros Hbuf.
  destruct (analyzeFileRun_wp host api file buf
              (fun r s' => evidenceIs (uploadedId api file) (extractedText api file)
                             (mkRun r false (calls s'))) Hbuf)
    as (s' & r & Hrun & Hi & Ht & Hlog).
  { apply pipeline_rule with
      (P0 := evidenceBefore None None) (P1 := evidenceBefore None None)
      (P2 := evidenceBefore None None)
      (P3 := fun u s => uploadCertificate api file = Returned u /\
                        evidenceBefore (Some (UploadResponse.id u)) None s)
      (P4 := fun u s => uploadCertificate api file = Returned u /\
                        evidenceBefore (Some (UploadResponse.id u)) (textRead api file) s)
      (P5 := fun u s => uploadCertificate api file = Returned u /\
                        evidenceIs (Some (UploadResponse.id u)) (textRead api file) s)
      (E := evidenceIs (uploadedId api file) (extractedText api file)).
    - apply qrStage_evidence.
    - apply mlStage_evidence.
    - apply uploadStage_evidence.
    - apply ocrStage_evidence.
    - apply mlOcrStage_evidence.
    - apply verifyStage_evidence.
    - apply fallback_evidence.
    - repeat split. intros t i ok []. }
  cbn [base calls] in *.
  exists r. unfold analyzeFile, callsOf. rewrite Hrun. cbn [fst snd].
  split; [reflexivity|]. split; [exact Hi|]. split; [exact Ht|].
  rewrite Hi, Ht. exact Hlog.
Qed.

Lemma backend_evidence_recorded_witness :
  exists r,
    analyzeFile Scenario.host Deployment.lateDetector Scenario.png = Returned r /\
    Metadata.uploadId (VerificationResult.metadata r)
    = uploadedId Deployment.lateDetector Scenario.png /\
    Metadata.ocrText (VerificationResult.metadata r)
    = extractedText Deployment.lateDetector Scenario.png /\
    forall t i ok,
      In (DetectFake t (Some i), ok)
         (callsOf Scenario.host Deployment.lateDetector Scenario.png) ->
      t = Metadata.ocrText (VerificationResult.metadata r) /\
      Some i = Metadata.uploadId (VerificationResult.metadata r).
Proof.
  apply (backend_evidence_recorded Scenario.host Deployment.lateDetector Scenario.png
           Scenario.pngBytes).
  reflexivity.
Defined.

(** The run of the witness: the verification fails, the id and the text stay
    in the result, and they are what the second detection was sent. *)
Example late_detector_run :
  callsOf Scenario.host Deployment.lateDetector Scenario.png
  = [ (ReadQr, true); (DetectFake None None, false); (Upload, true);
      (ExtractText, true);
      (DetectFake (Some "B.Sc 2019"%string) (Some "cert-42"%string), true);
      (Verify "cert-42"%string, false) ] /\
  option_map (fun r => (Metadata.uploadId (VerificationResult.metadata r),
                        Metadata.ocrText (VerificationResult.metadata r)))
    (match analyzeFile Scenario.host Deployment.lateDetector Scenario.png with
     | Returned r => Some r | Threw _ => None end)
  = Some (Some "cert-42"%string, Some "B.Sc 2019"%string).
Proof. split; vm_compute; reflexivity. Qed.

(* ================================================================== *)
(** * Further properties of the extraction and of the fingerprint *)

(** ** The extracted number is in normal form *)

Lemma upperChar_idem c : Js.upperChar (Js.upperChar c) = Js.upperChar c.
Proof. destruct c as [[] [] [] [] [] [] [] []]; reflexivity. Qed.

Lemma upperChar_digit c : Js.isDigit c = true -> Js.upperChar c = c.
Proof. destruct c as [[] [] [] [] [] [] [] []]; (reflexivity || discriminate). Qed.

Lemma toUpperCase_idem s : Js.toUpperCase (Js.toUpperCase s) = Js.toUpperCase s.
Proof. induction s as [|c s IH]; cbn; [reflexivity|]. now rewrite upperChar_idem, IH. Qed.

Lemma toUpperCase_digits s :
  Js.allChars Js.isDigit s = true -> Js.toUpperCase s = s.
Proof.
  induction s as [|c s IH]; cbn; [reflexivity|].
  intros H. apply andb_true_iff in H. destruct H as [Hc Hs].
  now rewrite (upperChar_digit _ Hc), IH.
Qed.

Lemma toUpperCase_append a b :
  Js.toUpperCase (a ++ b) = (Js.toUpperCase a ++ Js.toUpperCase b)%string.
Proof. induction a as [|c a IH]; cbn; [reflexivity|]. now rewrite IH. Qed.

Lemma certificatePrefix_upperClosed : Forall upperClosed certificatePrefix.
Proof.
  unfold certificatePrefix.
  repeat constructor; intros c; destruct c as [[] [] [] [] [] [] [] []];
    (reflexivity || discriminate).
Qed.

Lemma matchClasses_upper : forall cs s m rest x,
  Forall upperClosed cs ->
  matchClasses cs s = Some (m, rest) ->
  matchClasses cs (Js.toUpperCase m ++ x) = Some (Js.toUpperCase m, x).
Proof.
  induction cs as [|p cs IH]; cbn; intros s m rest x Hcl.
  - intros [= <- <-]. reflexivity.
  - inversion Hcl as [|? ? Hp Hcs]; subst.
    destruct s as [|c r]; [discriminate|].
    destruct (p c) eqn:Hc; [|discriminate].
    destruct (matchClasses cs r) as [[m' rest']|] eqn:E; [|discriminate].
    intros [= <- <-]. cbn. rewrite (Hp _ Hc), (IH _ _ _ x Hcs E). reflexivity.
Qed.

Lemma tokenShape_upper cs tok :
  Forall upperClosed cs ->
  tokenShape cs tok = true -> tokenShape cs (Js.toUpperCase tok) = true.
Proof.
  intros Hcl. unfold tokenShape.
  destruct (matchClasses cs tok) as [[m ds]|] eqn:E; [|discriminate].
  intros H. pose proof H as H'. apply andb_true_iff in H'. destruct H' as [Hds _].
  destruct (matchClasses_split _ _ _ _ E) as [-> _].
  rewrite toUpperCase_append, (toUpperCase_digits _ Hds).
  now rewrite (matchClasses_upper _ _ _ _ ds Hcl E).
Qed.

Lemma regexMatch_sound cs s : forall m,
  regexMatch cs s = Some m -> tokenShape cs m = true.
Proof.
  induction s as [|c r IH]; intros m; cbn [regexMatch];
    destruct (matchHere cs _) as [m'|] eqn:M.
  - intros [= <-]. now destruct (matchHere_sound _ _ _ M) as (_ & _ & ? & _).
  - discriminate.
  - intros [= <-]. now destruct (matchHere_sound _ _ _ M) as (_ & _ & ? & _).
  - apply IH.
Qed.

(** X9 -- A number returned by [extractCertificateNumber] is in normal form:
    it is itself a token of the pattern, it is already in uppercase, and
    extracting from it returns it unchanged (the extraction is idempotent),
    so a number read from a file name can be compared with the registry's
    numbers as it stands. *)
Theorem extracted_number_normal_form (input : option string) (n : string) :
  extractCertificateNumber input = Some n ->
  extractCertificateNumber (Some n) = Some n /\
  tokenShape certificatePrefix n = true /\
  Js.toUpperCase n = n.
Proof.
  unfold extractCertificateNumber at 1.
  destruct (negb (Js.truthy_opt input)); [discriminate|].
  destruct input as [s|]; [|discriminate].
  destruct (regexMatch certificatePrefix s) as [m|] eqn:E; [|discriminate].
  intros [= <-].
  pose proof (tokenShape_upper _ _ certificatePrefix_upperClosed
                (regexMatch_sound _ _ _ E)) as Hshape.
  split; [|split; [exact Hshape|apply toUpperCase_idem]].
  pose proof (regexMatch_leftmost certificatePrefix EmptyString
                (Js.toUpperCase m) EmptyString Hshape eq_refl) as Hm.
  cbn [append] in Hm. rewrite string_app_nil_r in Hm.
  rewrite (extractCertificateNumber_some _ _ (Hm ltac:(intros; cbn; lia))).
  now rewrite toUpperCase_idem.
Qed.

Lemma extracted_number_normal_form_witness :
  extractCertificateNumber (Some "JH-NU-2019-000123"%string)
    = Some "JH-NU-2019-000123"%string /\
  tokenShape certificatePrefix "JH-NU-2019-000123" = true /\
  Js.toUpperCase "JH-NU-2019-000123" = "JH-NU-2019-000123"%string.
Proof.
  apply (extracted_number_normal_form
           (Some "scan_jh-nu-2019-000123_v2.png"%string) "JH-NU-2019-000123").
  reflexivity.
Defined.

(* ================================================================== *)
(** ** The hexadecimal text keeps the digest *)

Lemma hexPairValue_byteHex (b : byte) : hexPairValue (byteHex b) = Byte.to_N b.
Proof. destruct b; reflexivity. Qed.

Lemma byteHex_inj (a b : byte) : byteHex a = byteHex b -> a = b.
Proof.
  intros H. apply (f_equal hexPairValue) in H.
  rewrite !hexPairValue_byteHex in H.
  apply (f_equal Byte.of_N) in H. rewrite !Byte.of_to_N in H. congruence.
Qed.

Lemma join_cons (x : string) (l : list string) :
  Js.join (x :: l) = (x ++ Js.join l)%string.
Proof. reflexivity. Qed.

Lemma join_byteHex_inj : forall l1 l2 : list byte,
  Js.join (map byteHex l1) = Js.join (map byteHex l2) -> l1 = l2.
Proof.
  induction l1 as [|a l1 IH]; intros [|b l2] H; cbn [map] in H;
    rewrite ?join_cons in H.
  - reflexivity.
  - apply (f_equal String.length) in H.
    rewrite append_length, byteHex_length in H. discriminate.
  - apply (f_equal String.length) in H.
    rewrite append_length, byteHex_length in H. discriminate.
  - destruct (string_app_inv _ _ _ _
                ltac:(now rewrite !byteHex_length) H) as [Hab Hrest].
    now rewrite (byteHex_inj _ _ Hab), (IH _ Hrest).
Qed.

(** X10 -- Where [crypto.subtle] is available, the text [sha256Hex] returns
    loses nothing of the digest: two byte sequences have the same fingerprint
    text exactly when they have the same SHA-256 digest.  Each byte is written
    as two digits ([padStart(2, "0")]), so the joined text can be cut back
    into the bytes. *)
Theorem fingerprint_text_keeps_digest (p : Platform) (b1 b2 : list byte) :
  hasSubtleCrypto p = true ->
  (sha256Hex p b1 = sha256Hex p b2 <-> SHA256.digest b1 = SHA256.digest b2).
Proof.
  intros Hp. unfold sha256Hex. rewrite Hp. cbn [negb]. split.
  - apply join_byteHex_inj.
  - now intros ->.
Qed.

Lemma fingerprint_text_keeps_digest_witness :
  sha256Hex (platform Scenario.host) [] =
  sha256Hex (platform Scenario.host) Scenario.pngBytes <->
  SHA256.digest [] = SHA256.digest Scenario.pngBytes.
Proof.
  apply (fingerprint_text_keeps_digest (platform Scenario.host) [] Scenario.pngBytes).
  reflexivity.
Defined.

(* ================================================================== *)
(** * The client of the backend *)

(** ** Objects: assignment, lookup, deletion *)

Lemma getProp_setProp_same {V : Type} (k : string) (v : V) (o : Api.Props V) :
  Api.getProp k (Api.setProp k v o) = Some v.
Proof.
  unfold Api.getProp. induction o as [|[k' v'] o IH]; cbn.
  - now rewrite String.eqb_refl.
  - destruct (String.eqb k' k) eqn:E; cbn.
    + now rewrite String.eqb_refl.
    + now rewrite E.
Qed.

Lemma getProp_setProp_other {V : Type} (k k' : string) (v : V) (o : Api.Props V) :
  k' <> k -> Api.getProp k' (Api.setProp k v o) = Api.getProp k' o.
Proof.
  intros Hne. unfold Api.getProp. induction o as [|[k0 v0] o IH]; cbn.
  - apply String.eqb_neq in Hne. rewrite String.eqb_sym in Hne. now rewrite Hne.
  - destruct (String.eqb k0 k) eqn:E; cbn.
    + apply String.eqb_eq in E. subst k0.
      assert (H : String.eqb k k' = false)
        by (apply String.eqb_neq; congruence).
      now rewrite H.
    + destruct (String.eqb k0 k'); [reflexivity|exact IH].
Qed.

Lemma getProp_removeProp_same {V : Type} (k : string) (o : Api.Props V) : Api.getProp k (Api.removeProp k o) = None.
Proof.
  unfold Api.getProp, Api.removeProp. induction o as [|[k0 v0] o IH]; cbn.
  - reflexivity.
  - destruct (String.eqb k0 k) eqn:E; cbn; [exact IH|]. now rewrite E.
Qed.

Lemma getProp_removeProp_other {V : Type} (k k' : string) (o : Api.Props V) :
  k' <> k -> Api.getProp k' (Api.removeProp k o) = Api.getProp k' o.
Proof.
  intros Hne. unfold Api.getProp, Api.removeProp.
  induction o as [|[k0 v0] o IH]; cbn; [reflexivity|].
  destruct (String.eqb k0 k) eqn:E; cbn.
  - apply String.eqb_eq in E. subst k0.
    assert (H : String.eqb k k' = false) by (apply String.eqb_neq; congruence).
    rewrite H. exact IH.
  - destruct (String.eqb k0 k'); [reflexivity|exact IH].
Qed.

(* ================================================================== *)
(** ** The headers [request] sends *)

Lemma requestHeaders_authorization_set c options t :
  Api.token c = Some t -> t <> EmptyString ->
  Api.getProp "Authorization" (Api.requestHeaders c options)
  = Some (Api.Text ("Bearer " ++ t)).
Proof.
  intros Ht Hne. unfold Api.requestHeaders. cbv zeta. rewrite Ht.
  assert (Htr : Js.truthy t = true) by (destruct t; [contradiction|reflexivity]).
  rewrite Htr.
  destruct (negb (Api.isFormData (Api.body options))).
  - rewrite getProp_setProp_other by discriminate. apply getProp_setProp_same.
  - apply getProp_setProp_same.
Qed.

Lemma requestHeaders_authorization_unset c options :
  Api.token c = None \/ Api.token c = Some EmptyString ->
  Api.getProp "Authorization" (Api.requestHeaders c options)
  = Api.getProp "Authorization" (Api.spread (Api.headers options)).
Proof.
  unfold Api.requestHeaders. cbv zeta.
  intros [Ht|Ht]; rewrite Ht; cbn [Js.truthy];
    (destruct (negb (Api.isFormData (Api.body options)));
     [now rewrite getProp_setProp_other by discriminate|reflexivity]).
Qed.

(** The properties of a spread array are its indices. *)
Lemma getProp_indexed pairs : forall i k v,
  Api.getProp k (Api.indexed i pairs) = Some v ->
  exists j name value,
    k = Api.numberText (i + j) /\
    nth_error pairs (N.to_nat j) = Some (name, value) /\
    v = Api.Entry name value.
Proof.
  unfold Api.getProp.
  induction pairs as [|[name value] pairs IH]; intros i k v; cbn [Api.indexed find fst].
  - discriminate.
  - destruct (String.eqb (Api.numberText i) k) eqn:E.
    + cbn [snd]. intros [= <-]. apply String.eqb_eq in E.
      exists 0%N, name, value. rewrite N.add_0_r. auto.
    + intros H. destruct (IH _ _ _ H) as (j & n & x & Hk & Hn & Hv).
      exists (N.succ j), n, x. split; [|split; [|exact Hv]].
      * rewrite Hk. f_equal. lia.
      * rewrite N2Nat.inj_succ. exact Hn.
Qed.

(** X11 -- What [request] hands to [fetch] beside the URL.  The method and
    the body are the caller's; the headers are the object [request] builds.
    With a non-empty token its [Authorization] is ["Bearer "] followed by the
    token, whatever the caller put there; without a token (or with an empty
    one) it is what the spread kept of the caller's.  Its [Content-Type] is
    ["application/json"] for every body that is not a [FormData], also when
    the caller set another one, and is what the spread kept for a [FormData]
    body.  Every other key is what the spread kept.  The spread keeps the
    properties of a plain object; it keeps nothing of absent headers and of
    a [Headers] instance, whose headers are therefore dropped; and of an
    array of pairs it keeps the indices, each with its pair, not the header
    names. *)
Theorem request_headers (c : Api.Client) (options : Api.RequestInit) :
  let sent := Api.fetchInit c options in
  let kept := Api.spread (Api.headers options) in
  let headers := Api.requestHeaders c options in
  Api.method sent = Api.method options /\
  Api.body sent = Api.body options /\
  Api.headers sent = Api.PlainObject headers /\
  (forall t, Api.token c = Some t -> t <> EmptyString ->
     Api.getProp "Authorization" headers = Some (Api.Text ("Bearer " ++ t))) /\
  (Api.token c = None \/ Api.token c = Some EmptyString ->
     Api.getProp "Authorization" headers = Api.getProp "Authorization" kept) /\
  (Api.isFormData (Api.body options) = false ->
     Api.getProp "Content-Type" headers = Some (Api.Text "application/json")) /\
  (Api.isFormData (Api.body options) = true ->
     Api.getProp "Content-Type" headers = Api.getProp "Content-Type" kept) /\
  (forall k, k <> "Authorization"%string -> k <> "Content-Type"%string ->
     Api.getProp k headers = Api.getProp k kept) /\
  (forall o, Api.headers options = Api.PlainObject o -> kept = o) /\
  (Api.headers options = Api.NoHeaders \/
   (exists entries, Api.headers options = Api.HeadersInstance entries) ->
   kept = []) /\
  (forall pairs k v,
     Api.headers options = Api.PairArray pairs ->
     Api.getProp k kept = Some v ->
     exists i name value,
       k = Api.numberText i /\
       nth_error pairs (N.to_nat i) = Some (name, value) /\
       v = Api.Entry name value).
Proof.
  cbv zeta.
  split; [reflexivity|]. split; [reflexivity|]. split; [reflexivity|].
  split; [intros t; apply requestHeaders_authorization_set|].
  split; [apply requestHeaders_authorization_unset|].
  split; [|split; [|split; [|split; [|split]]]].
  - unfold Api.requestHeaders. cbv zeta.
    intros Hb. rewrite Hb. cbn [negb]. apply getProp_setProp_same.
  - unfold Api.requestHeaders. cbv zeta.
    intros Hb. rewrite Hb. cbn [negb].
    destruct (Api.token c) as [t|]; [|reflexivity].
    destruct (Js.truthy t); [|reflexivity].
    now rewrite getProp_setProp_other by discriminate.
  - unfold Api.requestHeaders. cbv zeta.
    intros k Ha Hc.
    destruct (negb (Api.isFormData (Api.body options)));
      rewrite ?(getProp_setProp_other _ _ _ _ Hc);
      (destruct (Api.token c) as [t|]; [|reflexivity];
       destruct (Js.truthy t); [|reflexivity];
       now rewrite (getProp_setProp_other _ _ _ _ Ha)).
  - intros o ->. reflexivity.
  - intros [->|[entries ->]]; reflexivity.
  - intros pairs k v -> H. cbn [Api.spread] in H.
    destruct (getProp_indexed _ _ _ _ H) as (j & name & value & Hk & Hn & Hv).
    exists j, name, value. auto.
Qed.

(** The upload of the deployment's client, as sent: the stored token, and no
    [Content-Type] for the form. *)
Example upload_as_sent :
  Api.fetchInit Deployment.client
    (Api.mkInit (Some "POST"%string) Api.NoHeaders
       (Api.FormBody (Api.fileForm Scenario.png)))
  = Api.mkInit (Some "POST"%string)
      (Api.PlainObject [("Authorization"%string, Api.Text "Bearer tok-1")])
      (Api.FormBody [("file"%string, Api.FileValue Scenario.png)]).
Proof. reflexivity. Qed.

(** One JSON request with the same two caller's headers, given in the three
    ways [HeadersInit] allows: only the plain object's reach [fetch]. *)
Example caller_headers_by_kind :
  let callers := [("X-Trace", "7"); ("Content-Type", "text/csv")]%string in
  let sentWith h :=
    Api.requestHeaders Deployment.client
      (Api.mkInit (Some "PUT"%string) h (Api.TextBody "a,b")) in
  sentWith (Api.PlainObject
              [("X-Trace"%string, Api.Text "7");
               ("Content-Type"%string, Api.Text "text/csv")])
  = [("X-Trace"%string, Api.Text "7");
     ("Content-Type"%string, Api.Text "application/json");
     ("Authorization"%string, Api.Text "Bearer tok-1")] /\
  sentWith (Api.HeadersInstance callers)
  = [("Authorization"%string, Api.Text "Bearer tok-1");
     ("Content-Type"%string, Api.Text "application/json")] /\
  sentWith (Api.PairArray callers)
  = [("0"%string, Api.Entry "X-Trace" "7");
     ("1"%string, Api.Entry "Content-Type" "text/csv");
     ("Authorization"%string, Api.Text "Bearer tok-1");
     ("Content-Type"%string, Api.Text "application/json")].
Proof. repeat split; reflexivity. Qed.

(* ================================================================== *)
(** ** The token, stored and read back *)

(** X12 -- The token round trip, in a browser.  After [setToken(t)] the
    client holds [t], a client constructed afterwards reads [t] back from
    [localStorage], and, [t] being non-empty, every request carries
    ["Bearer " + t].  After [clearToken()] the client holds no token, a
    client constructed afterwards finds none, and requests carry only the
    caller's [Authorization], if any.  Neither call touches another key of
    the storage. *)
Theorem token_round_trip (storage : Api.Obj) (baseURL t : string) (c : Api.Client) :
  let after := Api.setToken t (c, Some storage) in
  let cleared := Api.clearToken after in
  Api.token (fst after) = Some t /\
  Api.token (Api.newClient (snd after) baseURL) = Some t /\
  Api.token (fst cleared) = None /\
  Api.token (Api.newClient (snd cleared) baseURL) = None /\
  (forall k, k <> "auth_token"%string ->
     option_map (Api.getProp k) (snd after) = Some (Api.getProp k storage) /\
     option_map (Api.getProp k) (snd cleared) = Some (Api.getProp k storage)) /\
  (t <> EmptyString ->
   forall options,
     Api.headers (Api.fetchInit (fst after) options)
     = Api.PlainObject (Api.requestHeaders (fst after) options) /\
     Api.getProp "Authorization" (Api.requestHeaders (fst after) options)
     = Some (Api.Text ("Bearer " ++ t))) /\
  (forall options,
     Api.headers (Api.fetchInit (fst cleared) options)
     = Api.PlainObject (Api.requestHeaders (fst cleared) options) /\
     Api.getProp "Authorization" (Api.requestHeaders (fst cleared) options)
     = Api.getProp "Authorization" (Api.spread (Api.headers options))).
Proof.
  cbv zeta. unfold Api.setToken, Api.clearToken, Api.newClient.
  cbn [fst snd Api.token Api.baseURL option_map].
  split; [reflexivity|]. split; [apply getProp_setProp_same|].
  split; [reflexivity|]. split; [apply getProp_removeProp_same|].
  split; [|split].
  - intros k Hk. split; f_equal.
    + now apply getProp_setProp_other.
    + rewrite getProp_removeProp_other by exact Hk.
      now apply getProp_setProp_other.
  - intros Hne options. split; [reflexivity|].
    now apply requestHeaders_authorization_set.
  - intros options. split; [reflexivity|].
    apply requestHeaders_authorization_unset. now left.
Qed.

(** The deployment's storage after a new token and after the sign-out: the
    token keeps its place, the theme is not touched. *)
Example storage_after_tokens :
  snd (Api.setToken "tok-2" (Deployment.client, Some Deployment.storage))
  = Some [("theme", "dark"); ("auth_token", "tok-2")]%string /\
  snd (Api.clearToken (Deployment.client, Some Deployment.storage))
  = Some [("theme", "dark")]%string.
Proof. split; reflexivity. Qed.

(* ================================================================== *)
(** ** HTTP failures reach the pipeline as thrown calls *)

Lemma request_undelivered {T} (c : Api.Client) (fetch : Api.Fetch T) endpoint options :
  Api.undelivered (fetch (Api.baseURL c ++ endpoint)%string (Api.fetchInit c options)) ->
  exists e, Api.request c fetch endpoint options = Threw e.
Proof.
  unfold Api.undelivered, Api.request.
  destruct (fetch _ _) as [response|e]; [|eauto].
  intros [Hok|[e He]].
  - rewrite Hok. cbn [negb]. eauto.
  - destruct (Api.ok response); cbn [negb]; eauto.
Qed.

Lemma request_delivered {T} (c : Api.Client) (fetch : Api.Fetch T) endpoint options x :
  Api.delivered (fetch (Api.baseURL c ++ endpoint)%string (Api.fetchInit c options)) x ->
  Api.request c fetch endpoint options = Returned x.
Proof.
  intros (response & Hf & Hok & Hj). unfold Api.request.
  now rewrite Hf, Hok.
Qed.

Lemma request_not_ok_message {T} (c : Api.Client) (fetch : Api.Fetch T)
    endpoint options response :
  fetch (Api.baseURL c ++ endpoint)%string (Api.fetchInit c options) = Returned response ->
  Api.ok response = false ->
  exists rest, Api.request c fetch endpoint options
               = Threw (String "A" rest).
Proof.
  intros Hf Hok. unfold Api.request. rewrite Hf, Hok. cbn [negb]. cbn [append].
  eauto.
Qed.

(** The message of a refused request, as the issue list or the console shows
    it. *)
Example refused_message :
  Api.uploadCertificate Deployment.client (Api.fetchUpload Deployment.down)
    Scenario.png
  = Threw "API Error: 503 Service Unavailable"%string.
Proof. reflexivity. Qed.

(** X13 -- From the wire to the verdict.  With [apiClient] as the provider of
    the services, a failure of the upload request, or of the verification
    request that follows a delivered upload, at any level ([fetch] rejects,
    the status is not a success, the body is not JSON), does not make
    [analyzeFile] throw: it returns the local matcher's answer, [valid] or
    [suspect], with the backend issue among the issues and no backend
    verification recorded.  When it is the upload that failed, no text
    extraction, second detection or verification request is sent. *)
Theorem undelivered_backend_falls_back
    (host : Host) (c : Api.Client) (net : Api.Network)
    (decode : File.t -> Outcome (option string)) (file : File.t) (buf : list byte) :
  File.arrayBuffer file = Returned buf ->
  Api.undelivered (Api.uploadResponse c net file) \/
  (exists u, Api.delivered (Api.uploadResponse c net file) u /\
             Api.undelivered (Api.verifyResponse c net (UploadResponse.id u))) ->
  exists r,
    analyzeFile host (Api.services c net decode) file = Returned r /\
    (VerificationResult.status r = valid \/ VerificationResult.status r = suspect) /\
    In backendIssue (VerificationResult.issues r) /\
    Metadata.backendVerification (VerificationResult.metadata r) = None /\
    (Api.undelivered (Api.uploadResponse c net file) ->
     forall call ok,
       In (call, ok) (callsOf host (Api.services c net decode) file) ->
       callRank call <= 2).
Proof.
  intros Hbuf Hnet.
  set (api := Api.services c net decode).
  assert (Hfailed : backendFailed api file).
  { destruct Hnet as [Hu|(u & Hu & Hv)].
    - left. apply (request_undelivered c (Api.fetchUpload net)) in Hu. exact Hu.
    - right. exists u.
      apply (request_delivered c (Api.fetchUpload net)) in Hu.
      apply (request_undelivered c (Api.fetchVerify net)) in Hv.
      destruct Hv as [e He]. exists e. split; [exact Hu|exact He]. }
  destruct (analyzeFile_fromMatcher host api file buf Hbuf Hfailed)
    as (b & Hrun & Hh & Hv & Hi).
  exists (localVerification b file). split; [exact Hrun|].
  unfold localVerification.
  split; [apply localVerificationWith_status|].
  split; [now apply localVerification_keeps_issues|].
  split; [now rewrite localVerification_metadata|].
  intros Hu call ok Hin.
  apply (request_undelivered c (Api.fetchUpload net)) in Hu. destruct Hu as [e He].
  destruct (analyzeFileRun_protocol host api file buf Hbuf)
    as (s2 & r2 & Hrun2 & _ & Hafter).
  unfold callsOf in Hin. rewrite Hrun2 in Hin. cbn [fst] in Hin.
  destruct (Nat.le_gt_cases (callRank call) 2) as [Hle|Hgt]; [exact Hle|].
  destruct (Hafter call ok Hin Hgt) as (u & Hu & _).
  change (uploadCertificate api file) with
    (Api.request c (Api.fetchUpload net) "/api/v1/upload/certificate"
       (Api.mkInit (Some "POST"%string) Api.NoHeaders
          (Api.FormBody (Api.fileForm file)))) in Hu.
  congruence.
Qed.

Lemma undelivered_backend_falls_back_witness :
  exists r,
    analyzeFile Scenario.host
      (Api.services Deployment.client Deployment.uploadOnly Deployment.codeReader)
      Scenario.png = Returned r /\
    (VerificationResult.status r = valid \/ VerificationResult.status r = suspect) /\
    In backendIssue (VerificationResult.issues r) /\
    Metadata.backendVerification (VerificationResult.metadata r) = None /\
    (Api.undelivered
       (Api.uploadResponse Deployment.client Deployment.uploadOnly Scenario.png) ->
     forall call ok,
       In (call, ok)
          (callsOf Scenario.host
             (Api.services Deployment.client Deployment.uploadOnly
                Deployment.codeReader) Scenario.png) ->
       callRank call <= 2).
Proof.
  apply (undelivered_backend_falls_back Scenario.host Deployment.client
           Deployment.uploadOnly Deployment.codeReader Scenario.png
           Scenario.pngBytes).
  - reflexivity.
  - right. exists Scenario.uploaded. split.
    + eexists. repeat split; reflexivity.
    + left. reflexivity.
Defined.

(** The calls of the two failing deployments. *)
Example failing_deployments :
  callsOf Scenario.host
    (Api.services Deployment.client Deployment.down Deployment.codeReader)
    Scenario.png
  = [(ReadQr, true); (DetectFake None None, false); (Upload, false)] /\
  map fst
    (callsOf Scenario.host
       (Api.services Deployment.client Deployment.uploadOnly Deployment.codeReader)
       Scenario.png)
  = [ReadQr; DetectFake None None; Upload; ExtractText;
     DetectFake None (Some "cert-42"%string); Verify "cert-42"%string].
Proof. split; vm_compute; reflexivity. Qed.

(* ================================================================== *)
(** * The status badge *)

Lemma poll_snoc history o s :
  MLStatus.poll (history ++ [o]) s = MLStatus.checkMLStatus o (MLStatus.poll history s).
Proof. unfold MLStatus.poll. now rewrite fold_left_app. Qed.

Lemma poll_loading history s :
  history <> [] -> MLStatus.loading (MLStatus.poll history s) = false.
Proof.
  intros Hne. destruct (exists_last Hne) as (h & o & ->).
  rewrite poll_snoc. destruct o as [err|r]; reflexivity.
Qed.

(** X14 -- What the [MLStatus] badge shows after any sequence of checks.
    After a check that returned, the badge depends on that response alone:
    "AI Ready (loaded/total)" when it reports success and at least one loaded
    model, "AI Loading..." when it reports success and none, "AI Unavailable"
    otherwise; earlier errors are cleared.  After a check that failed with a
    message, a thrown non-error value, or a response whose HTTP status is not
    a success, the badge is "AI Unavailable", even though the last good
    status is still held.  Once one check has finished the badge never shows
    "Checking AI..." again, and it shows "AI Ready" only when the held status
    reports success with a positive number of loaded models. *)
Theorem badge_after_polls
    (history : list (MLStatus.Thrown + MLStatus.Response)) (s : MLStatus.State) :
  (forall r,
     MLStatus.render (MLStatus.poll (history ++ [inr r]) s) =
     if MLStatus.success r then
       if (0 <? MLStatus.loaded_models r)%Z
       then MLStatus.Ready (MLStatus.loaded_models r) (MLStatus.total_models r)
       else MLStatus.LoadingModels
     else MLStatus.Unavailable)
  /\
  (forall message, message <> EmptyString ->
     MLStatus.render (MLStatus.poll (history ++ [inl (MLStatus.ErrorObject message)]) s)
     = MLStatus.Unavailable)
  /\
  MLStatus.render (MLStatus.poll (history ++ [inl MLStatus.OtherValue]) s)
  = MLStatus.Unavailable
  /\
  (forall c fetch response,
     fetch (Api.baseURL c ++ "/api/v1/ml/model-status")%string
           (Api.fetchInit c Api.noOptions) = Returned response ->
     Api.ok response = false ->
     MLStatus.render
       (MLStatus.poll (history ++ [MLStatus.getModelStatus c fetch]) s)
     = MLStatus.Unavailable)
  /\
  (history <> [] ->
   MLStatus.loading (MLStatus.poll history s) = false /\
   forall l t, MLStatus.render (MLStatus.poll history s) = MLStatus.Ready l t ->
     exists r, MLStatus.status (MLStatus.poll history s) = Some r /\
               MLStatus.success r = true /\ (0 < l)%Z /\
               l = MLStatus.loaded_models r /\ t = MLStatus.total_models r).
Proof.
  split; [|split; [|split; [|split]]].
  - intros r. rewrite poll_snoc. unfold MLStatus.render. cbn.
    destruct (MLStatus.success r); reflexivity.
  - intros message Hne. rewrite poll_snoc. unfold MLStatus.render. cbn.
    destruct message; [contradiction|reflexivity].
  - rewrite poll_snoc. reflexivity.
  - intros c fetch response Hf Hok. rewrite poll_snoc.
    unfold MLStatus.getModelStatus.
    destruct (request_not_ok_message c fetch _ _ response Hf Hok) as [rest ->].
    reflexivity.
  - intros Hne. split; [now apply poll_loading|].
    intros l t. unfold MLStatus.render. rewrite (poll_loading _ _ Hne).
    destruct (Js.truthy_opt _); cbn [orb]; [discriminate|].
    destruct (MLStatus.status _) as [r|]; cbn [negb]; [|discriminate].
    destruct (MLStatus.success r) eqn:Hs; cbn [negb]; [|discriminate].
    destruct (0 <? MLStatus.loaded_models r)%Z eqn:E; [|discriminate].
    intros [= <- <-]. exists r. apply Z.ltb_lt in E.
    repeat split; assumption || reflexivity.
Qed.

(** The badge over a morning: first check, models loading, models ready,
    backend restarting, ready again. *)
Example badge_history :
  map (fun n =>
         MLStatus.render
           (MLStatus.poll
              (firstn n [ inr (MLStatus.mkResponse true 3 0);
                          inr (MLStatus.mkResponse true 3 2);
                          inl (MLStatus.ErrorObject "Failed to fetch");
                          inr (MLStatus.mkResponse true 3 3) ])
              MLStatus.initial))
      [0; 1; 2; 3; 4]
  = [ MLStatus.Checking; MLStatus.LoadingModels; MLStatus.Ready 2 3;
      MLStatus.Unavailable; MLStatus.Ready 3 3 ].
Proof. reflexivity. Qed.

(* ================================================================== *)
(** * Totality: every failure becomes an issue *)

Ltac lines_solve :=
  repeat match goal with
         | H : _ /\ _ |- _ => destruct H
         end;
  cbn [negb andb] in *; try discriminate; try congruence;
  repeat split; intros; auto;
  rewrite ?in_app_iff in *; cbn [In] in *;
  repeat match goal with
         | H : _ \/ _ |- _ => destruct H
         | H : False |- _ => destruct H
         end;
  subst; auto;
  cbn [negb andb] in *; try congruence;
  try match goal with
      | H : forall line, In line _ -> _, Hin : In _ _ |- _ =>
          apply H in Hin; rewrite ?in_app_iff in Hin; cbn [In] in Hin; tauto
      end.

Ltac lines_stage s :=
  let H := fresh "H" in
  destruct s as [b d l];
  unfold linesReported, linesPending, linesInResult, failureLines,
         qrFailure, mlFailure, ocrFailure, mlOcrFailure, detected, textRead;
  cbn [base mlDetectionDone]; intros H; run_cases;
  cbn [Metadata.ocrText VerificationResult.issues
       set_qrData set_uploadId set_ocrText set_backendVerification set_mlDetection
       set_issues set_status set_matchedRecord set_metadata];
  lines_solve.

Section FailureLines.
Variable host : Host.
Variable api : Services.
Variable file : File.t.

Lemma qrStage_lines L done text s :
  linesReported L done text s ->
  wp (qrStage api file)
     (fun _ => linesReported (L ++ qrFailure api file) done text) noThrow s.
Proof. lines_stage s. Qed.

Lemma mlStage_lines L text s :
  linesReported L false text s ->
  wp (mlStage host api file)
     (fun _ => linesReported (L ++ mlFailure api file) (detected api file) text)
     noThrow s.
Proof. lines_stage s. Qed.

Lemma uploadStage_lines s :
  linesReported (qrFailure api file ++ mlFailure api file) (detected api file) None s ->
  wp (uploadStage api file)
     (fun u s' =>
        uploadCertificate api file = Returned u /\
        linesReported (qrFailure api file ++ mlFailure api file)
          (detected api file) None s')
     (fun _ => linesPending api file) s.
Proof.
  destruct s as [b d l]. unfold linesReported, linesPending, failureLines.
  cbn [base mlDetectionDone]. intros (HL & Hd & Ht). run_cases.
  - cbn [Metadata.ocrText set_uploadId]. auto.
  - intros line Hin. rewrite !in_app_iff in Hin. cbn [In failureIssue] in Hin.
    unfold backendIssue.
    destruct Hin as [Hin|[Hin|[Hin|[]]]]; auto;
      right; apply HL; apply in_app_iff; auto.
Qed.

Lemma ocrStage_lines L done u s :
  uploadCertificate api file = Returned u /\ linesReported L done None s ->
  wp (ocrStage api file)
     (fun _ s' =>
        uploadCertificate api file = Returned u /\
        linesReported (L ++ ocrFailure api file) done (textRead api file) s')
     noThrow s.
Proof. intros [Hu H]. revert H. lines_stage s. Qed.

Lemma mlOcrStage_lines L u s :
  uploadCertificate api file = Returned u /\
  linesReported L (detected api file) (textRead api file) s ->
  wp (mlOcrStage host api file u)
     (fun _ s' =>
        uploadCertificate api file = Returned u /\
        linesReported (L ++ mlOcrFailure api file u)
          (detected api file) (textRead api file) s')
     noThrow s.
Proof. intros [Hu H]. revert H. lines_stage s. Qed.

Lemma verifyStage_lines h u s :
  uploadCertificate api file = Returned u /\
  linesReported
    (((qrFailure api file ++ mlFailure api file) ++ ocrFailure api file)
     ++ mlOcrFailure api file u)
    (detected api file) (textRead api file) s ->
  wp (verifyStage api h u) (fun r _ => linesInResult api file r)
     (fun _ => linesPending api file) s.
Proof.
  destruct s as [b d l]. unfold linesReported, linesPending, linesInResult,
                           failureLines.
  cbn [base mlDetectionDone]. intros (Hu & HL & Hd & Ht). rewrite Hu.
  run_cases;
    cbn [VerificationResult.issues set_issues set_status set_matchedRecord
         set_metadata set_backendVerification];
    intros line Hin; rewrite !in_app_iff in Hin; cbn [In failureIssue] in Hin;
    unfold backendIssue; rewrite ?in_app_iff;
    repeat match goal with
           | H : _ \/ _ |- _ => destruct H
           | H : False |- _ => destruct H
           end;
    auto;
    try (left; apply HL; rewrite !in_app_iff; tauto);
    try (right; apply HL; rewrite !in_app_iff; tauto).
Qed.

Lemma fallback_lines s :
  linesPending api file s ->
  wp (fallback file) (fun r _ => linesInResult api file r) noThrow s.
Proof.
  destruct s as [b d l]. unfold linesPending, linesInResult. cbn [base].
  intros H. run_cases. intros line Hin.
  apply localVerification_keeps_issues. cbn [VerificationResult.issues set_issues].
  apply in_app_iff. destruct (H line Hin) as [->|Hl]; [right; now left|now left].
Qed.

End FailureLines.

(** Every line the outcomes call for is among the result's issues. *)
Lemma analyzeFile_lines host api file buf :
  File.arrayBuffer file = Returned buf ->
  exists r, analyzeFile host api file = Returned r /\ linesInResult api file r.
Proof.
  intros Hbuf.
  destruct (analyzeFileRun_wp host api file buf
              (fun r _ => linesInResult api file r) Hbuf)
    as (s' & r & Hrun & Hr).
  { apply pipeline_rule with
      (P0 := linesReported [] false None)
      (P1 := linesReported (qrFailure api file) false None)
      (P2 := linesReported (qrFailure api file ++ mlFailure api file)
               (detected api file) None)
      (P3 := fun u s =>
               uploadCertificate api file = Returned u /\
               linesReported (qrFailure api file ++ mlFailure api file)
                 (detected api file) None s)
      (P4 := fun u s =>
               uploadCertificate api file = Returned u /\
               linesReported
                 ((qrFailure api file ++ mlFailure api file) ++ ocrFailure api file)
                 (detected api file) (textRead api file) s)
      (P5 := fun u s =>
               uploadCertificate api file = Returned u /\
               linesReported
                 (((qrFailure api file ++ mlFailure api file) ++ ocrFailure api file)
                  ++ mlOcrFailure api file u)
                 (detected api file) (textRead api file) s)
      (E := linesPending api file).
    - intros s H. apply (qrStage_lines api file [] false None s H).
    - apply mlStage_lines.
    - apply uploadStage_lines.
    - intros u s H. apply (ocrStage_lines api file _ _ u s H).
    - intros u s H. apply (mlOcrStage_lines host api file _ u s H).
    - apply verifyStage_lines.
    - apply fallback_lines.
    - repeat split. intros line []. }
  exists r. split; [unfold analyzeFile; now rewrite Hrun|exact Hr].
Qed.

Lemma offline_backendFailed api file : offline api -> backendFailed api file.
Proof. intros (Hup & _). left. apply Hup. Qed.

(** C4 -- Totality of [analyzeFile].  For every file whose bytes can be read
    and every combination of outcomes of the QR decode and of the remote
    calls, [analyzeFile] returns a result (it does not throw), and each
    failure, as the services answer, is converted into its issue string in
    the result: a decoder or a first detection that throws on an image; an
    upload that throws; and, after an upload that returned, a text
    extraction that throws on an image, a second detection (made when the
    first threw, with the text that was read and the upload id) that throws,
    and a verification that throws.  So is every call that the run's log
    records as failed.  When the authoritative path fails, in particular
    when all four remote calls fail, the result is the local matcher's
    answer on evidence carrying the file's fingerprint, and its status is
    [suspect] or [valid]. *)
Theorem analyzeFile_total
    (host : Host) (api : Services) (file : File.t) (buf : list byte) :
  File.arrayBuffer file = Returned buf ->
  exists r,
    analyzeFile host api file = Returned r /\
    (isImage file = true ->
     (forall e, readQrFromImage api file = Threw e ->
        In "Failed to read QR code from image"%string (VerificationResult.issues r)) /\
     (forall e, detectFakeCertificate api file None None = Threw e ->
        In "AI-powered fake detection unavailable"%string
           (VerificationResult.issues r))) /\
    (forall e, uploadCertificate api file = Threw e ->
       In "Backend verification unavailable - using local verification"%string
          (VerificationResult.issues r)) /\
    (forall u, uploadCertificate api file = Returned u ->
       (isImage file = true ->
        (forall e, extractText api file = Threw e ->
           In "OCR text extraction failed"%string (VerificationResult.issues r)) /\
        (forall e e',
           detectFakeCertificate api file None None = Threw e ->
           detectFakeCertificate api file (textRead api file)
             (Some (UploadResponse.id u)) = Threw e' ->
           In "AI-powered fake detection with OCR unavailable"%string
              (VerificationResult.issues r))) /\
       (forall e, verifyCertificate api (UploadResponse.id u) = Threw e ->
          In "Backend verification unavailable - using local verification"%string
             (VerificationResult.issues r))) /\
    (forall c, In (c, false) (callsOf host api file) ->
               In (failureIssue c) (VerificationResult.issues r)) /\
    (offline api \/ backendFailed api file ->
     (exists b, r = localVerification b file /\
                Metadata.hashHex (VerificationResult.metadata b)
                = sha256Hex (platform host) buf) /\
     (VerificationResult.status r = suspect \/ VerificationResult.status r = valid)).
Proof.
  intros Hbuf.
  destruct (analyzeFile_lines host api file buf Hbuf) as (r & Hr & Hlines).
  exists r. split; [exact Hr|].
  unfold linesInResult, failureLines in Hlines.
  split; [|split; [|split; [|split]]].
  - intros Himg. split; intros e He; apply Hlines; rewrite !in_app_iff.
    + left. unfold qrFailure. rewrite Himg, He. now left.
    + right; left. unfold mlFailure. rewrite Himg, He. now left.
  - intros e He. apply Hlines. rewrite He, !in_app_iff. right; right. now left.
  - intros u Hu. rewrite Hu in Hlines. split.
    + intros Himg. split.
      * intros e He. apply Hlines. rewrite !in_app_iff. right; right; left.
        unfold ocrFailure. rewrite Himg, He. now left.
      * intros e e' He He'. apply Hlines. rewrite !in_app_iff.
        right; right; right; left.
        unfold mlOcrFailure, detected. rewrite Himg, He. cbn [andb negb].
        rewrite He'. now left.
    + intros e He. apply Hlines. rewrite He, !in_app_iff.
      right; right; right; right. now left.
  - destruct (analyzeFileRun_wp host api file buf failuresInResult Hbuf)
      as (s' & r' & Hrun & Hlog).
    { apply pipeline_reported. intros c []. }
    unfold analyzeFile in Hr. unfold callsOf. rewrite Hrun in Hr |- *.
    cbn [fst snd] in *. injection Hr as <-. exact Hlog.
  - intros Hoff.
    assert (Hfailed : backendFailed api file)
      by (destruct Hoff as [Hoff|Hf]; [now apply offline_backendFailed|exact Hf]).
    destruct (analyzeFile_fromMatcher host api file buf Hbuf Hfailed)
      as (b & Hrun & Hh & _).
    rewrite Hr in Hrun. injection Hrun as ->. split; [eauto|].
    destruct (localVerificationWith_status MOCK_REGISTRY b file); auto.
Qed.

Lemma analyzeFile_total_witness :
  exists r,
    analyzeFile Scenario.host Scenario.allDown Scenario.png = Returned r /\
    (isImage Scenario.png = true ->
     (forall e, readQrFromImage Scenario.allDown Scenario.png = Threw e ->
        In "Failed to read QR code from image"%string (VerificationResult.issues r)) /\
     (forall e, detectFakeCertificate Scenario.allDown Scenario.png None None = Threw e ->
        In "AI-powered fake detection unavailable"%string
           (VerificationResult.issues r))) /\
    (forall e, uploadCertificate Scenario.allDown Scenario.png = Threw e ->
       In "Backend verification unavailable - using local verification"%string
          (VerificationResult.issues r)) /\
    (forall u, uploadCertificate Scenario.allDown Scenario.png = Returned u ->
       (isImage Scenario.png = true ->
        (forall e, extractText Scenario.allDown Scenario.png = Threw e ->
           In "OCR text extraction failed"%string (VerificationResult.issues r)) /\
        (forall e e',
           detectFakeCertificate Scenario.allDown Scenario.png None None = Threw e ->
           detectFakeCertificate Scenario.allDown Scenario.png
             (textRead Scenario.allDown Scenario.png)
             (Some (UploadResponse.id u)) = Threw e' ->
           In "AI-powered fake detection with OCR unavailable"%string
              (VerificationResult.issues r))) /\
       (forall e, verifyCertificate Scenario.allDown (UploadResponse.id u) = Threw e ->
          In "Backend verification unavailable - using local verification"%string
             (VerificationResult.issues r))) /\
    (forall c, In (c, false) (callsOf Scenario.host Scenario.allDown Scenario.png) ->
               In (failureIssue c) (VerificationResult.issues r)) /\
    (offline Scenario.allDown \/ backendFailed Scenario.allDown Scenario.png ->
     (exists b, r = localVerification b Scenario.png /\
                Metadata.hashHex (VerificationResult.metadata b)
                = sha256Hex (platform Scenario.host) Scenario.pngBytes) /\
     (VerificationResult.status r = suspect \/ VerificationResult.status r = valid)).
Proof.
  apply (analyzeFile_total Scenario.host Scenario.allDown Scenario.png
           Scenario.pngBytes).
  reflexivity.
Defined.

(** An upload that is accepted and nothing else: the text extraction, both
    detections and the verification fail, and each leaves its line before
    the matcher's own. *)
Example accepted_then_refused :
  option_map VerificationResult.issues
    (match analyzeFile Scenario.host
             (Api.services Deployment.client Deployment.uploadOnly
                (fun _ => Threw "InvalidStateError"%string))
             Scenario.png with
     | Returned r => Some r | Threw _ => None end)
  = Some [ "Failed to read QR code from image";
           "AI-powered fake detection unavailable";
           "OCR text extraction failed";
           "AI-powered fake detection with OCR unavailable";
           "Backend verification unavailable - using local verification";
           "No registry match. Please contact issuing institution for manual validation"
         ]%string.
Proof. vm_compute. reflexivity. Qed.
